(** * Feedback analyzer: sentiment and urgency classification

    A shallow embedding of [src/ai/analyzer.ts] (the classifier
    [analyzeFeedback], its helpers [normalizeSentiment] and
    [fallbackAnalysis], and the batch runner [batchAnalyzeFeedback]),
    together with the parts of the JavaScript runtime the classifier
    relies on: string primitives, the two regular-expression steps,
    [JSON.parse], [parseInt], [parseFloat] and number-to-string conversion.

    Modelling conventions.
    - A JavaScript string is a [string] of bytes.  [toLowerCase] folds the
      ASCII letters; white space is the ASCII white space of ECMAScript
      (TAB, LF, VT, FF, CR, SP).
    - A JavaScript number is [NaN], an infinity, or a finite decimal
      [m * 10^e].  Every finite number of the program comes from a decimal
      literal (JSON text, [parseInt], [parseFloat], source constants), so
      decimals are closed under the program's operations.  Conversion from
      text overflows to an infinity and underflows to zero at the binary64
      thresholds; rounding of the mantissa to 53 bits is not modelled, and
      the two zeros are identified (they are indistinguishable to the
      classifier: both are falsy and both print as 0).
    - The model-call collaborator [ai.run] is a state transformer that
      either rejects with an [Error] (the handler reads [error.message]) or
      resolves to a response object.  [console.error] and the progress
      callback are recorded as events of a trace and return normally. *)

From Stdlib Require Import ZArith Lia Bool List Ascii String DecimalString.
From stdpp Require Import base option list gmap strings.

Set Warnings "-register-all".

Local Open Scope string_scope.
Local Open Scope Z_scope.

(** ** Characters *)

Module Char.

Definition code (c : ascii) : N := N_of_ascii c.

Definition dquote : ascii := ascii_of_N 34.
Definition backslash : ascii := ascii_of_N 92.
Definition newline : ascii := ascii_of_N 10.

(** ECMAScript [WhiteSpace] and [LineTerminator], ASCII range. *)
Definition isWhiteSpace (c : ascii) : bool :=
  let n := code c in
  (N.leb 9 n && N.leb n 13)%bool || N.eqb n 32.

Definition isDigit (c : ascii) : bool :=
  let n := code c in (N.leb 48 n && N.leb n 57)%bool.

Definition isUpper (c : ascii) : bool :=
  let n := code c in (N.leb 65 n && N.leb n 90)%bool.

Definition toLower (c : ascii) : ascii :=
  if isUpper c then ascii_of_N (code c + 32) else c.

End Char.

(** ** String primitives *)

Module Str.

Fixpoint map (f : ascii -> ascii) (s : string) : string :=
  match s with
  | EmptyString => EmptyString
  | String c s' => String (f c) (map f s')
  end.

(** [String.prototype.toLowerCase]. *)
Definition toLowerCase (s : string) : string := map Char.toLower s.

(** [startsWith s w]: [w] is a prefix of [s]. *)
Fixpoint startsWith (s w : string) {struct w} : bool :=
  match w, s with
  | EmptyString, _ => true
  | String _ _, EmptyString => false
  | String b w', String a s' => Ascii.eqb a b && startsWith s' w'
  end.

(** [String.prototype.includes]: [w] occurs in [s] at some position. *)
Fixpoint includes (s w : string) : bool :=
  startsWith s w ||
  match s with
  | EmptyString => false
  | String _ s' => includes s' w
  end.

Fixpoint drop (n : nat) (s : string) : string :=
  match n, s with
  | O, _ => s
  | S _, EmptyString => EmptyString
  | S n', String _ s' => drop n' s'
  end.

Fixpoint dropWhile (p : ascii -> bool) (s : string) : string :=
  match s with
  | EmptyString => EmptyString
  | String c s' => if p c then dropWhile p s' else s
  end.

Fixpoint rev_append (s acc : string) : string :=
  match s with
  | EmptyString => acc
  | String c s' => rev_append s' (String c acc)
  end.

Definition rev (s : string) : string := rev_append s EmptyString.

(** [String.prototype.trimStart] and [String.prototype.trim]. *)
Definition trimStart (s : string) : string := dropWhile Char.isWhiteSpace s.
Definition trimEnd (s : string) : string := rev (trimStart (rev s)).
Definition trim (s : string) : string := trimEnd (trimStart s).

(** Writing aid for literals that contain double quotes: every
    apostrophe of the argument stands for a double quote. *)
Definition q (s : string) : string :=
  map (fun c => if Ascii.eqb c "'"%char then Char.dquote else c) s.

End Str.

(** ** JavaScript numbers and values *)

Inductive JsNumber : Type :=
| NaN
| Infinity (negative : bool)
| Fin (m e : Z).          (* the decimal m * 10^e, kept with e <= 0 *)

Inductive JsValue : Type :=
| JUndefined
| JNull
| JBool (b : bool)
| JNum (n : JsNumber)
| JStr (s : string)
| JArr (elems : list JsValue)
| JObj (props : list (string * JsValue)).

Module Num.

Definition ofZ (z : Z) : JsNumber := Fin z 0.

(** Source constants. *)
Definition half : JsNumber := Fin 5 (-1).         (* 0.5 *)
Definition seven_tenths : JsNumber := Fin 7 (-1). (* 0.7 *)

(** Remove up to [n] trailing decimal zeros of the mantissa, raising the
    exponent, so that fractions have the shortest mantissa. *)
Fixpoint strip (n : nat) (m e : Z) : Z * Z :=
  match n with
  | O => (m, e)
  | S n' =>
      if (e <? 0) && (m mod 10 =? 0) then strip n' (m / 10) (e + 1)
      else (m, e)
  end.

(** Canonical form: integers are [Fin z 0]; a fraction has a negative
    exponent and a mantissa not divisible by ten. *)
Definition canon (m e : Z) : JsNumber :=
  if 0 <=? e then Fin (m * 10 ^ e) 0
  else let '(m', e') := strip (Z.to_nat (- e)) m e in Fin m' e'.

(** Binary64 range: magnitudes from [2^1024 - 2^970] on round to an
    infinity, magnitudes up to [2^-1075] round to zero. *)
Definition overflow_bound : Z := 2 ^ 1024 - 2 ^ 970.

(** [|m| * 10^e >= overflow_bound] *)
Definition overflows (m e : Z) : bool :=
  if 0 <=? e then overflow_bound <=? Z.abs m * 10 ^ e
  else overflow_bound * 10 ^ (- e) <=? Z.abs m.

(** [|m| * 10^e <= 2^-1075] *)
Definition underflows (m e : Z) : bool :=
  if 0 <=? e then m =? 0
  else Z.abs m * 2 ^ 1075 <=? 10 ^ (- e).

(** The number denoted by the decimal text value [m * 10^e]. *)
Definition ofDecimal (m e : Z) : JsNumber :=
  if overflows m e then Infinity (m <? 0)
  else if underflows m e then Fin 0 0
  else canon m e.

(** [ToBoolean] on numbers: [NaN] and zero are falsy. *)
Definition truthy (x : JsNumber) : bool :=
  match x with
  | NaN => false
  | Infinity _ => true
  | Fin m _ => negb (m =? 0)
  end.

(** [x || d] for a number [x]. *)
Definition orElse (x d : JsNumber) : JsNumber := if truthy x then x else d.

(** [x <= y] on non-[NaN] numbers. *)
Definition leb (x y : JsNumber) : bool :=
  match x, y with
  | NaN, _ | _, NaN => false
  | Infinity true, _ => true
  | _, Infinity false => true
  | Infinity false, _ => false
  | _, Infinity true => false
  | Fin m1 e1, Fin m2 e2 => m1 * 10 ^ (- e2) <=? m2 * 10 ^ (- e1)
  end.

(** [Math.max] and [Math.min] of two arguments. *)
Definition max (x y : JsNumber) : JsNumber :=
  match x, y with
  | NaN, _ | _, NaN => NaN
  | _, _ => if leb x y then y else x
  end.

Definition min (x y : JsNumber) : JsNumber :=
  match x, y with
  | NaN, _ | _, NaN => NaN
  | _, _ => if leb x y then x else y
  end.

(** The number lies in the closed real interval [[0, 1]]. *)
Definition inUnitInterval (x : JsNumber) : Prop :=
  match x with
  | Fin m e => 0 <= m /\ m <= 10 ^ (- e)
  | _ => False
  end.

End Num.

(** ** The classification result *)

Record AnalysisResult : Type := mkAnalysis {
  sentiment : string;
  urgency : JsNumber;
  confidence : JsNumber;
  reasoning : JsValue
}.

(** ** The fallback heuristic *)

Definition positiveWords : list string :=
  ["great"; "love"; "excellent"; "amazing"; "wonderful"; "fantastic";
   "good"; "helpful"; "easy"; "smooth"].

Definition negativeWords : list string :=
  ["bug"; "broken"; "crash"; "error"; "fail"; "slow"; "bad"; "terrible";
   "worst"; "issue"].

Definition urgentWords : list string :=
  ["urgent"; "critical"; "production"; "down"; "blocker"; "immediately"].

(** [words.filter((word) => lowerContent.includes(word)).length] *)
Definition countMatches (lowerContent : string) (words : list string) : nat :=
  List.length (List.filter (fun word => Str.includes lowerContent word) words).

Definition fallbackReasoning : string := "Fallback rule-based analysis".

Definition fallbackAnalysis (content : string) : AnalysisResult :=
  let lowerContent := Str.toLowerCase content in
  let positiveCount := countMatches lowerContent positiveWords in
  let negativeCount := countMatches lowerContent negativeWords in
  let urgentCount := countMatches lowerContent urgentWords in
  let sentiment :=
    if (negativeCount <? positiveCount)%nat then "positive"
    else if (positiveCount <? negativeCount)%nat then "negative"
    else "neutral" in
  let urgency :=
    if (0 <? urgentCount)%nat then 5
    else if (2 <? negativeCount)%nat then 4
    else if (0 <? negativeCount)%nat then 3
    else if (0 <? positiveCount)%nat then 1
    else 3 in
  {| sentiment := sentiment;
     urgency := Num.ofZ urgency;
     confidence := Num.half;
     reasoning := JStr fallbackReasoning |}.

(** ** Exceptions and results *)

Inductive Exn : Type :=
| TypeError                      (* a runtime TypeError *)
| SyntaxError                    (* raised by JSON.parse *)
| NoJsonFound                    (* Error('No JSON found in AI response') *)
| AiError (message : string).    (* rejection of the model call *)

Inductive Result (A : Type) : Type :=
| Ok (a : A)
| Throw (e : Exn).

Arguments Ok {A} a.
Arguments Throw {A} e.

#[global] Instance Result_ret : MRet Result := fun _ a => Ok a.

#[global] Instance Result_bind : MBind Result := fun _ _ f x =>
  match x with
  | Ok a => f a
  | Throw e => Throw e
  end.

(** ** Number to string, value to string *)

Module Conv.

Definition digitsOfZ (n : Z) : string :=
  NilZero.string_of_uint (N.to_uint (Z.to_N n)).

Fixpoint zeros (n : nat) : string :=
  match n with
  | O => EmptyString
  | S n' => String "0" (zeros n')
  end.

Fixpoint take (n : nat) (s : string) : string :=
  match n, s with
  | O, _ => EmptyString
  | S _, EmptyString => EmptyString
  | S n', String c s' => String c (take n' s')
  end.

(** The decimal digits of a positive integer without its trailing zeros. *)
Definition significand (a : Z) : string :=
  Str.rev (Str.dropWhile (fun c => Ascii.eqb c "0") (Str.rev (digitsOfZ a))).

(** [Number::toString] in radix 10.  With [s] the significant digits,
    [k] their number and [n] the position of the decimal point, the value
    is [s * 10^(n-k)]; plain notation is used for [-5 <= n <= 21] and
    exponent notation otherwise. *)
Definition numberToString (x : JsNumber) : string :=
  match x with
  | NaN => "NaN"
  | Infinity false => "Infinity"
  | Infinity true => "-Infinity"
  | Fin m e =>
      if m =? 0 then "0"
      else
        let sign := if m <? 0 then "-" else "" in
        let a := Z.abs m in
        let s := significand a in
        let k := String.length s in
        let n := Z.of_nat (String.length (digitsOfZ a)) + e in
        let body :=
          if (-5 <=? n) && (n <=? 21) then
            if Z.of_nat k <=? n then s +:+ zeros (Z.to_nat n - k)
            else if 0 <? n then
              take (Z.to_nat n) s +:+ "." +:+ Str.drop (Z.to_nat n) s
            else "0." +:+ zeros (Z.to_nat (- n)) +:+ s
          else
            let ex := n - 1 in
            let exponent :=
              "e" +:+ (if ex <? 0 then "-" else "+") +:+ digitsOfZ (Z.abs ex) in
            if (k =? 1)%nat then s +:+ exponent
            else take 1 s +:+ "." +:+ Str.drop 1 s +:+ exponent in
        sign +:+ body
  end.

(** The own property [key] of an object built by [JSON.parse]: a repeated
    key keeps its last value. *)
Fixpoint getOwn (props : list (string * JsValue)) (key : string) : option JsValue :=
  match props with
  | [] => None
  | (k, v) :: rest =>
      match getOwn rest key with
      | Some v' => Some v'
      | None => if String.eqb k key then Some v else None
      end
  end.

(** [ToString].  An array prints through [Array.prototype.join]; a plain
    object prints as [[object Object]], unless it has an own property
    [toString]: a value from JSON is never callable, [valueOf] then yields
    no primitive either, and [ToPrimitive] raises a TypeError. *)
Fixpoint toString (v : JsValue) : Result string :=
  match v with
  | JUndefined => Ok "undefined"
  | JNull => Ok "null"
  | JBool true => Ok "true"
  | JBool false => Ok "false"
  | JNum n => Ok (numberToString n)
  | JStr s => Ok s
  | JArr elems =>
      (fix join (l : list JsValue) : Result string :=
         match l with
         | [] => Ok ""
         | x :: rest =>
             s ← match x with
                 | JUndefined | JNull => Ok ""
                 | _ => toString x
                 end;
             match rest with
             | [] => Ok s
             | _ :: _ => r ← join rest; Ok (s +:+ "," +:+ r)
             end
         end) elems
  | JObj props =>
      match getOwn props "toString" with
      | Some _ => Throw TypeError
      | None => Ok "[object Object]"
      end
  end.

End Conv.

(** ** [parseInt] and [parseFloat] *)

Module Parse.

Fixpoint takeWhile (p : ascii -> bool) (s : string) : string :=
  match s with
  | EmptyString => EmptyString
  | String c s' => if p c then String c (takeWhile p s') else EmptyString
  end.

Definition isHexDigit (c : ascii) : bool :=
  let n := Char.code c in
  Char.isDigit c || (N.leb 97 n && N.leb n 102) || (N.leb 65 n && N.leb n 70).

Definition hexValue (c : ascii) : Z :=
  let n := Z.of_N (Char.code c) in
  if Char.isDigit c then n - 48
  else if 97 <=? n then n - 87
  else n - 55.

(** The integer written by the digits [s] in radix [radix]. *)
Fixpoint digitsValue (radix acc : Z) (s : string) : Z :=
  match s with
  | EmptyString => acc
  | String c s' => digitsValue radix (acc * radix + hexValue c) s'
  end.

(** An optional leading sign: the sign as [1] or [-1], and the rest. *)
Definition takeSign (s : string) : Z * string :=
  match s with
  | EmptyString => (1, s)
  | String c r =>
      if Ascii.eqb c "-" then (-1, r)
      else if Ascii.eqb c "+" then (1, r)
      else (1, s)
  end.

(** [parseInt(string)] with no radix argument: leading white space is
    skipped, a sign is read, a [0x] prefix selects radix 16, and the
    longest run of digits is converted; no digit at all gives [NaN]. *)
Definition parseIntString (input : string) : JsNumber :=
  let '(sign, s1) := takeSign (Str.trimStart input) in
  let '(radix, s2) :=
    if Str.startsWith s1 "0x" || Str.startsWith s1 "0X"
    then (16, Str.drop 2 s1) else (10, s1) in
  let z := takeWhile (if radix =? 16 then isHexDigit else Char.isDigit) s2 in
  match z with
  | EmptyString => NaN
  | String _ _ => Num.ofDecimal (sign * digitsValue radix 0 z) 0
  end.

(** The exponent part [e[+-]digits] when it is well formed: its value and
    the rest; otherwise exponent 0 and the text untouched. *)
Definition takeExponent (s : string) : Z * string :=
  match s with
  | EmptyString => (0, s)
  | String c r =>
      if Ascii.eqb c "e" || Ascii.eqb c "E" then
        let '(sign, r1) := takeSign r in
        match takeWhile Char.isDigit r1 with
        | EmptyString => (0, s)
        | String _ _ as ds => (sign * digitsValue 10 0 ds, Str.dropWhile Char.isDigit r1)
        end
      else (0, s)
  end.

(** [parseFloat(string)]: the longest prefix of the trimmed text that is a
    [StrDecimalLiteral]; [NaN] when there is none. *)
Definition parseFloatString (input : string) : JsNumber :=
  let '(sign, s1) := takeSign (Str.trimStart input) in
  if Str.startsWith s1 "Infinity" then Infinity (sign <? 0)
  else
    let intd := takeWhile Char.isDigit s1 in
    let s2 := Str.dropWhile Char.isDigit s1 in
    let '(fracd, s3) :=
      match s2 with
      | EmptyString => (EmptyString, s2)
      | String c r =>
          if Ascii.eqb c "." then
            let fd := takeWhile Char.isDigit r in
            match intd, fd with
            | EmptyString, EmptyString => (EmptyString, s2)
            | _, _ => (fd, Str.dropWhile Char.isDigit r)
            end
          else (EmptyString, s2)
      end in
    match intd +:+ fracd with
    | EmptyString => NaN
    | String _ _ as ds =>
        let '(ex, _) := takeExponent s3 in
        Num.ofDecimal (sign * digitsValue 10 0 ds)
                      (ex - Z.of_nat (String.length fracd))
    end.

(** [parseInt(v)] and [parseFloat(v)] first convert their argument with
    [ToString], which can raise. *)
Definition parseInt (v : JsValue) : Result JsNumber :=
  s ← Conv.toString v; Ok (parseIntString s).

Definition parseFloat (v : JsValue) : Result JsNumber :=
  s ← Conv.toString v; Ok (parseFloatString s).

End Parse.

(** ** [JSON.parse] *)

Module Json.

Definition isWs (c : ascii) : bool :=
  let n := Char.code c in
  N.eqb n 9 || N.eqb n 10 || N.eqb n 13 || N.eqb n 32.

Definition skipWs (s : string) : string := Str.dropWhile isWs s.

(** The code unit written by four hexadecimal digits. *)
Definition hex4 (a b c d : ascii) : option Z :=
  if Parse.isHexDigit a && Parse.isHexDigit b
     && Parse.isHexDigit c && Parse.isHexDigit d
  then Some (Parse.digitsValue 16 0
               (String a (String b (String c (String d EmptyString)))))
  else None.

Definition byte (z : Z) : ascii := ascii_of_N (Z.to_N z).

(** The bytes of a code unit: itself below 128, its UTF-8 form above
    (a surrogate is encoded on its own). *)
Definition encodeUnit (n : Z) (tail : string) : string :=
  if n <? 128 then String (byte n) tail
  else if n <? 2048 then
    String (byte (192 + n / 64)) (String (byte (128 + n mod 64)) tail)
  else
    String (byte (224 + n / 4096))
      (String (byte (128 + (n / 64) mod 64))
         (String (byte (128 + n mod 64)) tail)).

Definition simpleEscape (c : ascii) : option ascii :=
  if Ascii.eqb c Char.dquote then Some Char.dquote
  else if Ascii.eqb c Char.backslash then Some Char.backslash
  else if Ascii.eqb c "/" then Some "/"%char
  else if Ascii.eqb c "b" then Some (ascii_of_N 8)
  else if Ascii.eqb c "f" then Some (ascii_of_N 12)
  else if Ascii.eqb c "n" then Some (ascii_of_N 10)
  else if Ascii.eqb c "r" then Some (ascii_of_N 13)
  else if Ascii.eqb c "t" then Some (ascii_of_N 9)
  else None.

(** The characters of a string literal after its opening quote: the
    decoded content and the text after the closing quote. *)
Fixpoint parseChars (s : string) : option (string * string) :=
  match s with
  | EmptyString => None
  | String c s' =>
      if Ascii.eqb c Char.dquote then Some (EmptyString, s')
      else if Ascii.eqb c Char.backslash then
        match s' with
        | EmptyString => None
        | String e s'' =>
            match simpleEscape e with
            | Some ch =>
                '(body, rest) ← parseChars s''; Some (String ch body, rest)
            | None =>
                if Ascii.eqb e "u" then
                  match s'' with
                  | String h1 (String h2 (String h3 (String h4 s4))) =>
                      n ← hex4 h1 h2 h3 h4;
                      '(body, rest) ← parseChars s4;
                      Some (encodeUnit n body, rest)
                  | _ => None
                  end
                else None
            end
        end
      else if N.ltb (Char.code c) 32 then None
      else '(body, rest) ← parseChars s'; Some (String c body, rest)
  end.

(** A number literal: an optional minus sign; the integer part, a single
    0 or a digit run that does not start with 0; an optional fraction, a
    dot and at least one digit; an optional exponent, e or E, an optional
    sign and at least one digit. *)
Definition parseNumber (s : string) : option (JsNumber * string) :=
  let '(sign, s1) :=
    match s with
    | EmptyString => (1, s)
    | String c r => if Ascii.eqb c "-" then (-1, r) else (1, s)
    end in
  match s1 with
  | EmptyString => None
  | String c r =>
      if Char.isDigit c then
        let '(intd, s2) :=
          if Ascii.eqb c "0" then ("0", r)
          else (Parse.takeWhile Char.isDigit s1, Str.dropWhile Char.isDigit s1) in
        '(fracd, s3) ←
          match s2 with
          | EmptyString => Some (EmptyString, s2)
          | String d r2 =>
              if Ascii.eqb d "." then
                match Parse.takeWhile Char.isDigit r2 with
                | EmptyString => None
                | String _ _ as fd => Some (fd, Str.dropWhile Char.isDigit r2)
                end
              else Some (EmptyString, s2)
          end;
        '(ex, s4) ←
          match s3 with
          | EmptyString => Some (0, s3)
          | String d r3 =>
              if Ascii.eqb d "e" || Ascii.eqb d "E" then
                let '(esign, r4) := Parse.takeSign r3 in
                match Parse.takeWhile Char.isDigit r4 with
                | EmptyString => None
                | String _ _ as ed =>
                    Some (esign * Parse.digitsValue 10 0 ed,
                          Str.dropWhile Char.isDigit r4)
                end
              else Some (0, s3)
          end;
        Some (Num.ofDecimal (sign * Parse.digitsValue 10 0 (intd +:+ fracd))
                            (ex - Z.of_nat (String.length fracd)),
              s4)
      else None
  end.

(** Recursive descent over values, object members and array elements.
    Every call consumes a character within two levels of recursion, so
    [fuel] twice the length of the text is never exhausted. *)
Fixpoint parseValue (fuel : nat) (s : string) : option (JsValue * string) :=
  match fuel with
  | O => None
  | S fuel' =>
      match skipWs s with
      | EmptyString => None
      | String c r as s0 =>
          if Ascii.eqb c "{" then
            match skipWs r with
            | EmptyString => None
            | String c1 r1 as r0 =>
                if Ascii.eqb c1 "}" then Some (JObj [], r1)
                else '(props, rest) ← parseMembers fuel' r0;
                     Some (JObj props, rest)
            end
          else if Ascii.eqb c "[" then
            match skipWs r with
            | EmptyString => None
            | String c1 r1 as r0 =>
                if Ascii.eqb c1 "]" then Some (JArr [], r1)
                else '(elems, rest) ← parseElements fuel' r0;
                     Some (JArr elems, rest)
            end
          else if Ascii.eqb c Char.dquote then
            '(str, rest) ← parseChars r; Some (JStr str, rest)
          else if Str.startsWith s0 "true" then Some (JBool true, Str.drop 4 s0)
          else if Str.startsWith s0 "false" then Some (JBool false, Str.drop 5 s0)
          else if Str.startsWith s0 "null" then Some (JNull, Str.drop 4 s0)
          else '(n, rest) ← parseNumber s0; Some (JNum n, rest)
      end
  end
with parseMembers (fuel : nat) (s : string)
  : option (list (string * JsValue) * string) :=
  match fuel with
  | O => None
  | S fuel' =>
      match skipWs s with
      | EmptyString => None
      | String c r =>
          if Ascii.eqb c Char.dquote then
            '(key, r1) ← parseChars r;
            match skipWs r1 with
            | EmptyString => None
            | String c2 r2 =>
                if Ascii.eqb c2 ":" then
                  '(v, r3) ← parseValue fuel' r2;
                  match skipWs r3 with
                  | EmptyString => None
                  | String c4 r4 =>
                      if Ascii.eqb c4 "," then
                        '(more, r5) ← parseMembers fuel' r4;
                        Some ((key, v) :: more, r5)
                      else if Ascii.eqb c4 "}" then Some ([(key, v)], r4)
                      else None
                  end
                else None
            end
          else None
      end
  end
with parseElements (fuel : nat) (s : string)
  : option (list JsValue * string) :=
  match fuel with
  | O => None
  | S fuel' =>
      '(v, r1) ← parseValue fuel' s;
      match skipWs r1 with
      | EmptyString => None
      | String c2 r2 =>
          if Ascii.eqb c2 "," then
            '(more, r3) ← parseElements fuel' r2; Some (v :: more, r3)
          else if Ascii.eqb c2 "]" then Some ([v], r2)
          else None
      end
  end.

(** [JSON.parse(text)]: one value, white space around it, nothing else. *)
Definition parse (text : string) : Result JsValue :=
  match parseValue (2 * String.length text + 2) text with
  | Some (v, rest) =>
      match skipWs rest with
      | EmptyString => Ok v
      | String _ _ => Throw SyntaxError
      end
  | None => Throw SyntaxError
  end.

End Json.

(** ** The two regular-expression steps of the classifier *)

Module Regex.

(** [s.replace(/FENCE\n?/g, '')] for a literal, non-empty [fence]: every
    occurrence of the fence, with the line feed after it when there is
    one, is deleted, scanning from the left.  [skip] counts the characters
    of the current occurrence still to delete. *)
Fixpoint removeAll (fence : string) (skip : nat) (s : string) : string :=
  match s with
  | EmptyString => EmptyString
  | String c s' =>
      match skip with
      | S k => removeAll fence k s'
      | O =>
          if Str.startsWith s fence then
            let n := String.length fence in
            let lf :=
              if Str.startsWith (Str.drop n s) (String Char.newline EmptyString)
              then 1%nat else 0%nat in
            removeAll fence (n + lf - 1) s'
          else String c (removeAll fence O s')
      end
  end.

(** [.replace(/```json\n?/g, '').replace(/```\n?/g, '')] *)
Definition stripFences (s : string) : string :=
  removeAll "```" O (removeAll "```json" O s).

(** The greedy tail [[\s\S]*\}] anchored at the start of [s]: the longest
    prefix of [s] that ends with a closing brace. *)
Fixpoint throughLastClose (s : string) : option string :=
  match s with
  | EmptyString => None
  | String c s' =>
      match throughLastClose s' with
      | Some m => Some (String c m)
      | None => if Ascii.eqb c "}" then Some (String c EmptyString) else None
      end
  end.

(** [s.match(/\{[\s\S]*\}/)]: the leftmost position where the pattern
    matches, and there the longest match; [None] is JavaScript's [null]. *)
Fixpoint matchObject (s : string) : option string :=
  match s with
  | EmptyString => None
  | String c s' =>
      if Ascii.eqb c "{" then
        match throughLastClose s' with
        | Some m => Some (String c m)
        | None => matchObject s'
        end
      else matchObject s'
  end.

End Regex.

(** ** The classifier *)

(** What the awaited call [ai.run(model, options)] does: it rejects with
    an [Error] carrying a message, or resolves to a response object. *)
Inductive AiOutcome : Type :=
| AiRejects (message : string)
| AiResolves (response : JsValue).

Inductive Event : Type :=
| EvAiRun (model prompt : string) (max_tokens : Z)
| EvConsoleError (label : string) (e : Exn)
| EvProgress (completed total : nat).

Definition modelName : string := "@cf/meta/llama-3-8b-instruct".

Definition prompt (content : string) : string :=
  Str.q "You are a sentiment analyzer for product feedback. Analyze the following feedback and respond ONLY with a JSON object (no markdown, no extra text) in this exact format:
{
  'sentiment': 'positive|negative|neutral',
  'urgency': 1-5,
  'confidence': 0.0-1.0,
  'reasoning': 'brief explanation'
}

Urgency scale:
1 = Nice to have, feature request
2 = Minor issue or suggestion
3 = Moderate issue
4 = Important bug or blocker
5 = Critical/production issue, immediate action needed

Feedback to analyze: '" +:+ content +:+ Str.q "'

JSON response:".

(** Property read [v.key] for a key that no prototype defines: a missing
    property reads as [undefined]; reading from [null] or [undefined]
    raises a TypeError. *)
Definition getProp (v : JsValue) (key : string) : Result JsValue :=
  match v with
  | JUndefined | JNull => Throw TypeError
  | JObj props => Ok (default JUndefined (Conv.getOwn props key))
  | _ => Ok JUndefined
  end.

(** Method call [v.trim()] / [v.toLowerCase()]: only a string has the
    method; on any other value the call raises a TypeError. *)
Definition callStringMethod (f : string -> string) (v : JsValue) : Result string :=
  match v with
  | JStr s => Ok (f s)
  | _ => Throw TypeError
  end.

Definition normalizeSentiment (sentiment : JsValue) : Result string :=
  s ← callStringMethod Str.toLowerCase sentiment;
  if Str.includes s "positive" then Ok "positive"
  else if Str.includes s "negative" then Ok "negative"
  else Ok "neutral".

(** The object literal of the [return] statement: each field of the
    parsed [analysis] is normalised in turn. *)
Definition buildResult (analysis : JsValue) : Result AnalysisResult :=
  sentiment ← getProp analysis "sentiment" ≫= normalizeSentiment;
  parsedUrgency ← getProp analysis "urgency" ≫= Parse.parseInt;
  parsedConfidence ← getProp analysis "confidence" ≫= Parse.parseFloat;
  reasoning ← getProp analysis "reasoning";
  Ok {| sentiment := sentiment;
        urgency := Num.min (Num.ofZ 5)
                     (Num.max (Num.ofZ 1) (Num.orElse parsedUrgency (Num.ofZ 3)));
        confidence := Num.orElse parsedConfidence Num.seven_tenths;
        reasoning := reasoning |}.

(** The text handed to [JSON.parse]: the response text trimmed, without
    its code fences, cut down to the match of the brace pattern. *)
Definition extractJson (result : JsValue) : Result string :=
  jsonStr ← callStringMethod Str.trim result;
  let jsonStr := Regex.stripFences jsonStr in
  match Regex.matchObject jsonStr with
  | None => Throw NoJsonFound
  | Some m => Ok m
  end.

(** The body of the [try] block of [analyzeFeedback], from the awaited
    outcome of the model call on. *)
Definition modelPath (outcome : AiOutcome) : Result AnalysisResult :=
  response ← match outcome with
             | AiRejects message => Throw (AiError message)
             | AiResolves response => Ok response
             end;
  result ← getProp response "response";
  jsonMatch ← extractJson result;
  analysis ← Json.parse jsonMatch;
  buildResult analysis.

Record Feedback : Type := mkFeedback {
  id : Z;
  content : string
}.

Section Classifier.

(** The model-call collaborator: its state and its [run] method. *)
Variable AiState : Type.
Variable ai_run : string -> string -> Z -> AiState -> AiOutcome * AiState.

Record World : Type := mkWorld {
  ai : AiState;
  trace : list Event        (* oldest event first *)
}.

Definition M (A : Type) : Type := World -> A * World.

#[local] Instance M_ret : MRet M := fun _ a w => (a, w).

#[local] Instance M_bind : MBind M := fun _ _ f c w =>
  let '(a, w') := c w in f a w'.

Definition emit (ev : Event) : M unit := fun w =>
  (tt, {| ai := ai w; trace := trace w ++ [ev] |}).

(** [await ai.run(model, { prompt, max_tokens })] *)
Definition aiRun (model prompt : string) (max_tokens : Z) : M AiOutcome :=
  fun w =>
    let '(outcome, ai') := ai_run model prompt max_tokens (ai w) in
    (outcome, {| ai := ai'; trace := trace w ++ [EvAiRun model prompt max_tokens] |}).

Definition analyzeFeedback (content : string) : M AnalysisResult :=
  outcome ← aiRun modelName (prompt content) 150;
  match modelPath outcome with
  | Ok analysis => mret analysis
  | Throw error =>
      emit (EvConsoleError "AI analysis error:" error);;
      mret (fallbackAnalysis content)
  end.

(** The loop of [batchAnalyzeFeedback] from index [i] on; [rest] is the
    part of the list from index [i], [total] is [feedbackList.length]. *)
Fixpoint batchLoop (onProgress : bool) (total i : nat) (rest : list Feedback)
    (results : gmap Z AnalysisResult) : M (gmap Z AnalysisResult) :=
  match rest with
  | [] => mret results
  | feedback :: rest' =>
      analysis ← analyzeFeedback (content feedback);
      let results := <[id feedback := analysis]> results in
      (if onProgress then emit (EvProgress (i + 1) total) else mret tt);;
      batchLoop onProgress total (S i) rest' results
  end.

(** [onProgress] tells whether the optional callback is supplied. *)
Definition batchAnalyzeFeedback (feedbackList : list Feedback) (onProgress : bool)
  : M (gmap Z AnalysisResult) :=
  batchLoop onProgress (List.length feedbackList) 0 feedbackList ∅.

End Classifier.

Arguments mkWorld {AiState} ai trace.
Arguments ai {AiState} w.
Arguments trace {AiState} w.
Arguments emit {AiState} ev w.
Arguments aiRun {AiState} ai_run model prompt max_tokens w.
Arguments analyzeFeedback {AiState} ai_run content w.
Arguments batchLoop {AiState} ai_run onProgress total i rest results w.
Arguments batchAnalyzeFeedback {AiState} ai_run feedbackList onProgress w.
Arguments prompt : simpl never.
Arguments modelName : simpl never.

(** A collaborator that resolves every call to the response text [text],
    and one that rejects every call; used to run the classifier on
    concrete responses. *)
Definition respond (text : string) : AiOutcome :=
  AiResolves (JObj [("response", JStr text)]).

Definition scriptedAi (outcome : AiOutcome)
  : string -> string -> Z -> unit -> AiOutcome * unit :=
  fun _ _ _ st => (outcome, st).

Definition emptyWorld : World unit := mkWorld tt [].

(** ** Observations on traces *)

(** The arguments of the progress callback, in order of invocation. *)
Fixpoint progressCalls (t : list Event) : list (nat * nat) :=
  match t with
  | [] => []
  | EvProgress completed total :: t' => (completed, total) :: progressCalls t'
  | _ :: t' => progressCalls t'
  end.

(** The prompts sent to the model, in order. *)
Fixpoint modelCalls (t : list Event) : list string :=
  match t with
  | [] => []
  | EvAiRun _ p _ :: t' => p :: modelCalls t'
  | _ :: t' => modelCalls t'
  end.

Definition isLog (ev : Event) : bool :=
  match ev with
  | EvConsoleError _ _ => true
  | _ => false
  end.

(** The trace without its console messages. *)
Definition withoutLogs (t : list Event) : list Event :=
  List.filter (fun ev => negb (isLog ev)) t.

(** What a sequential run over [items] does from index [i] on: for each
    item in turn, the model call for its text, then the progress report. *)
Fixpoint sequentialRun (total i : nat) (items : list Feedback) : list Event :=
  match items with
  | [] => []
  | feedback :: rest =>
      EvAiRun modelName (prompt (content feedback)) 150
        :: EvProgress (i + 1) total
        :: sequentialRun total (S i) rest
  end.

Definition isProgress (ev : Event) : bool :=
  match ev with
  | EvProgress _ _ => true
  | _ => false
  end.

(** The trace without its progress reports. *)
Definition withoutProgress (t : list Event) : list Event :=
  List.filter (fun ev => negb (isProgress ev)) t.

(** The invariants of a Judgment that hold on both paths. *)
Definition wellFormed (r : AnalysisResult) : Prop :=
  (sentiment r = "positive" \/ sentiment r = "negative" \/ sentiment r = "neutral")
  /\ (exists z, urgency r = Num.ofZ z /\ 1 <= z <= 5)
  /\ Num.truthy (confidence r) = true.

(** * The HTTP worker

    A shallow embedding of [src/index.ts]: the router [fetch] and its six
    handlers.  The database binding is a second collaborator: a state
    transformer that resolves or rejects each statement.  A request
    carries its parsed URL and its body text; a response is described by
    the arguments given to the [Response] constructor (status, headers,
    body), and a body made by [JSON.stringify] by the value that is
    serialised.  The values that reach the handlers are those of JSON
    texts and of database rows; the callers of the classifier pass them
    on without a runtime check, so the classifier is embedded a second
    time for an argument of any type. *)

(** ** Values at run time *)

Module Js.

(** [ToBoolean]. *)
Definition truthy (v : JsValue) : bool :=
  match v with
  | JUndefined | JNull => false
  | JBool b => b
  | JNum n => Num.truthy n
  | JStr s => negb (String.eqb s "")
  | JArr _ | JObj _ => true
  end.

(** [a || b] *)
Definition or (a b : JsValue) : JsValue := if truthy a then a else b.

(** [a?.key] *)
Definition optProp (a : JsValue) (key : string) : Result JsValue :=
  match a with
  | JUndefined | JNull => Ok JUndefined
  | _ => getProp a key
  end.

(** [rows[0]] *)
Definition first (rows : list JsValue) : JsValue := default JUndefined (head rows).

(** [rows.length] and other counts as numbers. *)
Definition ofNat (n : nat) : JsValue := JNum (Num.ofZ (Z.of_nat n)).

(** The keys of a [Map] are compared with SameValueZero: primitives by
    value, objects by identity.  The keys met here are fields of distinct
    rows, so two keys that are objects are never the same object. *)
Definition sameValueZero (a b : JsValue) : bool :=
  match a, b with
  | JUndefined, JUndefined | JNull, JNull => true
  | JBool x, JBool y => Bool.eqb x y
  | JNum NaN, JNum NaN => true
  | JNum (Infinity x), JNum (Infinity y) => Bool.eqb x y
  | JNum (Fin m1 e1), JNum (Fin m2 e2) => (m1 =? m2) && (e1 =? e2)
  | JStr x, JStr y => String.eqb x y
  | _, _ => false
  end.

(** [map.set(key, a)] on a [Map] kept as the list of its entries in
    insertion order: an existing key keeps its place. *)
Fixpoint mapSet {A : Type} (key : JsValue) (a : A) (m : list (JsValue * A))
  : list (JsValue * A) :=
  match m with
  | [] => [(key, a)]
  | (k, x) :: m' =>
      if sameValueZero k key then (k, a) :: m'
      else (k, x) :: mapSet key a m'
  end.

End Js.

(** The object literal [{ sentiment, urgency, confidence, reasoning }]
    that [analyzeFeedback] returns, as a value. *)
Definition analysisValue (a : AnalysisResult) : JsValue :=
  JObj [("sentiment", JStr (sentiment a)); ("urgency", JNum (urgency a));
        ("confidence", JNum (confidence a)); ("reasoning", reasoning a)].

(** ** The classifier on an argument of any type *)

Section DynamicClassifier.

Variable AiState : Type.
Variable ai_run : string -> string -> Z -> AiState -> AiOutcome * AiState.

#[local] Existing Instance M_ret.
#[local] Existing Instance M_bind.

(** [analyzeFeedback(content, ai)] when [content] need not be a string.
    The template literal of the prompt converts it with [ToString], which
    can raise before the [try] block is entered; in the handler,
    [fallbackAnalysis] calls [content.toLowerCase()], which raises a
    TypeError on anything but a string. *)
Definition analyzeFeedbackDyn (content : JsValue) : M AiState (Result AnalysisResult) :=
  match content with
  | JStr text => analysis ← analyzeFeedback ai_run text; mret (Ok analysis)
  | _ =>
      match Conv.toString content with
      | Throw e => mret (Throw e)
      | Ok text =>
          outcome ← aiRun ai_run modelName (prompt text) 150;
          match modelPath outcome with
          | Ok analysis => mret (Ok analysis)
          | Throw error =>
              emit (EvConsoleError "AI analysis error:" error);;
              mret (Throw TypeError)
          end
      end
  end.

(** The loop of [batchAnalyzeFeedback] on items of any type, without a
    callback (its only caller passes none): the first exception ends the
    loop. *)
Fixpoint batchLoopDyn (rest : list (JsValue * JsValue))
    (results : list (JsValue * AnalysisResult))
  : M AiState (Result (list (JsValue * AnalysisResult))) :=
  match rest with
  | [] => mret (Ok results)
  | (id, content) :: rest' =>
      r ← analyzeFeedbackDyn content;
      match r with
      | Throw e => mret (Throw e)
      | Ok analysis => batchLoopDyn rest' (Js.mapSet id analysis results)
      end
  end.

Definition batchAnalyzeFeedbackDyn (feedbackList : list (JsValue * JsValue))
  : M AiState (Result (list (JsValue * AnalysisResult))) :=
  batchLoopDyn feedbackList [].

End DynamicClassifier.

Arguments analyzeFeedbackDyn {AiState} ai_run content w.
Arguments batchLoopDyn {AiState} ai_run rest results w.
Arguments batchAnalyzeFeedbackDyn {AiState} ai_run feedbackList w.


(** ** Requests, responses and the database binding *)

Inductive Thrown : Type :=
| ThrownJs (e : Exn)             (* an exception of the runtime *)
| ThrownDb (message : string).   (* a rejection of the database binding *)

Inductive Attempt (A : Type) : Type :=
| Done (a : A)
| Raised (e : Thrown).

Arguments Done {A} a.
Arguments Raised {A} e.

Record URL : Type := mkURL {
  pathname : string;
  searchParams : list (string * string)   (* in the order of the query string *)
}.

Record Request : Type := mkRequest {
  method : string;
  url : URL;
  requestBody : string
}.

Inductive Body : Type :=
| BodyNull
| BodyText (text : string)
| BodyJson (value : JsValue)     (* JSON.stringify(value) *)
| BodyError (e : Thrown).        (* JSON.stringify({ error: e.message }) *)

Record Response : Type := mkResponse {
  status : Z;
  headers : list (string * string);
  body : Body
}.

(** What an awaited statement of the database binding does. *)
Inductive DbOutcome (A : Type) : Type :=
| DbRejects (message : string)
| DbResolves (a : A).

Arguments DbRejects {A} message.
Arguments DbResolves {A} a.

Inductive DbMethod : Type := DbAll | DbRun.

Inductive Effect : Type :=
| ClassifierEvent (ev : Event)
| DbStatement (m : DbMethod) (sql : string) (params : list JsValue).

Definition corsHeaders : list (string * string) :=
  [("Access-Control-Allow-Origin", "*");
   ("Access-Control-Allow-Methods", "GET, POST, OPTIONS");
   ("Access-Control-Allow-Headers", "Content-Type")].

(** [{ ...corsHeaders, 'Content-Type': 'application/json' }] *)
Definition jsonHeaders : list (string * string) :=
  (corsHeaders ++ [("Content-Type", "application/json")])%list.

(** [new Response(JSON.stringify(value), { status, headers: jsonHeaders })] *)
Definition jsonResponse (status : Z) (value : JsValue) : Response :=
  {| status := status; headers := jsonHeaders; body := BodyJson value |}.

(** [url.searchParams.get(name)]: the first value given for [name]. *)
Definition searchGet (u : URL) (name : string) : option string :=
  snd <$> List.find (fun p => String.eqb (fst p) name) (searchParams u).

(** A string-or-null taken as a condition: null and the empty string are
    falsy. *)
Definition nonEmpty (o : option string) : option string :=
  match o with
  | Some EmptyString => None
  | _ => o
  end.

(** The statement that [listFeedback] prepares and the parameters it
    binds. *)
Definition listQuery (u : URL) : string * list string :=
  let source := searchGet u "source" in
  let sentiment := searchGet u "sentiment" in
  let limit := Parse.parseIntString (default "50" (nonEmpty (searchGet u "limit"))) in
  let query := "SELECT * FROM feedback WHERE 1=1" in
  let params : list string := [] in
  let '(query, params) :=
    match nonEmpty source with
    | Some s => (query +:+ " AND source = ?", (params ++ [s])%list)
    | None => (query, params)
    end in
  let '(query, params) :=
    match nonEmpty sentiment with
    | Some s => (query +:+ " AND sentiment = ?", (params ++ [s])%list)
    | None => (query, params)
    end in
  (query +:+ " ORDER BY created_at DESC LIMIT ?",
   (params ++ [Conv.numberToString limit])%list).

Definition insertFeedbackSql : string :=
  "INSERT INTO feedback (source, content, author, sentiment, urgency, themes) VALUES (?, ?, ?, ?, ?, ?)".

Definition seedFeedbackSql : string :=
  "INSERT INTO feedback (source, content, author, sentiment, urgency) VALUES (?, ?, ?, ?, ?)".

Definition updateAnalysisSql : string :=
  "UPDATE feedback SET sentiment = ?, urgency = ? WHERE id = ?".

Definition selectContentSql : string :=
  "SELECT content FROM feedback WHERE id = ?".

Definition selectUnanalyzedSql : string :=
  "SELECT id, content FROM feedback WHERE sentiment IS NULL LIMIT 50".

(** The text of the SQL aggregate that counts rows. *)
Definition countAll : string := "COUNT(" +:+ "*)".

Definition statsBySourceSql : string :=
  "SELECT source, " +:+ countAll +:+ " as count FROM feedback GROUP BY source".

Definition statsBySentimentSql : string :=
  "SELECT sentiment, " +:+ countAll +:+
  " as count FROM feedback WHERE sentiment IS NOT NULL GROUP BY sentiment".

Definition statsUrgencySql : string :=
  "SELECT AVG(urgency) as avg_urgency, MIN(urgency) as min_urgency, MAX(urgency) as max_urgency FROM feedback WHERE urgency IS NOT NULL".

Definition statsTotalSql : string :=
  "SELECT " +:+ countAll +:+ " as total FROM feedback".

(** The rows of [seedData]: source, content, author, sentiment, urgency. *)
Definition mockFeedback : list (string * string * string * string * Z) :=
  [("discord", "Would love to see dark mode in the dashboard!", "user#1234", "positive", 2);
   ("discord", "The new D1 database is incredibly fast. Great work team!", "developer#5678", "positive", 1);
   ("discord", "Getting timeout errors when deploying Workers. Anyone else seeing this?", "frustrated_dev#9999", "negative", 4);
   ("github", "Worker crashes when payload exceeds 1MB. Steps to reproduce: 1) Send large request 2) Check logs", "developer42", "negative", 5);
   ("github", "Feature request: Add TypeScript autocomplete for D1 query results", "typescript_lover", "neutral", 2);
   ("github", "Documentation for Workers AI is excellent. Found what I needed quickly.", "happy_builder", "positive", 1);
   ("support", "URGENT: Our production site is down after deploying worker! Need immediate help.", "enterprise_customer", "negative", 5);
   ("support", "Question about billing: How are Workers AI requests charged?", "finance_team", "neutral", 3);
   ("support", "Your support team was incredibly helpful in debugging our D1 migration issue.", "grateful_customer", "positive", 1);
   ("twitter", "@Cloudflare Workers AI is incredible! Built sentiment analysis in 10 mins. Mind blown ðŸ¤¯", "@happy_dev", "positive", 1);
   ("twitter", "Why is the Cloudflare dashboard so slow today? Taking forever to load.", "@impatient_user", "negative", 3);
   ("twitter", "Just deployed my first Worker. The DX is really smooth!", "@first_timer", "positive", 1);
   ("discord", "The D1 console UI could use some improvements. Hard to navigate large tables.", "ux_focused#4444", "neutral", 2);
   ("github", "Bug: Wrangler tail not showing real-time logs as expected", "debugger_dan", "negative", 4);
   ("support", "Loving the new AI bindings! Makes integrating ML so easy.", "ml_enthusiast", "positive", 1)].


(** ** The handlers *)

Section Worker.

Variable AiState : Type.
Variable ai_run : string -> string -> Z -> AiState -> AiOutcome * AiState.

(** The database binding: [prepare(sql).bind(...params).all()] resolves
    to the rows, [prepare(sql).bind(...params).run()] to a result object. *)
Variable DbState : Type.
Variable db_all : string -> list JsValue -> DbState -> DbOutcome (list JsValue) * DbState.
Variable db_run : string -> list JsValue -> DbState -> DbOutcome JsValue * DbState.

Record Env : Type := mkEnv {
  env_ai : AiState;
  env_db : DbState;
  effects : list Effect      (* oldest effect first *)
}.

Definition Handler (A : Type) : Type := Env -> Attempt A * Env.

#[local] Instance Handler_ret : MRet Handler := fun _ a e => (Done a, e).

#[local] Instance Handler_bind : MBind Handler := fun _ _ f c e =>
  match c e with
  | (Done a, e') => f a e'
  | (Raised x, e') => (Raised x, e')
  end.

Definition raise {A : Type} (x : Thrown) : Handler A := fun e => (Raised x, e).

(** An operation of the runtime that can raise. *)
Definition js {A : Type} (r : Result A) : Handler A :=
  match r with
  | Ok a => mret a
  | Throw x => raise (ThrownJs x)
  end.

Definition dbAll (sql : string) (params : list JsValue) : Handler (list JsValue) :=
  fun e =>
    let '(outcome, db') := db_all sql params (env_db e) in
    let e' := {| env_ai := env_ai e; env_db := db';
                 effects := (effects e ++ [DbStatement DbAll sql params])%list |} in
    match outcome with
    | DbResolves rows => (Done rows, e')
    | DbRejects message => (Raised (ThrownDb message), e')
    end.

Definition dbRun (sql : string) (params : list JsValue) : Handler JsValue :=
  fun e =>
    let '(outcome, db') := db_run sql params (env_db e) in
    let e' := {| env_ai := env_ai e; env_db := db';
                 effects := (effects e ++ [DbStatement DbRun sql params])%list |} in
    match outcome with
    | DbResolves result => (Done result, e')
    | DbRejects message => (Raised (ThrownDb message), e')
    end.

(** A computation of the classifier, run on the model of the
    environment; its events are appended to the effects. *)
Definition classifier {A : Type} (c : M AiState (Result A)) : Handler A :=
  fun e =>
    let '(r, w) := c (mkWorld (env_ai e) []) in
    let e' := {| env_ai := ai w; env_db := env_db e;
                 effects := (effects e ++ (ClassifierEvent <$> trace w))%list |} in
    match r with
    | Ok a => (Done a, e')
    | Throw x => (Raised (ThrownJs x), e')
    end.

(** [await request.json()] *)
Definition requestJson (request : Request) : Handler JsValue :=
  js (Json.parse (requestBody request)).

Definition listFeedback (u : URL) : Handler Response :=
  let '(query, params) := listQuery u in
  results ← dbAll query (JStr <$> params);
  mret (jsonResponse 200
          (JObj [("feedback", JArr results);
                 ("count", Js.ofNat (List.length results))])).

Definition addFeedback (request : Request) : Handler Response :=
  feedback ← requestJson request;
  source ← js (getProp feedback "source");
  content ← (if Js.truthy source then js (getProp feedback "content")
             else mret JUndefined);
  if negb (Js.truthy source) || negb (Js.truthy content) then
    mret (jsonResponse 400
            (JObj [("error", JStr "source and content are required")]))
  else
    author ← js (getProp feedback "author");
    sentiment ← js (getProp feedback "sentiment");
    urgency ← js (getProp feedback "urgency");
    themes ← js (getProp feedback "themes");
    result ← dbRun insertFeedbackSql
               [source; content; Js.or author JNull; Js.or sentiment JNull;
                Js.or urgency (JNum (Num.ofZ 3)); Js.or themes JNull];
    meta ← js (getProp result "meta");
    last_row_id ← js (getProp meta "last_row_id");
    mret (jsonResponse 200
            (JObj [("success", JBool true); ("id", last_row_id)])).

Definition getStats : Handler Response :=
  bySource ← dbAll statsBySourceSql [];
  bySentiment ← dbAll statsBySentimentSql [];
  urgencyResults ← dbAll statsUrgencySql [];
  totalResults ← dbAll statsTotalSql [];
  total ← js (Js.optProp (Js.first totalResults) "total");
  mret (jsonResponse 200
          (JObj [("total", Js.or total (JNum (Num.ofZ 0)));
                 ("by_source", JArr bySource);
                 ("by_sentiment", JArr bySentiment);
                 ("urgency", Js.or (Js.first urgencyResults) (JObj []))])).

(** The loop [for (const feedback of mockFeedback)] of [seedData]. *)
Fixpoint seedLoop (rows : list (string * string * string * string * Z)) : Handler unit :=
  match rows with
  | [] => mret tt
  | (source, content, author, sentiment, urgency) :: rest =>
      dbRun seedFeedbackSql
        [JStr source; JStr content; JStr author; JStr sentiment;
         JNum (Num.ofZ urgency)];;
      seedLoop rest
  end.

Definition seedData : Handler Response :=
  seedLoop mockFeedback;;
  mret (jsonResponse 200
          (JObj [("success", JBool true);
                 ("count", Js.ofNat (List.length mockFeedback));
                 ("message",
                  JStr ("Seeded " +:+
                        Conv.numberToString
                          (Num.ofZ (Z.of_nat (List.length mockFeedback)))
                        +:+ " feedback entries"))])).

Definition updateAnalysis (analysis : AnalysisResult) (id : JsValue) : Handler JsValue :=
  dbRun updateAnalysisSql
    [JStr (sentiment analysis); JNum (urgency analysis); id].

Definition analyzeEndpoint (request : Request) : Handler Response :=
  body ← requestJson request;
  content ← js (getProp body "content");
  id ← js (getProp body "id");
  if negb (Js.truthy content) && negb (Js.truthy id) then
    mret (jsonResponse 400
            (JObj [("error", JStr "content or id is required")]))
  else
    fetched ←
      (if Js.truthy id && negb (Js.truthy content) then
         results ← dbAll selectContentSql [id];
         match results with
         | [] => mret None
         | row :: _ => c ← js (getProp row "content"); mret (Some c)
         end
       else mret (Some content));
    match fetched with
    | None =>
        mret (jsonResponse 404 (JObj [("error", JStr "Feedback not found")]))
    | Some content =>
        analysis ← classifier (analyzeFeedbackDyn ai_run content);
        (if Js.truthy id then updateAnalysis analysis id;; mret tt
         else mret tt);;
        mret (jsonResponse 200
                (JObj [("success", JBool true);
                       ("analysis", analysisValue analysis)]))
    end.

(** [results.map((r) => ({ id: r.id, content: r.content }))] *)
Fixpoint rowsToFeedback (rows : list JsValue) : Result (list (JsValue * JsValue)) :=
  match rows with
  | [] => Ok []
  | r :: rest =>
      id ← getProp r "id";
      content ← getProp r "content";
      more ← rowsToFeedback rest;
      Ok ((id, content) :: more)
  end.

(** The loop over [analysisResults.entries()]. *)
Fixpoint updateLoop (entries : list (JsValue * AnalysisResult)) : Handler unit :=
  match entries with
  | [] => mret tt
  | (id, analysis) :: rest => updateAnalysis analysis id;; updateLoop rest
  end.

Definition analyzeAllFeedback : Handler Response :=
  results ← dbAll selectUnanalyzedSql [];
  match results with
  | [] =>
      mret (jsonResponse 200
              (JObj [("success", JBool true);
                     ("message", JStr "No feedback to analyze");
                     ("count", Js.ofNat 0)]))
  | _ :: _ =>
      feedbackList ← js (rowsToFeedback results);
      analysisResults ← classifier (batchAnalyzeFeedbackDyn ai_run feedbackList);
      updateLoop analysisResults;;
      let size := List.length analysisResults in
      mret (jsonResponse 200
              (JObj [("success", JBool true);
                     ("count", Js.ofNat size);
                     ("message",
                      JStr ("Analyzed " +:+
                            Conv.numberToString (Num.ofZ (Z.of_nat size))
                            +:+ " feedback entries"))]))
  end.

(** ** The router *)

Definition notFound : Response :=
  {| status := 404; headers := []; body := BodyText "Not Found" |}.

Definition preflight : Response :=
  {| status := 200; headers := corsHeaders; body := BodyNull |}.

(** The routes of the [try] block, in the order of the source. *)
Definition route (request : Request) : Handler Response :=
  let path := pathname (url request) in
  let m := method request in
  if String.eqb path "/api/feedback" && String.eqb m "GET" then
    listFeedback (url request)
  else if String.eqb path "/api/feedback" && String.eqb m "POST" then
    addFeedback request
  else if String.eqb path "/api/stats" && String.eqb m "GET" then
    getStats
  else if String.eqb path "/api/seed" && String.eqb m "POST" then
    seedData
  else if String.eqb path "/api/analyze" && String.eqb m "POST" then
    analyzeEndpoint request
  else if String.eqb path "/api/analyze-all" && String.eqb m "POST" then
    analyzeAllFeedback
  else if String.eqb path "/api/health" then
    mret (jsonResponse 200 (JObj [("status", JStr "ok")]))
  else mret notFound.

(** [fetch(request, env, ctx)]: an exception of a handler becomes the
    response 500. *)
Definition fetch (request : Request) (e : Env) : Response * Env :=
  if String.eqb (method request) "OPTIONS" then (preflight, e)
  else
    match route request e with
    | (Done response, e') => (response, e')
    | (Raised error, e') =>
        ({| status := 500; headers := jsonHeaders; body := BodyError error |}, e')
    end.

(** ** Observations on handlers *)

(** The outcome of running [c] from [e]: [Q] holds of a returned value and
    the final environment, [R] of a raised exception and the final
    environment. *)
Definition outcome {A : Type} (c : Handler A) (e : Env)
    (Q : A -> Env -> Prop) (R : Thrown -> Env -> Prop) : Prop :=
  match c e with
  | (Done a, e') => Q a e'
  | (Raised x, e') => R x e'
  end.

(** From [e] to [e'] the effects grow by effects that satisfy [P]. *)
Definition grows (P : Effect -> Prop) (e e' : Env) : Prop :=
  exists new, effects e' = (effects e ++ new)%list /\ Forall P new.

End Worker.

Arguments mkEnv {AiState DbState} env_ai env_db effects.
Arguments env_ai {AiState DbState} e.
Arguments env_db {AiState DbState} e.
Arguments effects {AiState DbState} e.
Arguments listFeedback {AiState DbState} db_all u e.
Arguments addFeedback {AiState DbState} db_run request e.
Arguments getStats {AiState DbState} db_all e.
Arguments seedLoop {AiState DbState} db_run rows e.
Arguments seedData {AiState DbState} db_run e.
Arguments updateAnalysis {AiState DbState} db_run analysis id e.
Arguments updateLoop {AiState DbState} db_run entries e.
Arguments analyzeEndpoint {AiState} ai_run {DbState} db_all db_run request e.
Arguments analyzeAllFeedback {AiState} ai_run {DbState} db_all db_run e.
Arguments route {AiState} ai_run {DbState} db_all db_run request e.
Arguments fetch {AiState} ai_run {DbState} db_all db_run request e.
Arguments outcome {AiState DbState A} c e Q R.
Arguments grows {AiState DbState} P e e'.
Arguments dbAll {AiState DbState} db_all sql params e.
Arguments dbRun {AiState DbState} db_run sql params e.
Arguments js {AiState DbState A} r e.
Arguments raise {AiState DbState A} x e.
Arguments classifier {AiState DbState A} c e.
Arguments requestJson {AiState DbState} request e.

(** The number of occurrences of a character. *)
Fixpoint countChar (c : ascii) (s : string) : nat :=
  match s with
  | EmptyString => 0
  | String x s' => (if Ascii.eqb x c then 1 else 0) + countChar c s'
  end.

(** A statement binds as many parameters as it has placeholders. *)
Definition balanced (ef : Effect) : Prop :=
  match ef with
  | DbStatement _ sql params => countChar "?" sql = List.length params
  | ClassifierEvent _ => True
  end.

Definition isDbStatement (ef : Effect) : Prop :=
  match ef with
  | DbStatement _ _ _ => True
  | ClassifierEvent _ => False
  end.

(** The responses that the handlers build. *)
Definition handlerResponse (r : Response) : Prop :=
  headers r = jsonHeaders /\ (status r = 200 \/ status r = 400 \/ status r = 404).



(** A balanced statement of the database; no event of the classifier. *)
Definition quiet (ef : Effect) : Prop := balanced ef /\ isDbStatement ef.

(** The statement that stores the Judgment of one entry. *)
Definition updateStatement (entry : JsValue * AnalysisResult) : Effect :=
  DbStatement DbRun updateAnalysisSql
    [JStr (sentiment entry.2); JNum (urgency entry.2); entry.1].

(** * Properties *)

(** ** Strings *)

Lemma append_cons (c : ascii) (s t : string) :
  String c s +:+ t = String c (s +:+ t).
Proof. reflexivity. Qed.

Lemma append_nil_l (s : string) : "" +:+ s = s.
Proof. reflexivity. Qed.

Lemma append_nil_r (s : string) : s +:+ "" = s.
Proof.
  induction s as [|c s IH]; [reflexivity | now rewrite append_cons, IH].
Qed.

Lemma append_assoc (a b c : string) : (a +:+ b) +:+ c = a +:+ (b +:+ c).
Proof.
  induction a as [|x a IH]; [reflexivity | now rewrite !append_cons, IH].
Qed.

Lemma startsWith_spec (s w : string) :
  Str.startsWith s w = true <-> exists post, s = w +:+ post.
Proof.
  revert s. induction w as [|b w IH]; intros s.
  - simpl. split; [intros _; now exists s | reflexivity].
  - destruct s as [|a s]; simpl.
    + split; [discriminate | intros [post H]; discriminate].
    + rewrite andb_true_iff, IH. split.
      * intros [Hab [post ->]]. apply Ascii.eqb_eq in Hab. subst. now exists post.
      * intros [post H]. rewrite append_cons in H. injection H as -> ->.
        split; [apply Ascii.eqb_refl | now exists post].
Qed.

(** [includes] is substring containment. *)
Lemma includes_spec (s w : string) :
  Str.includes s w = true <-> exists pre post, s = pre +:+ w +:+ post.
Proof.
  induction s as [|a s IH].
  - simpl. rewrite orb_false_r, startsWith_spec. split.
    + intros [post H]. now exists "", post.
    + intros [pre [post H]]. destruct pre; [now exists post | discriminate].
  - cbn [Str.includes]. rewrite orb_true_iff, IH, startsWith_spec. split.
    + intros [[post H] | [pre [post H]]].
      * now exists "", post.
      * exists (String a pre), post. now rewrite append_cons, H.
    + intros [pre [post H]]. destruct pre as [|x pre].
      * left. now exists post.
      * right. rewrite append_cons in H. injection H as -> ->. now exists pre, post.
Qed.

Lemma map_append (f : ascii -> ascii) (a b : string) :
  Str.map f (a +:+ b) = Str.map f a +:+ Str.map f b.
Proof.
  induction a as [|x a IH]; [reflexivity |].
  rewrite append_cons. simpl. now rewrite append_cons, IH.
Qed.

Lemma toLowerCase_append (a b : string) :
  Str.toLowerCase (a +:+ b) = Str.toLowerCase a +:+ Str.toLowerCase b.
Proof. apply map_append. Qed.

(** ** The JSON parser *)

Lemma dropWhile_length (p : ascii -> bool) (s : string) :
  (String.length (Str.dropWhile p s) <= String.length s)%nat.
Proof.
  induction s as [|c s IH]; [reflexivity|].
  cbn [Str.dropWhile]. destruct (p c); cbn [String.length]; lia.
Qed.

Lemma skipWs_length (s : string) :
  (String.length (Json.skipWs s) <= String.length s)%nat.
Proof. apply dropWhile_length. Qed.

Lemma drop_length (n : nat) (s : string) :
  String.length (Str.drop n s) = (String.length s - n)%nat.
Proof.
  revert s. induction n as [|n IH]; intros [|c s]; cbn [Str.drop String.length];
    try lia. apply IH.
Qed.

Lemma takeSign_length (s : string) :
  (String.length (Parse.takeSign s).2 <= String.length s)%nat.
Proof.
  destruct s as [|c r]; [reflexivity|]. unfold Parse.takeSign.
  destruct (Ascii.eqb c "-"); [cbn; lia|].
  destruct (Ascii.eqb c "+"); cbn; lia.
Qed.

Lemma option_bind_Some {A B : Type} (x : option A) (f : A -> option B) (b : B) :
  x ≫= f = Some b -> exists a, x = Some a /\ f a = Some b.
Proof. destruct x as [a|]; [eauto | discriminate]. Qed.

Lemma parseChars_length_aux (n : nat) :
  forall s body rest,
    (String.length s <= n)%nat ->
    Json.parseChars s = Some (body, rest) ->
    (String.length rest < String.length s)%nat.
Proof.
  induction n as [|n IH]; intros s body rest Hn H.
  - destruct s; [discriminate | cbn in Hn; lia].
  - destruct s as [|c s']; [discriminate|].
    cbn [Json.parseChars] in H. cbn [String.length] in Hn |- *.
    destruct (Ascii.eqb c Char.dquote); [injection H as _ <-; lia|].
    destruct (Ascii.eqb c Char.backslash).
    + destruct s' as [|e s'']; [discriminate|]. cbn [String.length] in Hn |- *.
      destruct (Json.simpleEscape e).
      * apply option_bind_Some in H as [[b r] [E H]]. injection H as _ <-.
        apply IH in E; lia.
      * destruct (Ascii.eqb e "u"); [|discriminate].
        destruct s'' as [|h1 [|h2 [|h3 [|h4 s4]]]]; try discriminate.
        cbn [String.length] in Hn |- *.
        apply option_bind_Some in H as [u [_ H]].
        apply option_bind_Some in H as [[b r] [E H]]. injection H as _ <-.
        apply IH in E; lia.
    + destruct (N.ltb (Char.code c) 32); [discriminate|].
      apply option_bind_Some in H as [[b r] [E H]]. injection H as _ <-.
      apply IH in E; lia.
Qed.

Lemma parseChars_length (s body rest : string) :
  Json.parseChars s = Some (body, rest) ->
  (String.length rest < String.length s)%nat.
Proof. apply (parseChars_length_aux (String.length s)). lia. Qed.

Lemma parseNumber_length (s : string) (x : JsNumber) (rest : string) :
  Json.parseNumber s = Some (x, rest) ->
  (String.length rest < String.length s)%nat.
Proof.
  unfold Json.parseNumber.
  set (p := match s with
            | EmptyString => (1, s)
            | String c r => if Ascii.eqb c "-" then (-1, r) else (1, s)
            end).
  assert (Hp : (String.length p.2 <= String.length s)%nat).
  { subst p. destruct s as [|c r]; [reflexivity|].
    destruct (Ascii.eqb c "-"); cbn; lia. }
  destruct p as [sign s1]. cbn [snd] in Hp.
  destruct s1 as [|c r]; [discriminate|]. cbn [String.length] in Hp.
  destruct (Char.isDigit c) eqn:Hc; [|discriminate].
  set (q := if Ascii.eqb c "0" then ("0", r)
            else (Parse.takeWhile Char.isDigit (String c r),
                  Str.dropWhile Char.isDigit (String c r))).
  assert (Hq : (String.length q.2 <= String.length r)%nat).
  { subst q. destruct (Ascii.eqb c "0"); [reflexivity|]. cbn [snd Str.dropWhile].
    rewrite Hc. apply dropWhile_length. }
  destruct q as [intd s2]. cbn [snd] in Hq.
  intros H.
  apply option_bind_Some in H as [[fracd s3] [E3 H]].
  apply option_bind_Some in H as [[ex s4] [E4 H]].
  injection H as _ <-.
  assert (H3 : (String.length s3 <= String.length s2)%nat).
  { destruct s2 as [|d r2]; [injection E3 as _ <-; reflexivity|].
    destruct (Ascii.eqb d "."); [|injection E3 as _ <-; reflexivity].
    destruct (Parse.takeWhile Char.isDigit r2); [discriminate|].
    injection E3 as _ <-. pose proof (dropWhile_length Char.isDigit r2).
    cbn [String.length]. lia. }
  assert (H4 : (String.length s4 <= String.length s3)%nat).
  { destruct s3 as [|d r3]; [injection E4 as _ <-; reflexivity|].
    destruct (Ascii.eqb d "e" || Ascii.eqb d "E"); [|injection E4 as _ <-; reflexivity].
    pose proof (takeSign_length r3) as Hs.
    destruct (Parse.takeSign r3) as [esign r4]. cbn [snd] in Hs.
    destruct (Parse.takeWhile Char.isDigit r4); [discriminate|].
    injection E4 as _ <-. pose proof (dropWhile_length Char.isDigit r4).
    cbn [String.length]. lia. }
  lia.
Qed.

(** Every successful parse consumes at least one character. *)
Lemma parse_consumes (fuel : nat) :
  (forall s v rest, Json.parseValue fuel s = Some (v, rest) ->
                    (String.length rest < String.length s)%nat) /\
  (forall s ps rest, Json.parseMembers fuel s = Some (ps, rest) ->
                     (String.length rest < String.length s)%nat) /\
  (forall s vs rest, Json.parseElements fuel s = Some (vs, rest) ->
                     (String.length rest < String.length s)%nat).
Proof.
  induction fuel as [|fuel (IHv & IHm & IHe)];
    [repeat split; intros; discriminate|].
  split; [|split].
  - intros s v rest H. cbn [Json.parseValue] in H.
    pose proof (skipWs_length s) as Hs.
    destruct (Json.skipWs s) as [|c r]; [discriminate|]. cbn [String.length] in Hs.
    destruct (Ascii.eqb c "{").
    { pose proof (skipWs_length r) as Hr.
      destruct (Json.skipWs r) as [|c1 r1]; [discriminate|]. cbn [String.length] in Hr.
      destruct (Ascii.eqb c1 "}"); [injection H as _ <-; lia|].
      apply option_bind_Some in H as [[ps r2] [E H]]. injection H as _ <-.
      apply IHm in E. cbn [String.length] in E. lia. }
    destruct (Ascii.eqb c "[").
    { pose proof (skipWs_length r) as Hr.
      destruct (Json.skipWs r) as [|c1 r1]; [discriminate|]. cbn [String.length] in Hr.
      destruct (Ascii.eqb c1 "]"); [injection H as _ <-; lia|].
      apply option_bind_Some in H as [[ps r2] [E H]]. injection H as _ <-.
      apply IHe in E. cbn [String.length] in E. lia. }
    destruct (Ascii.eqb c Char.dquote).
    { apply option_bind_Some in H as [[str r2] [E H]]. injection H as _ <-.
      apply parseChars_length in E. lia. }
    destruct (Str.startsWith (String c r) "true") eqn:Et.
    { replace rest with (Str.drop 4 (String c r)) by congruence.
      rewrite drop_length. cbn [String.length]. lia. }
    destruct (Str.startsWith (String c r) "false") eqn:Ef.
    { replace rest with (Str.drop 5 (String c r)) by congruence.
      rewrite drop_length. cbn [String.length]. lia. }
    destruct (Str.startsWith (String c r) "null") eqn:En.
    { replace rest with (Str.drop 4 (String c r)) by congruence.
      rewrite drop_length. cbn [String.length]. lia. }
    apply option_bind_Some in H as [[x r2] [E H]]. injection H as _ <-.
    apply parseNumber_length in E. cbn [String.length] in E. lia.
  - intros s ps rest H. cbn [Json.parseMembers] in H.
    pose proof (skipWs_length s) as Hs.
    destruct (Json.skipWs s) as [|c r]; [discriminate|]. cbn [String.length] in Hs.
    destruct (Ascii.eqb c Char.dquote); [|discriminate].
    apply option_bind_Some in H as [[key r1] [E1 H]].
    apply parseChars_length in E1.
    pose proof (skipWs_length r1) as Hr1.
    destruct (Json.skipWs r1) as [|c2 r2]; [discriminate|]. cbn [String.length] in Hr1.
    destruct (Ascii.eqb c2 ":"); [|discriminate].
    apply option_bind_Some in H as [[v r3] [E3 H]]. apply IHv in E3.
    pose proof (skipWs_length r3) as Hr3.
    destruct (Json.skipWs r3) as [|c4 r4]; [discriminate|]. cbn [String.length] in Hr3.
    destruct (Ascii.eqb c4 ",").
    { apply option_bind_Some in H as [[more r5] [E5 H]]. injection H as _ <-.
      apply IHm in E5. lia. }
    destruct (Ascii.eqb c4 "}"); [|discriminate]. injection H as _ <-. lia.
  - intros s vs rest H. cbn [Json.parseElements] in H.
    apply option_bind_Some in H as [[v r1] [E1 H]]. apply IHv in E1.
    pose proof (skipWs_length r1) as Hr1.
    destruct (Json.skipWs r1) as [|c2 r2]; [discriminate|]. cbn [String.length] in Hr1.
    destruct (Ascii.eqb c2 ",").
    { apply option_bind_Some in H as [[more r3] [E3 H]]. injection H as _ <-.
      apply IHe in E3. lia. }
    destruct (Ascii.eqb c2 "]"); [|discriminate]. injection H as _ <-. lia.
Qed.

(** From the thresholds [2n+1] (values), [2n] (members) and [2n+2]
    (elements) on, for a text of length [n], more fuel changes nothing. *)
Lemma parse_fuel_stable (f : nat) :
  forall g, (f <= g)%nat ->
    (forall s, (2 * String.length s + 1 <= f)%nat ->
               Json.parseValue g s = Json.parseValue f s) /\
    (forall s, (2 * String.length s <= f)%nat -> (1 <= f)%nat ->
               Json.parseMembers g s = Json.parseMembers f s) /\
    (forall s, (2 * String.length s + 2 <= f)%nat ->
               Json.parseElements g s = Json.parseElements f s).
Proof.
  induction f as [|f IH]; intros g Hle.
  { repeat split; intros; lia. }
  destruct g as [|g]; [lia|].
  destruct (IH g ltac:(lia)) as (IHv & IHm & IHe). clear IH.
  split; [|split].
  - intros s Hs. cbn [Json.parseValue].
    pose proof (skipWs_length s) as Hws.
    destruct (Json.skipWs s) as [|c r]; [reflexivity|]. cbn [String.length] in Hws.
    destruct (Ascii.eqb c "{").
    { pose proof (skipWs_length r) as Hr.
      destruct (Json.skipWs r) as [|c1 r1]; [reflexivity|].
      destruct (Ascii.eqb c1 "}"); [reflexivity|].
      rewrite IHm by lia. reflexivity. }
    destruct (Ascii.eqb c "[").
    { pose proof (skipWs_length r) as Hr.
      destruct (Json.skipWs r) as [|c1 r1]; [reflexivity|].
      destruct (Ascii.eqb c1 "]"); [reflexivity|].
      rewrite IHe by lia. reflexivity. }
    reflexivity.
  - intros s Hs Hf. cbn [Json.parseMembers].
    pose proof (skipWs_length s) as Hws.
    destruct (Json.skipWs s) as [|c r]; [reflexivity|]. cbn [String.length] in Hws.
    destruct (Ascii.eqb c Char.dquote); [|reflexivity].
    destruct (Json.parseChars r) as [[key r1]|] eqn:E1; [|reflexivity].
    apply parseChars_length in E1. cbn [mbind option_bind].
    pose proof (skipWs_length r1) as Hr1.
    destruct (Json.skipWs r1) as [|c2 r2]; [reflexivity|]. cbn [String.length] in Hr1.
    destruct (Ascii.eqb c2 ":"); [|reflexivity].
    rewrite IHv by lia.
    destruct (Json.parseValue f r2) as [[v r3]|] eqn:E3; [|reflexivity].
    apply (proj1 (parse_consumes f)) in E3. cbn [mbind option_bind].
    pose proof (skipWs_length r3) as Hr3.
    destruct (Json.skipWs r3) as [|c4 r4]; [reflexivity|]. cbn [String.length] in Hr3.
    destruct (Ascii.eqb c4 ","); [|reflexivity].
    rewrite IHm by lia. reflexivity.
  - intros s Hs. cbn [Json.parseElements].
    rewrite IHv by lia.
    destruct (Json.parseValue f s) as [[v r1]|] eqn:E1; [|reflexivity].
    apply (proj1 (parse_consumes f)) in E1. cbn [mbind option_bind].
    pose proof (skipWs_length r1) as Hr1.
    destruct (Json.skipWs r1) as [|c2 r2]; [reflexivity|]. cbn [String.length] in Hr1.
    destruct (Ascii.eqb c2 ","); [|reflexivity].
    rewrite IHe by lia. reflexivity.
Qed.

(** The fuel of [Json.parse] is never exhausted: more fuel gives the same
    result. *)
Lemma parse_fuel_adequate (text : string) (extra : nat) :
  Json.parseValue (2 * String.length text + 2 + extra) text
  = Json.parseValue (2 * String.length text + 2) text.
Proof.
  apply (parse_fuel_stable (2 * String.length text + 2)); lia.
Qed.

(** ** The fallback heuristic *)

Lemma countMatches_cons (lc w : string) (ws : list string) :
  countMatches lc (w :: ws) =
  ((if Str.includes lc w then 1 else 0) + countMatches lc ws)%nat.
Proof. unfold countMatches. simpl. now destruct (Str.includes lc w). Qed.

Lemma countMatches_app (lc : string) (ws1 ws2 : list string) :
  countMatches lc (ws1 ++ ws2) = (countMatches lc ws1 + countMatches lc ws2)%nat.
Proof.
  unfold countMatches. now rewrite List.filter_app, List.length_app.
Qed.

Lemma countMatches_le (lc : string) (ws : list string) :
  (countMatches lc ws <= List.length ws)%nat.
Proof. unfold countMatches. apply List.filter_length_le. Qed.

Lemma countMatches_pos (lc w : string) (ws : list string) :
  In w ws -> Str.includes lc w = true -> (0 < countMatches lc ws)%nat.
Proof.
  induction ws as [|x ws IH]; intros Hin Hinc; [destruct Hin|].
  rewrite countMatches_cons. destruct Hin as [-> | Hin].
  - rewrite Hinc. lia.
  - specialize (IH Hin Hinc). lia.
Qed.

Lemma fallback_urgency_urgent (content : string) :
  (0 < countMatches (Str.toLowerCase content) urgentWords)%nat ->
  urgency (fallbackAnalysis content) = Num.ofZ 5.
Proof.
  intros H. unfold fallbackAnalysis. cbn [urgency].
  apply Nat.ltb_lt in H. now rewrite H.
Qed.

(** C8. The decision rules of the fallback heuristic.  With [p], [n], [u]
    the numbers of positive, negative and urgent lexicon words matched in
    the lower-cased text: the sentiment is positive when [p > n], negative
    when [n > p] and neutral on a tie; the urgency is 5 when [u > 0], else
    4 when [n > 2], else 3 when [n] is 1 or 2, else 1 when [p > 0], else 3;
    the confidence is 0.5.  The text about a broken feature and urgent
    attention is negative with urgency 5, and a text without any lexicon
    match is neutral with urgency 3, both with confidence 0.5. *)
Theorem fallback_decision_rules (content : string) :
  let lowerContent := Str.toLowerCase content in
  let p := countMatches lowerContent positiveWords in
  let n := countMatches lowerContent negativeWords in
  let u := countMatches lowerContent urgentWords in
  let r := fallbackAnalysis content in
  ((p > n)%nat -> sentiment r = "positive") /\
  ((n > p)%nat -> sentiment r = "negative") /\
  (p = n -> sentiment r = "neutral") /\
  ((u > 0)%nat -> urgency r = Num.ofZ 5) /\
  (u = 0%nat -> (n > 2)%nat -> urgency r = Num.ofZ 4) /\
  (u = 0%nat -> n = 1%nat \/ n = 2%nat -> urgency r = Num.ofZ 3) /\
  (u = 0%nat -> n = 0%nat -> (p > 0)%nat -> urgency r = Num.ofZ 1) /\
  (u = 0%nat -> n = 0%nat -> p = 0%nat -> urgency r = Num.ofZ 3) /\
  confidence r = Fin 5 (-1) /\
  (let r1 := fallbackAnalysis "This is broken and needs urgent attention!" in
   sentiment r1 = "negative" /\ urgency r1 = Num.ofZ 5 /\
   confidence r1 = Fin 5 (-1)) /\
  (p = 0%nat /\ n = 0%nat /\ u = 0%nat ->
   sentiment r = "neutral" /\ urgency r = Num.ofZ 3 /\
   confidence r = Fin 5 (-1)).
Proof.
  intros lowerContent p n u r.
  assert (Hs : sentiment r =
               if (n <? p)%nat then "positive"
               else if (p <? n)%nat then "negative" else "neutral")
    by reflexivity.
  assert (Hu : urgency r =
               Num.ofZ (if (0 <? u)%nat then 5
                        else if (2 <? n)%nat then 4
                        else if (0 <? n)%nat then 3
                        else if (0 <? p)%nat then 1 else 3))
    by reflexivity.
  rewrite Hs, Hu. clearbody p n u. clear Hs Hu.
  repeat split; try reflexivity; intros;
    repeat match goal with
           | H : _ /\ _ |- _ => destruct H
           | H : _ \/ _ |- _ => destruct H
           end; subst;
    repeat match goal with
           | |- context [(?a <? ?b)%nat] =>
               destruct (Nat.ltb_spec a b); try lia
           end; reflexivity.
Qed.

(** The text of the weather example matches no lexicon word. *)
Lemma fallback_decision_rules_witness :
  let r := fallbackAnalysis "The weather today." in
  sentiment r = "neutral" /\ urgency r = Num.ofZ 3 /\ confidence r = Fin 5 (-1).
Proof.
  apply (fallback_decision_rules "The weather today.").
  vm_compute. repeat split; reflexivity.
Defined.

(** C9. Lexicon matching is case-insensitive substring containment over
    the whole text.  A lexicon word counts exactly when it occurs somewhere
    in the lower-cased text, so inside a longer word too; each word adds at
    most one to its count however often it occurs; texts that agree up to
    letter case are classified alike; a text that contains the word
    download, in any letter case, has urgency 5; and a text that repeats
    one negative word four times counts it once (urgency 3, not 4). *)
Theorem fallback_matching_is_substring_containment :
  (forall (content : string) (w : string) (ws : list string),
      countMatches (Str.toLowerCase content) (w :: ws) =
      ((if Str.includes (Str.toLowerCase content) w then 1 else 0)
       + countMatches (Str.toLowerCase content) ws)%nat) /\
  (forall (content : string) (w : string),
      Str.includes (Str.toLowerCase content) w = true <->
      exists pre post, Str.toLowerCase content = pre +:+ w +:+ post) /\
  (forall (content : string) (ws : list string),
      (countMatches (Str.toLowerCase content) ws <= List.length ws)%nat) /\
  (forall c1 c2 : string,
      Str.toLowerCase c1 = Str.toLowerCase c2 ->
      fallbackAnalysis c1 = fallbackAnalysis c2) /\
  (forall pre post : string,
      urgency (fallbackAnalysis (pre +:+ "download" +:+ post)) = Num.ofZ 5 /\
      urgency (fallbackAnalysis (pre +:+ "DownLoad" +:+ post)) = Num.ofZ 5) /\
  (countMatches "bug bug bug bug" negativeWords = 1%nat /\
   urgency (fallbackAnalysis "bug bug bug bug") = Num.ofZ 3).
Proof.
  split; [|split; [|split; [|split; [|split]]]].
  - intros. apply countMatches_cons.
  - intros. apply includes_spec.
  - intros. apply countMatches_le.
  - intros c1 c2 H. unfold fallbackAnalysis. now rewrite H.
  - assert (Hdown : forall pre w post,
               Str.toLowerCase w = "download" ->
               urgency (fallbackAnalysis (pre +:+ w +:+ post)) = Num.ofZ 5).
    { intros pre w post Hw. apply fallback_urgency_urgent.
      apply (countMatches_pos _ "down"); [simpl; tauto|].
      apply includes_spec.
      exists (Str.toLowerCase pre), ("load" +:+ Str.toLowerCase post).
      now rewrite !toLowerCase_append, Hw. }
    intros pre post. split; apply Hdown; reflexivity.
  - split; reflexivity.
Qed.

Lemma fallback_matching_is_substring_containment_witness :
  fallbackAnalysis "URGENT: site DOWN" = fallbackAnalysis "urgent: site down".
Proof.
  apply fallback_matching_is_substring_containment. reflexivity.
Defined.

(** C10. The fallback heuristic never returns urgency 2: its urgency is
    one of 1, 3, 4 and 5. *)
Theorem fallback_urgency_never_two (content : string) :
  let u := urgency (fallbackAnalysis content) in
  (u = Num.ofZ 1 \/ u = Num.ofZ 3 \/ u = Num.ofZ 4 \/ u = Num.ofZ 5) /\
  u <> Num.ofZ 2.
Proof.
  unfold fallbackAnalysis. cbn [urgency].
  repeat match goal with
         | |- context [(?a <? ?b)%nat] => destruct (a <? b)%nat
         end; (split; [tauto | discriminate]).
Qed.

(** ** Numbers *)

Lemma ofDecimal_integer (m : Z) :
  (exists b, Num.ofDecimal m 0 = Infinity b) \/ Num.ofDecimal m 0 = Fin m 0.
Proof.
  unfold Num.ofDecimal, Num.overflows, Num.underflows, Num.canon.
  change (0 <=? 0) with true. cbv iota.
  destruct (Num.overflow_bound <=? Z.abs m * 10 ^ 0); [left; eauto|].
  right. destruct (Z.eqb_spec m 0) as [-> | _]; [reflexivity|].
  now rewrite Z.pow_0_r, Z.mul_1_r.
Qed.

(** [parseInt] on a string yields [NaN], an infinity or an integer. *)
Lemma parseIntString_shape (s : string) :
  Parse.parseIntString s = NaN \/
  (exists b, Parse.parseIntString s = Infinity b) \/
  (exists z, Parse.parseIntString s = Fin z 0).
Proof.
  unfold Parse.parseIntString.
  destruct (Parse.takeSign (Str.trimStart s)) as [sign s1].
  destruct (Str.startsWith s1 "0x" || Str.startsWith s1 "0X");
    match goal with
    | |- context [Parse.takeWhile ?p ?t] => destruct (Parse.takeWhile p t) as [|c z] eqn:E
    end; try (left; reflexivity);
    match goal with
    | |- context [Num.ofDecimal ?m 0] =>
        destruct (ofDecimal_integer m) as [[b ->] | ->]; eauto
    end.
Qed.

(** [Math.min(5, Math.max(1, x || 3))] on such a number is an integer
    between 1 and 5. *)
Lemma clamp_in_range (x : JsNumber) :
  x = NaN \/ (exists b, x = Infinity b) \/ (exists z, x = Fin z 0) ->
  exists z, Num.min (Num.ofZ 5) (Num.max (Num.ofZ 1) (Num.orElse x (Num.ofZ 3)))
            = Num.ofZ z /\ 1 <= z <= 5.
Proof.
  intros [-> | [[b ->] | [z ->]]].
  - exists 3. split; [reflexivity | lia].
  - destruct b; [exists 1 | exists 5]; (split; [reflexivity | lia]).
  - unfold Num.orElse, Num.truthy.
    destruct (Z.eqb_spec z 0) as [-> | Hz]; cbn [negb].
    + exists 3. split; [reflexivity | lia].
    + unfold Num.max, Num.min, Num.ofZ, Num.leb.
      change (10 ^ (- 0)) with 1. rewrite !Z.mul_1_r.
      destruct (Z.leb_spec 1 z).
      * rewrite !Z.mul_1_r. destruct (Z.leb_spec 5 z).
        -- exists 5. split; [reflexivity | lia].
        -- exists z. split; [reflexivity | lia].
      * exists 1. split; [reflexivity | lia].
Qed.

(** A non-zero integer is clamped into the range. *)
Lemma clamp_nonzero_integer (z : Z) :
  z <> 0 ->
  Num.min (Num.ofZ 5) (Num.max (Num.ofZ 1) (Num.orElse (Fin z 0) (Num.ofZ 3)))
  = Num.ofZ (Z.min 5 (Z.max 1 z)).
Proof.
  intros Hz. unfold Num.orElse, Num.truthy.
  destruct (Z.eqb_spec z 0) as [-> | _]; [contradiction|]. cbn [negb].
  unfold Num.max, Num.min, Num.ofZ, Num.leb.
  change (10 ^ (- 0)) with 1. rewrite !Z.mul_1_r.
  destruct (Z.leb_spec 1 z).
  - rewrite !Z.mul_1_r. destruct (Z.leb_spec 5 z); f_equal; lia.
  - cbn. f_equal. lia.
Qed.

(** ** The model path *)

Lemma bind_Ok {A B : Type} (x : Result A) (f : A -> Result B) (b : B) :
  x ≫= f = Ok b -> exists a, x = Ok a /\ f a = Ok b.
Proof. destruct x as [a | e]; [eauto | discriminate]. Qed.

Lemma bind_Throw {A B : Type} (x : Result A) (f : A -> Result B) (e : Exn) :
  x = Throw e -> x ≫= f = Throw e.
Proof. now intros ->. Qed.

Ltac invert_binds :=
  repeat match goal with
         | H : _ ≫= _ = Ok _ |- _ =>
             let a := fresh "a" in
             let Ha := fresh "Ha" in
             apply bind_Ok in H; destruct H as [a [Ha H]]
         end.

Lemma normalizeSentiment_range (v : JsValue) (s : string) :
  normalizeSentiment v = Ok s ->
  s = "positive" \/ s = "negative" \/ s = "neutral".
Proof.
  unfold normalizeSentiment. intros H. invert_binds.
  destruct (Str.includes a "positive"); [injection H as <-; tauto|].
  destruct (Str.includes a "negative"); injection H as <-; tauto.
Qed.

Lemma parseInt_shape (v : JsValue) (x : JsNumber) :
  Parse.parseInt v = Ok x ->
  x = NaN \/ (exists b, x = Infinity b) \/ (exists z, x = Fin z 0).
Proof.
  unfold Parse.parseInt. intros H. invert_binds. injection H as <-.
  apply parseIntString_shape.
Qed.

Lemma buildResult_range (analysis : JsValue) (r : AnalysisResult) :
  buildResult analysis = Ok r ->
  (sentiment r = "positive" \/ sentiment r = "negative" \/ sentiment r = "neutral")
  /\ exists z, urgency r = Num.ofZ z /\ 1 <= z <= 5.
Proof.
  unfold buildResult. intros H. invert_binds. injection H as <-. cbn [sentiment urgency].
  split.
  - eapply normalizeSentiment_range; eassumption.
  - apply clamp_in_range. eapply parseInt_shape; eassumption.
Qed.

Lemma modelPath_buildResult (outcome : AiOutcome) (r : AnalysisResult) :
  modelPath outcome = Ok r -> exists analysis, buildResult analysis = Ok r.
Proof. unfold modelPath. intros H. invert_binds. eauto. Qed.

Lemma fallbackAnalysis_range (content : string) :
  let r := fallbackAnalysis content in
  (sentiment r = "positive" \/ sentiment r = "negative" \/ sentiment r = "neutral")
  /\ exists z, urgency r = Num.ofZ z /\ 1 <= z <= 5.
Proof.
  unfold fallbackAnalysis. cbn [sentiment urgency]. split.
  - repeat match goal with
           | |- context [(?a <? ?b)%nat] => destruct (a <? b)%nat
           end; tauto.
  - repeat match goal with
           | |- context [(?a <? ?b)%nat] => destruct (a <? b)%nat
           end; eexists; (split; [reflexivity | lia]).
Qed.

(** [analyzeFeedback] step by step: the model is called once; the result
    of the model path is returned, or the error is logged and the fallback
    Judgment is returned. *)
Lemma analyzeFeedback_eq {AiState : Type}
    (ai_run : string -> string -> Z -> AiState -> AiOutcome * AiState)
    (content : string) (w : World AiState) :
  analyzeFeedback ai_run content w =
  let outcome := (ai_run modelName (prompt content) 150 (ai w)).1 in
  let ai' := (ai_run modelName (prompt content) 150 (ai w)).2 in
  let t := (trace w ++ [EvAiRun modelName (prompt content) 150])%list in
  match modelPath outcome with
  | Ok analysis => (analysis, mkWorld ai' t)
  | Throw error =>
      (fallbackAnalysis content,
       mkWorld ai' (t ++ [EvConsoleError "AI analysis error:" error])%list)
  end.
Proof.
  unfold analyzeFeedback, mbind, M_bind, aiRun.
  destruct (ai_run modelName (prompt content) 150 (ai w)) as [outcome ai'].
  cbn [fst snd]. destruct (modelPath outcome); reflexivity.
Qed.

Lemma analyzeFeedback_scripted (outcome : AiOutcome) (content : string)
    (w : World unit) :
  (analyzeFeedback (scriptedAi outcome) content w).1 =
  match modelPath outcome with
  | Ok analysis => analysis
  | Throw _ => fallbackAnalysis content
  end.
Proof.
  rewrite analyzeFeedback_eq. unfold scriptedAi. cbn [fst snd].
  destruct (modelPath outcome); reflexivity.
Qed.

(** C4. Whatever the text and whatever the model call does, the sentiment
    of the returned Judgment is positive, negative or neutral and its
    urgency is an integer between 1 and 5; this holds for every Judgment
    of the model path and for every Judgment of the fallback path. *)
Theorem analyzeFeedback_sentiment_urgency_range :
  (forall (AiState : Type)
          (ai_run : string -> string -> Z -> AiState -> AiOutcome * AiState)
          (content : string) (w : World AiState),
      let r := (analyzeFeedback ai_run content w).1 in
      (sentiment r = "positive" \/ sentiment r = "negative" \/
       sentiment r = "neutral") /\
      exists z, urgency r = Num.ofZ z /\ 1 <= z <= 5) /\
  (forall (outcome : AiOutcome) (r : AnalysisResult),
      modelPath outcome = Ok r ->
      (sentiment r = "positive" \/ sentiment r = "negative" \/
       sentiment r = "neutral") /\
      exists z, urgency r = Num.ofZ z /\ 1 <= z <= 5) /\
  (forall content : string,
      let r := fallbackAnalysis content in
      (sentiment r = "positive" \/ sentiment r = "negative" \/
       sentiment r = "neutral") /\
      exists z, urgency r = Num.ofZ z /\ 1 <= z <= 5).
Proof.
  assert (Hmodel : forall outcome r, modelPath outcome = Ok r ->
            (sentiment r = "positive" \/ sentiment r = "negative" \/
             sentiment r = "neutral") /\
            exists z, urgency r = Num.ofZ z /\ 1 <= z <= 5).
  { intros outcome r H. apply modelPath_buildResult in H as [analysis H].
    eapply buildResult_range; eassumption. }
  split; [|split].
  - intros AiState ai_run content w. rewrite analyzeFeedback_eq. cbv zeta.
    destruct (modelPath _) as [r | e] eqn:E; cbn [fst].
    + eapply Hmodel; eassumption.
    + apply fallbackAnalysis_range.
  - exact Hmodel.
  - apply fallbackAnalysis_range.
Qed.

Lemma analyzeFeedback_sentiment_urgency_range_witness :
  let r := {| sentiment := "positive"; urgency := Num.ofZ 5;
              confidence := Fin 7 (-1); reasoning := JUndefined |} in
  (sentiment r = "positive" \/ sentiment r = "negative" \/
   sentiment r = "neutral") /\
  exists z, urgency r = Num.ofZ z /\ 1 <= z <= 5.
Proof.
  apply (proj1 (proj2 analyzeFeedback_sentiment_urgency_range)
           (respond (Str.q "{'sentiment':'VeryPositive!','urgency':99,'confidence':'n/a'}"))).
  vm_compute. reflexivity.
Defined.

(** C3. [analyzeFeedback] always returns a Judgment: the result of the
    model path, or, for every exception raised inside the [try] block, the
    fallback Judgment of the text.  When the model call rejects, or the
    response text holds no match of the brace pattern, or the matched text
    does not parse, the returned Judgment is the fallback one: its
    confidence is 0.5 and its reasoning is the fixed marker string. *)
Theorem analyzeFeedback_failures_fall_back (AiState : Type)
    (ai_run : string -> string -> Z -> AiState -> AiOutcome * AiState)
    (content : string) (w : World AiState) :
  let outcome := (ai_run modelName (prompt content) 150 (ai w)).1 in
  (exists r w', analyzeFeedback ai_run content w = (r, w') /\
     (modelPath outcome = Ok r \/
      exists e, modelPath outcome = Throw e /\ r = fallbackAnalysis content)) /\
  ((exists message, outcome = AiRejects message) \/
   (exists response text,
       outcome = AiResolves response /\
       getProp response "response" = Ok (JStr text) /\
       (Regex.matchObject (Regex.stripFences (Str.trim text)) = None \/
        exists m e,
          Regex.matchObject (Regex.stripFences (Str.trim text)) = Some m /\
          Json.parse m = Throw e)) ->
   exists r w', analyzeFeedback ai_run content w = (r, w') /\
     r = fallbackAnalysis content /\
     confidence r = Fin 5 (-1) /\
     reasoning r = JStr "Fallback rule-based analysis").
Proof.
  intros outcome. rewrite analyzeFeedback_eq. cbv zeta. fold outcome. split.
  - destruct (modelPath outcome) as [r | e]; eauto 8.
  - intros H.
    assert (Hthrow : exists e, modelPath outcome = Throw e).
    { destruct H as [[message ->] | (response & text & -> & Hres & Hm)].
      - eexists. reflexivity.
      - unfold modelPath. cbn [mbind Result_bind]. rewrite Hres.
        cbn [mbind Result_bind]. unfold extractJson. cbn [callStringMethod mbind Result_bind].
        destruct Hm as [-> | (m & e & -> & Hp)].
        + eexists. reflexivity.
        + cbn [mbind Result_bind]. rewrite Hp. eexists. reflexivity. }
    destruct Hthrow as [e ->]. eauto 8.
Qed.

Lemma analyzeFeedback_failures_fall_back_witness :
  exists r w',
    analyzeFeedback (scriptedAi (AiRejects "quota exceeded"))
      "Getting timeout errors when deploying Workers." emptyWorld = (r, w') /\
    r = fallbackAnalysis "Getting timeout errors when deploying Workers." /\
    confidence r = Fin 5 (-1) /\
    reasoning r = JStr "Fallback rule-based analysis".
Proof.
  apply (proj2 (analyzeFeedback_failures_fall_back unit
                  (scriptedAi (AiRejects "quota exceeded"))
                  "Getting timeout errors when deploying Workers." emptyWorld)).
  left. exists "quota exceeded". reflexivity.
Defined.

(** C1. The confidence of a model-path Judgment is not clamped: a response
    whose confidence field is 85 yields the confidence 85, which lies
    outside the interval from 0 to 1 (the urgency next to it is clamped). *)
Theorem confidence_is_not_clamped (content : string) (w : World unit) :
  let text := Str.q "{'sentiment':'positive','urgency':2,'confidence':85}" in
  let r := (analyzeFeedback (scriptedAi (respond text)) content w).1 in
  r = {| sentiment := "positive"; urgency := Num.ofZ 2;
         confidence := Fin 85 0; reasoning := JUndefined |} /\
  ~ Num.inUnitInterval (confidence r).
Proof.
  cbv zeta. rewrite analyzeFeedback_scripted.
  match goal with
  | |- context [modelPath ?o] =>
      let v := eval vm_compute in (modelPath o) in
      change (modelPath o) with v
  end.
  split; [reflexivity|]. cbn. lia.
Qed.

(** C2. A parsed object without a sentiment field, or with a sentiment
    that is not a string, makes [normalizeSentiment] raise a TypeError:
    the classification takes the fallback path, and the urgency and the
    confidence of the response are lost. *)
Theorem missing_sentiment_takes_fallback (content : string) (w : World unit) :
  let missing := Str.q "{'urgency':4,'confidence':0.9}" in
  let wrongType := Str.q "{'sentiment':1,'urgency':4,'confidence':0.9}" in
  modelPath (respond missing) = Throw TypeError /\
  modelPath (respond wrongType) = Throw TypeError /\
  (analyzeFeedback (scriptedAi (respond missing)) content w).1
  = fallbackAnalysis content /\
  (analyzeFeedback (scriptedAi (respond wrongType)) content w).1
  = fallbackAnalysis content /\
  (analyzeFeedback (scriptedAi (respond missing))
     "This is broken and needs urgent attention!" w).1
  = {| sentiment := "negative"; urgency := Num.ofZ 5;
       confidence := Fin 5 (-1);
       reasoning := JStr "Fallback rule-based analysis" |}.
Proof.
  cbv zeta.
  assert (H1 : modelPath (respond (Str.q "{'urgency':4,'confidence':0.9}"))
               = Throw TypeError) by (vm_compute; reflexivity).
  assert (H2 : modelPath (respond (Str.q "{'sentiment':1,'urgency':4,'confidence':0.9}"))
               = Throw TypeError) by (vm_compute; reflexivity).
  rewrite !analyzeFeedback_scripted, H1, H2.
  repeat split; reflexivity.
Qed.

(** C5. A numeric urgency of 0 is taken for a missing value: the result is
    the default 3, not the clamped value 1.  Other small integers are
    clamped: 99 gives 5 and -3 gives 1.  (A value from 1e21 on prints in
    exponent notation, of which [parseInt] reads the first digit.) *)
Theorem urgency_zero_yields_default (content : string) (w : World unit) :
  let response (v : string) :=
    respond (Str.q "{'sentiment':'neutral','urgency':" +:+ v +:+
             Str.q ",'confidence':0.9}") in
  let result (v : string) :=
    (analyzeFeedback (scriptedAi (response v)) content w).1 in
  result "0" = {| sentiment := "neutral"; urgency := Num.ofZ 3;
                  confidence := Fin 9 (-1); reasoning := JUndefined |} /\
  urgency (result "0") <> Num.ofZ 1 /\
  urgency (result "99") = Num.ofZ 5 /\
  urgency (result "-3") = Num.ofZ 1 /\
  urgency (result "7e21") = Num.ofZ 5 /\
  urgency (result "1e21") = Num.ofZ 1.
Proof.
  cbv beta zeta. rewrite !analyzeFeedback_scripted.
  repeat match goal with
         | |- context [modelPath ?o] =>
             let v := eval vm_compute in (modelPath o) in
             change (modelPath o) with v
         end.
  repeat split; try reflexivity. discriminate.
Qed.

(** ** The brace pattern *)

Lemma includes_char_cons (c x : ascii) (s : string) :
  Str.includes (String x s) (String c "") =
  Ascii.eqb x c || Str.includes s (String c "").
Proof. cbn [Str.includes Str.startsWith]. now rewrite andb_true_r. Qed.

Lemma throughLastClose_None (s : string) :
  Regex.throughLastClose s = None <-> Str.includes s "}" = false.
Proof.
  induction s as [|x s IH]; [split; reflexivity|].
  rewrite includes_char_cons, orb_false_iff. cbn [Regex.throughLastClose].
  destruct (Regex.throughLastClose s) as [m|].
  - split; [discriminate | intros [_ H]; apply IH in H; discriminate].
  - destruct (Ascii.eqb x "}"); split; try discriminate; try tauto.
    intros [H _]; discriminate.
Qed.

Lemma throughLastClose_app (mid post : string) :
  Str.includes post "}" = false ->
  Regex.throughLastClose (mid +:+ "}" +:+ post) = Some (mid +:+ "}").
Proof.
  intros Hpost. induction mid as [|y mid IH].
  - change ("" +:+ "}" +:+ post) with (String "}" post).
    cbn [Regex.throughLastClose].
    apply throughLastClose_None in Hpost. now rewrite Hpost.
  - rewrite (append_cons y mid ("}" +:+ post)), (append_cons y mid "}").
    cbn [Regex.throughLastClose]. now rewrite IH.
Qed.

Lemma throughLastClose_inv (s m : string) :
  Regex.throughLastClose s = Some m ->
  exists mid post, s = mid +:+ "}" +:+ post /\
                   Str.includes post "}" = false /\ m = mid +:+ "}".
Proof.
  revert m. induction s as [|x s IH]; intros m; [discriminate|].
  cbn [Regex.throughLastClose].
  destruct (Regex.throughLastClose s) as [m'|] eqn:E.
  - destruct (IH m' eq_refl) as (mid & post & -> & Hpost & ->).
    intros [= <-]. exists (String x mid), post.
    now rewrite (append_cons x mid ("}" +:+ post)), (append_cons x mid "}").
  - apply throughLastClose_None in E.
    destruct (Ascii.eqb_spec x "}") as [-> | Hx]; [|discriminate].
    intros [= <-]. exists "", s. repeat split; assumption.
Qed.

Lemma matchObject_no_close (s : string) :
  Str.includes s "}" = false -> Regex.matchObject s = None.
Proof.
  induction s as [|x s IH]; [reflexivity|].
  rewrite includes_char_cons, orb_false_iff. intros [_ Hs].
  cbn [Regex.matchObject].
  apply throughLastClose_None in Hs as Hn. rewrite Hn.
  destruct (Ascii.eqb x "{"); auto.
Qed.

Lemma matchObject_app (pre mid post : string) :
  Str.includes pre "{" = false ->
  Str.includes post "}" = false ->
  Regex.matchObject (pre +:+ "{" +:+ mid +:+ "}" +:+ post)
  = Some ("{" +:+ mid +:+ "}").
Proof.
  intros Hpre Hpost. induction pre as [|y pre IH].
  - change ("" +:+ "{" +:+ mid +:+ "}" +:+ post)
      with (String "{" (mid +:+ "}" +:+ post)).
    cbn [Regex.matchObject]. rewrite Ascii.eqb_refl.
    now rewrite throughLastClose_app.
  - rewrite includes_char_cons, orb_false_iff in Hpre. destruct Hpre as [Hy Hpre].
    rewrite append_cons. cbn [Regex.matchObject]. rewrite Hy. auto.
Qed.

Lemma matchObject_inv (s m : string) :
  Regex.matchObject s = Some m ->
  exists pre mid post,
    s = pre +:+ "{" +:+ mid +:+ "}" +:+ post /\
    Str.includes pre "{" = false /\
    Str.includes post "}" = false /\
    m = "{" +:+ mid +:+ "}".
Proof.
  induction s as [|x s IH]; [discriminate|].
  cbn [Regex.matchObject].
  destruct (Ascii.eqb_spec x "{") as [-> | Hx].
  - destruct (Regex.throughLastClose s) as [m'|] eqn:E.
    + apply throughLastClose_inv in E as (mid & post & -> & Hpost & ->).
      intros [= <-]. exists "", mid, post. repeat split; assumption.
    + apply throughLastClose_None in E. rewrite matchObject_no_close by assumption.
      discriminate.
  - intros H. destruct (IH H) as (pre & mid & post & -> & Hpre & Hpost & ->).
    exists (String x pre), mid, post. repeat split; try assumption.
    rewrite includes_char_cons, Hpre.
    destruct (Ascii.eqb_spec x "{"); [contradiction | reflexivity].
Qed.

Lemma modelPath_respond (text : string) :
  modelPath (respond text) =
  jsonMatch ← extractJson (JStr text);
  analysis ← Json.parse jsonMatch;
  buildResult analysis.
Proof. reflexivity. Qed.

(** C6, counterexample.  A response made of one valid JSON object and
    prose that contains a closing brace: the text handed to the parser is
    the whole response, not the object; the parser reads the object, finds
    the prose after it and raises, so the model path is left. *)
Lemma greedy_match_swallows_prose :
  let obj := Str.q "{'sentiment':'positive','urgency':1,'confidence':0.9}" in
  let prose := " Hope this helps :}" in
  Json.parse obj
  = Ok (JObj [("sentiment", JStr "positive"); ("urgency", JNum (Fin 1 0));
              ("confidence", JNum (Fin 9 (-1)))]) /\
  modelPath (respond obj)
  = Ok {| sentiment := "positive"; urgency := Num.ofZ 1;
          confidence := Fin 9 (-1); reasoning := JUndefined |} /\
  Str.includes prose "}" = true /\
  extractJson (JStr (obj +:+ prose)) = Ok (obj +:+ prose) /\
  extractJson (JStr (obj +:+ prose)) <> Ok obj /\
  Json.parseValue (2 * String.length (obj +:+ prose) + 2) (obj +:+ prose)
  = Some (JObj [("sentiment", JStr "positive"); ("urgency", JNum (Fin 1 0));
                ("confidence", JNum (Fin 9 (-1)))], prose) /\
  Json.parse (obj +:+ prose) = Throw SyntaxError /\
  modelPath (respond (obj +:+ prose)) = Throw SyntaxError.
Proof.
  vm_compute. repeat split; try reflexivity. discriminate.
Qed.

(** C6, as amended.  The text handed to the JSON parser is the response
    text, trimmed and without its code fences, from its first opening
    brace through its last closing brace; without such a span the call
    raises inside the [try] block.  When the stripped text is one JSON
    object followed by prose without a closing brace, the object is what
    the parser receives, and the classification goes on along the model
    path with the parsed object. *)
Theorem extraction_spans_first_open_to_last_close :
  (forall s m : string,
      Regex.matchObject s = Some m <->
      exists pre mid post,
        s = pre +:+ "{" +:+ mid +:+ "}" +:+ post /\
        Str.includes pre "{" = false /\
        Str.includes post "}" = false /\
        m = "{" +:+ mid +:+ "}") /\
  (forall text : string,
      extractJson (JStr text) =
      match Regex.matchObject (Regex.stripFences (Str.trim text)) with
      | Some m => Ok m
      | None => Throw NoJsonFound
      end) /\
  (forall (text mid prose : string) (analysis : JsValue),
      Regex.stripFences (Str.trim text) = "{" +:+ mid +:+ "}" +:+ prose ->
      Str.includes prose "}" = false ->
      Json.parse ("{" +:+ mid +:+ "}") = Ok analysis ->
      extractJson (JStr text) = Ok ("{" +:+ mid +:+ "}") /\
      modelPath (respond text) = buildResult analysis).
Proof.
  split; [|split].
  - intros s m. split.
    + apply matchObject_inv.
    + intros (pre & mid & post & -> & Hpre & Hpost & ->).
      now apply matchObject_app.
  - intros text. unfold extractJson. cbn [callStringMethod mbind Result_bind].
    destruct (Regex.matchObject _); reflexivity.
  - intros text mid prose analysis Htext Hprose Hparse.
    assert (Hex : extractJson (JStr text) = Ok ("{" +:+ mid +:+ "}")).
    { unfold extractJson. cbn [callStringMethod mbind Result_bind].
      rewrite Htext.
      change ("{" +:+ mid +:+ "}" +:+ prose)
        with ("" +:+ "{" +:+ mid +:+ "}" +:+ prose).
      now rewrite matchObject_app. }
    split; [exact Hex|].
    rewrite modelPath_respond, Hex. cbn [mbind Result_bind].
    now rewrite Hparse.
Qed.

Lemma extraction_spans_first_open_to_last_close_witness :
  modelPath (respond (Str.q "```json
{'sentiment':'positive','urgency':1,'confidence':0.9}
``` Hope this helps!"))
  = buildResult (JObj [("sentiment", JStr "positive");
                       ("urgency", JNum (Fin 1 0));
                       ("confidence", JNum (Fin 9 (-1)))]).
Proof.
  apply (proj2 (proj2 extraction_spans_first_open_to_last_close)
           (Str.q "```json
{'sentiment':'positive','urgency':1,'confidence':0.9}
``` Hope this helps!")
           (Str.q "'sentiment':'positive','urgency':1,'confidence':0.9")
           (String Char.newline " Hope this helps!")).
  - vm_compute. reflexivity.
  - vm_compute. reflexivity.
  - vm_compute. reflexivity.
Defined.

(** ** The batch runner *)

Lemma batchLoop_cons {AiState : Type}
    (ai_run : string -> string -> Z -> AiState -> AiOutcome * AiState)
    (onProgress : bool) (total i : nat) (feedback : Feedback)
    (rest : list Feedback) (results : gmap Z AnalysisResult)
    (w : World AiState) :
  batchLoop ai_run onProgress total i (feedback :: rest) results w =
  let step := analyzeFeedback ai_run (content feedback) w in
  let w1 := step.2 in
  let w2 := if onProgress
            then mkWorld (ai w1) (trace w1 ++ [EvProgress (i + 1) total])%list
            else w1 in
  batchLoop ai_run onProgress total (S i) rest
    (<[id feedback := step.1]> results) w2.
Proof.
  cbn [batchLoop]. unfold mbind, M_bind.
  destruct (analyzeFeedback ai_run (content feedback) w) as [analysis w1].
  cbn [fst snd]. destruct onProgress; reflexivity.
Qed.

(** One classification adds to the trace the model call, then at most a
    console message. *)
Lemma analyzeFeedback_trace {AiState : Type}
    (ai_run : string -> string -> Z -> AiState -> AiOutcome * AiState)
    (content : string) (w : World AiState) :
  exists logs,
    trace (analyzeFeedback ai_run content w).2 =
    (trace w ++ EvAiRun modelName (prompt content) 150 :: logs)%list /\
    withoutLogs logs = [] /\ modelCalls logs = [] /\ progressCalls logs = [].
Proof.
  rewrite analyzeFeedback_eq. cbv zeta.
  destruct (modelPath _) as [r | e]; cbn [snd trace].
  - exists []. repeat split; reflexivity.
  - exists [EvConsoleError "AI analysis error:" e]. rewrite <- app_assoc.
    repeat split; reflexivity.
Qed.

Lemma withoutLogs_app (t1 t2 : list Event) :
  withoutLogs (t1 ++ t2) = (withoutLogs t1 ++ withoutLogs t2)%list.
Proof. apply List.filter_app. Qed.

Lemma modelCalls_app (t1 t2 : list Event) :
  modelCalls (t1 ++ t2) = (modelCalls t1 ++ modelCalls t2)%list.
Proof.
  induction t1 as [|ev t1 IH]; [reflexivity|].
  destruct ev; cbn; now rewrite IH.
Qed.

Lemma progressCalls_app (t1 t2 : list Event) :
  progressCalls (t1 ++ t2) = (progressCalls t1 ++ progressCalls t2)%list.
Proof.
  induction t1 as [|ev t1 IH]; [reflexivity|].
  destruct ev; cbn; now rewrite IH.
Qed.

Lemma batchLoop_spec {AiState : Type}
    (ai_run : string -> string -> Z -> AiState -> AiOutcome * AiState)
    (total : nat) (rest : list Feedback) :
  forall (i : nat) (results : gmap Z AnalysisResult) (w : World AiState),
    NoDup (id <$> rest) ->
    (forall k, k ∈ (id <$> rest) -> results !! k = None) ->
    let out := batchLoop ai_run true total i rest results w in
    size out.1 = (size results + List.length rest)%nat /\
    (forall k, is_Some (out.1 !! k) <->
               is_Some (results !! k) \/ k ∈ (id <$> rest)) /\
    exists new,
      trace out.2 = (trace w ++ new)%list /\
      withoutLogs new = sequentialRun total i rest /\
      modelCalls new = (fun feedback => prompt (content feedback)) <$> rest /\
      progressCalls new = (fun k => (k, total)) <$> seq (i + 1) (List.length rest).
Proof.
  induction rest as [|feedback rest IH]; intros i results w Hnd Hfresh.
  - cbn. split; [lia|]. split.
    + intros k. rewrite elem_of_nil. tauto.
    + exists []. rewrite app_nil_r. repeat split; reflexivity.
  - rewrite fmap_cons in Hnd, Hfresh. apply NoDup_cons in Hnd as [Hnotin Hnd].
    cbv zeta. rewrite batchLoop_cons. cbv zeta.
    destruct (analyzeFeedback_trace ai_run (content feedback) w)
      as (logs & Htrace & Hlogs & Hcalls & Hprog).
    set (step := analyzeFeedback ai_run (content feedback) w) in *.
    set (results' := <[id feedback := step.1]> results).
    set (w2 := mkWorld (ai step.2) (trace step.2 ++ [EvProgress (i + 1) total])%list).
    assert (Hfresh' : forall k, k ∈ (id <$> rest) -> results' !! k = None).
    { intros k Hk. unfold results'. rewrite lookup_insert_ne.
      - apply Hfresh. now apply list_elem_of_further.
      - intros Heq. subst k. contradiction. }
    destruct (IH (S i) results' w2 Hnd Hfresh') as (Hsize & Hdom & new & Hnew & Hobs & Hmc & Hpc).
    split; [|split].
    + rewrite Hsize. unfold results'. rewrite map_size_insert_None.
      * cbn [List.length]. lia.
      * apply Hfresh. apply list_elem_of_here.
    + intros k. rewrite Hdom, fmap_cons, elem_of_cons. unfold results'.
      destruct (decide (id feedback = k)) as [<- | Hne].
      * rewrite lookup_insert_eq. split; [intros _; right; now left | eauto].
      * rewrite lookup_insert_ne by assumption. split.
        -- intros [H | H]; [now left | right; now right].
        -- intros [H | [H | H]]; [now left | congruence | now right].
    + exists (EvAiRun modelName (prompt (content feedback)) 150
               :: logs ++ EvProgress (i + 1) total :: new)%list.
      split; [|split; [|split]].
      * rewrite Hnew. unfold w2. cbn [trace]. rewrite Htrace.
        rewrite <- !app_assoc. reflexivity.
      * change (withoutLogs (?a :: ?l)) with (withoutLogs ([a] ++ l)).
        rewrite !withoutLogs_app, Hlogs.
        change (withoutLogs (EvProgress (i + 1) total :: new))
          with (EvProgress (i + 1) total :: withoutLogs new).
        rewrite Hobs. reflexivity.
      * cbn [modelCalls]. rewrite modelCalls_app, Hcalls. cbn [app modelCalls].
        rewrite Hmc. reflexivity.
      * cbn [progressCalls]. rewrite progressCalls_app, Hprog. cbn [app progressCalls].
        rewrite Hpc. cbn [List.length seq fmap list_fmap].
        replace (S i + 1)%nat with (S (i + 1)) by lia. reflexivity.
Qed.

(** C7. For a list of [N] items with pairwise distinct identifiers, the
    batch runner returns a mapping with exactly [N] entries, whose keys
    are the identifiers of the list.  The run is sequential and in input
    order: apart from console messages, the trace grows by the model call
    for the first text, the first progress report, the model call for the
    second text, and so on.  The progress callback is invoked [N] times,
    with the arguments [(1, N)], [(2, N)], ..., [(N, N)]. *)
Theorem batch_covers_every_item_in_order (AiState : Type)
    (ai_run : string -> string -> Z -> AiState -> AiOutcome * AiState)
    (feedbackList : list Feedback) (w : World AiState) :
  NoDup (id <$> feedbackList) ->
  let N := List.length feedbackList in
  let out := batchAnalyzeFeedback ai_run feedbackList true w in
  size out.1 = N /\
  (forall k, is_Some (out.1 !! k) <-> k ∈ (id <$> feedbackList)) /\
  exists new,
    trace out.2 = (trace w ++ new)%list /\
    withoutLogs new = sequentialRun N 0 feedbackList /\
    modelCalls new = (fun feedback => prompt (content feedback)) <$> feedbackList /\
    progressCalls new = (fun k => (k, N)) <$> seq 1 N /\
    List.length (progressCalls new) = N.
Proof.
  intros Hnd N out.
  destruct (batchLoop_spec ai_run N feedbackList 0 ∅ w Hnd)
    as (Hsize & Hdom & new & Hnew & Hobs & Hmc & Hpc).
  { intros k _. apply lookup_empty. }
  change (batchLoop ai_run true N 0 feedbackList ∅ w) with out in Hsize, Hdom, Hnew.
  split; [|split].
  - rewrite Hsize, map_size_empty. reflexivity.
  - intros k. rewrite Hdom, lookup_empty. split; [|tauto].
    intros [[x Hx] | H]; [discriminate | exact H].
  - exists new. repeat split; try assumption.
    rewrite Hpc, length_fmap, length_seq. reflexivity.
Qed.

Lemma batch_covers_every_item_in_order_witness :
  let items := [mkFeedback 7 "Great work team!";
                mkFeedback 9 "Worker crashes when payload exceeds 1MB."] in
  size (batchAnalyzeFeedback (scriptedAi (AiRejects "quota exceeded"))
          items true emptyWorld).1 = 2%nat.
Proof.
  intros items.
  apply (batch_covers_every_item_in_order unit
           (scriptedAi (AiRejects "quota exceeded")) items emptyWorld).
  refine (bool_decide_unpack _ _). vm_compute. exact I.
Defined.

(** * Further properties of the classifier and the batch runner *)

Lemma removeAll_skip (fence : string) (k : nat) (s : string) :
  Regex.removeAll fence k s = Regex.removeAll fence 0 (Str.drop k s).
Proof.
  revert k. induction s as [|c s IH]; intros [|k]; try reflexivity.
  cbn [Regex.removeAll Str.drop]. apply IH.
Qed.

Lemma removeAll_cons_miss (fence : string) (c : ascii) (s : string) :
  Str.startsWith (String c s) fence = false ->
  Regex.removeAll fence 0 (String c s) = String c (Regex.removeAll fence 0 s).
Proof. intros H. cbn [Regex.removeAll]. now rewrite H. Qed.

Lemma removeAll_cons_hit (fence : string) (c : ascii) (s : string) :
  Str.startsWith (String c s) fence = true ->
  exists k, Regex.removeAll fence 0 (String c s)
            = Regex.removeAll fence 0 (Str.drop k s).
Proof.
  intros H. cbn [Regex.removeAll]. rewrite H. eexists. apply removeAll_skip.
Qed.

Lemma includes_cons (c : ascii) (s w : string) :
  Str.includes (String c s) w = Str.startsWith (String c s) w || Str.includes s w.
Proof. reflexivity. Qed.

Lemma removeAll_id (fence s : string) :
  Str.includes s fence = false -> Regex.removeAll fence 0 s = s.
Proof.
  induction s as [|c s IH]; [reflexivity|].
  rewrite includes_cons, orb_false_iff. intros [Hs Hi].
  rewrite removeAll_cons_miss by assumption. now rewrite IH.
Qed.

Lemma backticks_out_1 (s : string) :
  Str.startsWith s "`" = false ->
  Str.startsWith (Regex.removeAll "```" 0 s) "`" = false.
Proof.
  destruct s as [|x t]; [reflexivity|]. intros H.
  rewrite removeAll_cons_miss.
  - exact H.
  - cbn [Str.startsWith] in H |- *. rewrite andb_true_r in H. now rewrite H.
Qed.

Lemma backticks_out_2 (s : string) :
  Str.startsWith s "``" = false ->
  Str.startsWith (Regex.removeAll "```" 0 s) "``" = false.
Proof.
  destruct s as [|d t]; [reflexivity|]. intros H.
  assert (Hmiss : Str.startsWith (String d t) "```" = false).
  { cbn [Str.startsWith] in H |- *. destruct (Ascii.eqb d "`"); [|reflexivity].
    cbn [andb] in H |- *. destruct t as [|x t']; [reflexivity|].
    destruct (Ascii.eqb x "`"); [discriminate | reflexivity]. }
  rewrite removeAll_cons_miss by assumption.
  cbn [Str.startsWith] in H. cbn [Str.startsWith].
  destruct (Ascii.eqb d "`"); [|reflexivity]. cbn [andb] in H |- *.
  apply (backticks_out_1 t). destruct t as [|x t']; [reflexivity|].
  cbn [Str.startsWith]. exact H.
Qed.

Lemma drop_length_le (k : nat) (s : string) :
  (String.length (Str.drop k s) <= String.length s)%nat.
Proof. rewrite drop_length. lia. Qed.

Lemma removeAll_fence_free_aux (n : nat) :
  forall s, (String.length s <= n)%nat ->
            Str.includes (Regex.removeAll "```" 0 s) "```" = false.
Proof.
  induction n as [|n IH]; intros s Hn.
  - destruct s; [reflexivity | cbn in Hn; lia].
  - destruct s as [|c s']; [reflexivity|]. cbn [String.length] in Hn.
    destruct (Str.startsWith (String c s') "```") eqn:E.
    + destruct (removeAll_cons_hit _ _ _ E) as [k ->].
      apply IH. pose proof (drop_length_le k s'). lia.
    + rewrite removeAll_cons_miss by assumption.
      rewrite includes_cons, IH by lia. rewrite orb_false_r.
      cbn [Str.startsWith] in E |- *.
      destruct (Ascii.eqb c "`"); [|reflexivity]. cbn [andb] in E |- *.
      apply (backticks_out_2 s'). destruct s' as [|x t]; [reflexivity|].
      cbn [Str.startsWith]. exact E.
Qed.

Lemma includes_longer (s w v : string) :
  Str.includes s w = false -> Str.includes s (w +:+ v) = false.
Proof.
  intros H. destruct (Str.includes s (w +:+ v)) eqn:E; [|reflexivity].
  apply includes_spec in E as (pre & post & ->).
  assert (Hc : Str.includes (pre +:+ (w +:+ v) +:+ post) w = true).
  { apply includes_spec. exists pre, (v +:+ post). now rewrite append_assoc. }
  congruence.
Qed.

(** X1. After the two fence-removing replacements no triple backtick is
    left in the text, and a text without a triple backtick is returned
    unchanged. *)
Theorem stripFences_leaves_no_fence :
  (forall s : string, Str.includes (Regex.stripFences s) "```" = false) /\
  (forall s : string, Str.includes s "```" = false -> Regex.stripFences s = s).
Proof.
  split.
  - intros s. unfold Regex.stripFences.
    apply (removeAll_fence_free_aux (String.length (Regex.removeAll "```json" 0 s))).
    lia.
  - intros s H. unfold Regex.stripFences.
    rewrite (removeAll_id "```json") by (apply (includes_longer s "```" "json"), H).
    now apply removeAll_id.
Qed.

Lemma stripFences_leaves_no_fence_witness :
  Regex.stripFences (Str.q "{'sentiment':'positive','urgency':2}")
  = Str.q "{'sentiment':'positive','urgency':2}".
Proof. apply (proj2 stripFences_leaves_no_fence). reflexivity. Defined.

(** X2. [normalizeSentiment] raises a TypeError exactly on the values that
    are not strings.  On a string that contains the word positive in any
    letter case it answers positive, also when the word negative occurs as
    well; negative is answered only without positive; and the answer is
    neutral exactly when neither word occurs in the lower-cased string. *)
Theorem normalizeSentiment_behaviour :
  (forall v : JsValue,
      normalizeSentiment v = Throw TypeError <-> forall s, v <> JStr s) /\
  (forall pre w post : string,
      Str.toLowerCase w = "positive" ->
      normalizeSentiment (JStr (pre +:+ w +:+ post)) = Ok "positive") /\
  (forall pre w post : string,
      Str.toLowerCase w = "negative" ->
      Str.includes (Str.toLowerCase (pre +:+ w +:+ post)) "positive" = false ->
      normalizeSentiment (JStr (pre +:+ w +:+ post)) = Ok "negative") /\
  (forall s : string,
      normalizeSentiment (JStr s) = Ok "neutral" <->
      Str.includes (Str.toLowerCase s) "positive" = false /\
      Str.includes (Str.toLowerCase s) "negative" = false).
Proof.
  assert (Hin : forall pre w post t,
             Str.toLowerCase w = t ->
             Str.includes (Str.toLowerCase (pre +:+ w +:+ post)) t = true).
  { intros pre w post t <-. apply includes_spec.
    exists (Str.toLowerCase pre), (Str.toLowerCase post).
    now rewrite !toLowerCase_append. }
  split; [|split; [|split]].
  - intros v. split.
    + intros H s ->. unfold normalizeSentiment in H.
      cbn [callStringMethod mbind Result_bind] in H.
      destruct (Str.includes _ "positive"); [discriminate|].
      destruct (Str.includes _ "negative"); discriminate.
    + intros H. destruct v; try reflexivity. now destruct (H s).
  - intros pre w post Hw. unfold normalizeSentiment.
    cbn [callStringMethod mbind Result_bind]. now rewrite (Hin _ _ _ _ Hw).
  - intros pre w post Hw Hpos. unfold normalizeSentiment.
    cbn [callStringMethod mbind Result_bind]. now rewrite Hpos, (Hin _ _ _ _ Hw).
  - intros s. unfold normalizeSentiment.
    cbn [callStringMethod mbind Result_bind].
    destruct (Str.includes _ "positive"); [split; [discriminate | intros [? _]; discriminate]|].
    destruct (Str.includes _ "negative"); split; try discriminate; try tauto.
    intros [_ ?]; discriminate.
Qed.

Lemma normalizeSentiment_behaviour_witness :
  normalizeSentiment (JStr "Not negative at all, rather POSITIVE!") = Ok "positive".
Proof.
  apply (proj1 (proj2 normalizeSentiment_behaviour)
           "Not negative at all, rather " "POSITIVE" "!").
  reflexivity.
Defined.

Lemma toString_blank (v : JsValue) :
  v = JUndefined \/ v = JNull \/ (exists b, v = JBool b) ->
  exists t, Conv.toString v = Ok t /\
            Parse.parseIntString t = NaN /\ Parse.parseFloatString t = NaN.
Proof.
  intros [-> | [-> | [[|] ->]]]; eexists; (split; [reflexivity|]);
    split; vm_compute; reflexivity.
Qed.

(** X3. For a parsed object whose sentiment is a string and whose urgency
    and confidence are each missing, null or a boolean, the model path
    succeeds with urgency 3 and confidence 0.7; the reasoning field is
    passed through. *)
Theorem buildResult_defaults (props : list (string * JsValue)) (s : string) :
  let field key := default JUndefined (Conv.getOwn props key) in
  let blank v := v = JUndefined \/ v = JNull \/ exists b, v = JBool b in
  field "sentiment" = JStr s ->
  blank (field "urgency") ->
  blank (field "confidence") ->
  exists label,
    normalizeSentiment (JStr s) = Ok label /\
    buildResult (JObj props)
    = Ok {| sentiment := label; urgency := Num.ofZ 3;
            confidence := Fin 7 (-1); reasoning := field "reasoning" |}.
Proof.
  intros field blank Hs Hu Hc.
  destruct (toString_blank _ Hu) as (tu & Htu & Hpu & _).
  destruct (toString_blank _ Hc) as (tc & Htc & _ & Hpc).
  assert (Hl : exists label, normalizeSentiment (JStr s) = Ok label).
  { unfold normalizeSentiment. cbn [callStringMethod mbind Result_bind].
    destruct (Str.includes _ "positive"); [eauto|].
    destruct (Str.includes _ "negative"); eauto. }
  destruct Hl as [label Hl]. exists label. split; [exact Hl|].
  unfold buildResult, getProp. fold (field "sentiment") (field "urgency")
    (field "confidence") (field "reasoning").
  cbn [mbind Result_bind]. rewrite Hs, Hl. cbn [mbind Result_bind].
  unfold Parse.parseInt, Parse.parseFloat. rewrite Htu, Htc.
  cbn [mbind Result_bind]. rewrite Hpu, Hpc. reflexivity.
Qed.

Lemma buildResult_defaults_witness :
  exists label,
    normalizeSentiment (JStr "Somewhat Negative") = Ok label /\
    buildResult (JObj [("sentiment", JStr "Somewhat Negative");
                       ("urgency", JNull)])
    = Ok {| sentiment := label; urgency := Num.ofZ 3;
            confidence := Fin 7 (-1); reasoning := JUndefined |}.
Proof.
  apply (buildResult_defaults
           [("sentiment", JStr "Somewhat Negative"); ("urgency", JNull)]
           "Somewhat Negative").
  - reflexivity.
  - right. left. reflexivity.
  - left. reflexivity.
Defined.

Lemma orElse_truthy (x d : JsNumber) :
  Num.truthy d = true -> Num.truthy (Num.orElse x d) = true.
Proof. intros Hd. unfold Num.orElse. now destruct (Num.truthy x) eqn:E. Qed.

Lemma analyzeFeedback_confidence_truthy {AiState : Type}
    (ai_run : string -> string -> Z -> AiState -> AiOutcome * AiState)
    (content : string) (w : World AiState) :
  Num.truthy (confidence (analyzeFeedback ai_run content w).1) = true.
Proof.
  rewrite analyzeFeedback_eq. cbv zeta.
  destruct (modelPath _) as [r | e] eqn:E; cbn [fst]; [|reflexivity].
  apply modelPath_buildResult in E as [analysis E].
  unfold buildResult in E. invert_binds. injection E as <-. cbn [confidence].
  now apply orElse_truthy.
Qed.

Lemma analyzeFeedback_wellFormed {AiState : Type}
    (ai_run : string -> string -> Z -> AiState -> AiOutcome * AiState)
    (content : string) (w : World AiState) :
  wellFormed (analyzeFeedback ai_run content w).1.
Proof.
  pose proof (analyzeFeedback_confidence_truthy ai_run content w) as Hc.
  unfold wellFormed. revert Hc. rewrite analyzeFeedback_eq. cbv zeta.
  destruct (modelPath _) as [r | e] eqn:E; cbn [fst]; intros Hc.
  - apply modelPath_buildResult in E as [analysis E].
    destruct (buildResult_range _ _ E) as [Hs Hu]. auto.
  - destruct (fallbackAnalysis_range content) as [Hs Hu]. auto.
Qed.

(** X4. The confidence returned by [analyzeFeedback] is never [NaN] and
    never zero: a confidence that parses to 0 or to no number is replaced
    by 0.7, and the fallback confidence is 0.5. *)
Theorem confidence_never_zero_nor_NaN (AiState : Type)
    (ai_run : string -> string -> Z -> AiState -> AiOutcome * AiState)
    (content : string) (w : World AiState) :
  let c := confidence (analyzeFeedback ai_run content w).1 in
  c <> NaN /\ c <> Fin 0 0 /\ Num.truthy c = true.
Proof.
  cbv zeta.
  pose proof (analyzeFeedback_confidence_truthy ai_run content w) as H.
  repeat split; try exact H; intros Hc; rewrite Hc in H; discriminate.
Qed.

(** X5. In the fallback heuristic, a negative sentiment comes with an
    urgency of at least 3, the urgency 1 comes only with a positive
    sentiment, and the urgency 4 only with three or more negative words
    and no urgent word. *)
Theorem fallback_sentiment_urgency_coupling (content : string) :
  let r := fallbackAnalysis content in
  (sentiment r = "negative" ->
   urgency r = Num.ofZ 3 \/ urgency r = Num.ofZ 4 \/ urgency r = Num.ofZ 5) /\
  (urgency r = Num.ofZ 1 -> sentiment r = "positive") /\
  (urgency r = Num.ofZ 4 ->
   (3 <= countMatches (Str.toLowerCase content) negativeWords)%nat /\
   countMatches (Str.toLowerCase content) urgentWords = 0%nat).
Proof.
  unfold fallbackAnalysis. cbn [sentiment urgency].
  set (p := countMatches _ positiveWords).
  set (n := countMatches _ negativeWords).
  set (u := countMatches _ urgentWords).
  repeat match goal with
         | |- context [(?a <? ?b)%nat] => destruct (Nat.ltb_spec a b)
         end; repeat split; intros; try discriminate; try lia; auto.
Qed.

Lemma fallback_sentiment_urgency_coupling_witness :
  urgency (fallbackAnalysis "The dashboard is slow and full of errors") = Num.ofZ 3 \/
  urgency (fallbackAnalysis "The dashboard is slow and full of errors") = Num.ofZ 4 \/
  urgency (fallbackAnalysis "The dashboard is slow and full of errors") = Num.ofZ 5.
Proof.
  apply (proj1 (fallback_sentiment_urgency_coupling
                  "The dashboard is slow and full of errors")).
  reflexivity.
Defined.

Lemma includes_context (pre s post w : string) :
  Str.includes s w = true -> Str.includes (pre +:+ s +:+ post) w = true.
Proof.
  intros H. apply includes_spec in H as (a & b & ->). apply includes_spec.
  exists (pre +:+ a), (b +:+ post). now rewrite !append_assoc.
Qed.

Lemma countMatches_context (pre s post : string) (ws : list string) :
  (countMatches s ws <= countMatches (pre +:+ s +:+ post) ws)%nat.
Proof.
  induction ws as [|w ws IH]; [reflexivity|].
  rewrite !countMatches_cons.
  destruct (Str.includes s w) eqn:E.
  - rewrite (includes_context pre s post w E). lia.
  - destruct (Str.includes (pre +:+ s +:+ post) w); lia.
Qed.

(** X6. Surrounding a text with more text never lowers a lexicon count;
    so a text with fallback urgency 5 keeps urgency 5 inside any longer
    text. *)
Theorem fallback_matches_survive_embedding (pre content post : string) :
  (forall ws : list string,
      (countMatches (Str.toLowerCase content) ws
       <= countMatches (Str.toLowerCase (pre +:+ content +:+ post)) ws)%nat) /\
  (urgency (fallbackAnalysis content) = Num.ofZ 5 ->
   urgency (fallbackAnalysis (pre +:+ content +:+ post)) = Num.ofZ 5).
Proof.
  assert (Hmono : forall ws,
             (countMatches (Str.toLowerCase content) ws
              <= countMatches (Str.toLowerCase (pre +:+ content +:+ post)) ws)%nat).
  { intros ws. rewrite !toLowerCase_append. apply countMatches_context. }
  split; [exact Hmono|].
  intros H. apply fallback_urgency_urgent.
  specialize (Hmono urgentWords).
  assert (Hu : (0 < countMatches (Str.toLowerCase content) urgentWords)%nat).
  { unfold fallbackAnalysis in H. cbn [urgency] in H.
    destruct (Nat.ltb_spec 0 (countMatches (Str.toLowerCase content) urgentWords));
      [assumption|].
    repeat match type of H with
           | context [(?a <? ?b)%nat] => destruct (a <? b)%nat
           end; discriminate. }
  lia.
Qed.

Lemma fallback_matches_survive_embedding_witness :
  urgency (fallbackAnalysis ("Hi team. " +:+ "Production is down" +:+ " Thanks!"))
  = Num.ofZ 5.
Proof.
  apply (proj2 (fallback_matches_survive_embedding
                  "Hi team. " "Production is down" " Thanks!")).
  reflexivity.
Defined.

Section BatchFacts.

Context {AiState : Type}.
Variable ai_run : string -> string -> Z -> AiState -> AiOutcome * AiState.

Lemma batchLoop_app (onProgress : bool) (total : nat) (l1 l2 : list Feedback) :
  forall (i : nat) (results : gmap Z AnalysisResult) (w : World AiState),
    batchLoop ai_run onProgress total i (l1 ++ l2) results w =
    let out1 := batchLoop ai_run onProgress total i l1 results w in
    batchLoop ai_run onProgress total (i + List.length l1) l2 out1.1 out1.2.
Proof.
  induction l1 as [|fb l1 IH]; intros i results w.
  - cbn. now rewrite Nat.add_0_r.
  - rewrite <- app_comm_cons, !batchLoop_cons. cbv zeta. rewrite IH. cbv zeta.
    cbn [List.length]. now replace (S i + List.length l1)%nat
                         with (i + S (List.length l1))%nat by lia.
Qed.

Lemma batchLoop_lookup (onProgress : bool) (total : nat) (rest : list Feedback) :
  forall (i : nat) (results : gmap Z AnalysisResult) (w : World AiState) (k : Z),
    let out := batchLoop ai_run onProgress total i rest results w in
    (k ∉ (id <$> rest) -> out.1 !! k = results !! k) /\
    (is_Some (out.1 !! k) <-> is_Some (results !! k) \/ k ∈ (id <$> rest)) /\
    (size out.1 <= size results + List.length rest)%nat.
Proof.
  induction rest as [|fb rest IH]; intros i results w k.
  - cbn. split; [reflexivity|]. split; [|lia].
    rewrite elem_of_nil. tauto.
  - cbv zeta. rewrite batchLoop_cons. cbv zeta.
    set (step := analyzeFeedback ai_run (content fb) w).
    set (w2 := if onProgress then _ else _).
    destruct (IH (S i) (<[id fb := step.1]> results) w2 k) as (Hkeep & Hkeys & Hsize).
    rewrite fmap_cons. split; [|split].
    + intros Hk. apply not_elem_of_cons in Hk as [Hne Hk].
      rewrite Hkeep by assumption. now rewrite lookup_insert_ne.
    + rewrite Hkeys, elem_of_cons.
      destruct (decide (id fb = k)) as [<- | Hne].
      * rewrite lookup_insert_eq. split; [intros _; right; now left | eauto].
      * rewrite lookup_insert_ne by assumption. split.
        -- intros [H | H]; [now left | right; now right].
        -- intros [H | [H | H]]; [now left | congruence | now right].
    + cbn [List.length].
      destruct (results !! id fb) as [old|] eqn:E.
      * rewrite map_size_insert_Some in Hsize by (rewrite E; eauto). lia.
      * rewrite map_size_insert_None in Hsize by assumption. lia.
Qed.

Lemma batchLoop_Forall (P : AnalysisResult -> Prop) (onProgress : bool)
    (total : nat) (rest : list Feedback) :
  (forall content w, P (analyzeFeedback ai_run content w).1) ->
  forall (i : nat) (results : gmap Z AnalysisResult) (w : World AiState),
    map_Forall (fun _ r => P r) results ->
    map_Forall (fun _ r => P r)
      (batchLoop ai_run onProgress total i rest results w).1.
Proof.
  intros HP. induction rest as [|fb rest IH]; intros i results w Hres.
  - exact Hres.
  - rewrite batchLoop_cons. cbv zeta. apply IH.
    apply map_Forall_insert_2; [apply HP | exact Hres].
Qed.

Lemma batchLoop_trace (onProgress : bool) (total : nat) (rest : list Feedback) :
  forall (i : nat) (results : gmap Z AnalysisResult) (w : World AiState),
    let out := batchLoop ai_run onProgress total i rest results w in
    exists new,
      trace out.2 = (trace w ++ new)%list /\
      modelCalls new = (fun feedback => prompt (content feedback)) <$> rest /\
      progressCalls new =
        (if onProgress
         then (fun k => (k, total)) <$> seq (i + 1) (List.length rest)
         else []).
Proof.
  induction rest as [|fb rest IH]; intros i results w.
  - exists []. cbn. rewrite app_nil_r. destruct onProgress; repeat split; reflexivity.
  - cbv zeta. rewrite batchLoop_cons. cbv zeta.
    destruct (analyzeFeedback_trace ai_run (content fb) w)
      as (logs & Htrace & _ & Hcalls & Hprog).
    set (step := analyzeFeedback ai_run (content fb) w) in *.
    set (w2 := if onProgress then _ else _).
    destruct (IH (S i) (<[id fb := step.1]> results) w2) as (new & Hnew & Hmc & Hpc).
    exists (EvAiRun modelName (prompt (content fb)) 150
              :: logs ++ (if onProgress then [EvProgress (i + 1) total] else []) ++ new)%list.
    split; [|split].
    + rewrite Hnew. unfold w2. destruct onProgress; cbn [trace]; rewrite Htrace;
        rewrite <- ?app_assoc; reflexivity.
    + cbn [modelCalls]. rewrite !modelCalls_app, Hcalls, Hmc.
      destruct onProgress; reflexivity.
    + cbn [progressCalls]. rewrite !progressCalls_app, Hprog, Hpc.
      destruct onProgress; [|reflexivity].
      cbn [List.length seq fmap list_fmap app progressCalls].
      replace (S i + 1)%nat with (S (i + 1)) by lia. reflexivity.
Qed.

End BatchFacts.

Lemma size_list_to_set_le (l : list Z) :
  (size (list_to_set l : gset Z) <= List.length l)%nat /\
  (~ NoDup l -> (size (list_to_set l : gset Z) < List.length l)%nat).
Proof.
  induction l as [|x l [IHle IHlt]]; [split; [reflexivity | intros H; destruct H; constructor]|].
  cbn [list_to_set List.length].
  destruct (decide (x ∈ l)) as [Hin | Hnin].
  - assert (E : ({[x]} ∪ list_to_set l : gset Z) = list_to_set l).
    { apply set_eq. intros y.
      rewrite elem_of_union, elem_of_singleton, elem_of_list_to_set.
      split; [intros [-> | Hy]; assumption | auto]. }
    rewrite E. split; [lia | intros _; lia].
  - rewrite size_union by set_solver. rewrite size_singleton. split; [lia|].
    intros Hnd. assert (Hl : ~ NoDup l).
    { intros H. apply Hnd. now apply NoDup_cons. }
    specialize (IHlt Hl). lia.
Qed.

(** X7. With or without repeated identifiers and with or without a
    callback: the keys of the result are exactly the identifiers of the
    list; the map has at most [N] entries, and fewer when an identifier
    repeats; the entry of an identifier is the Judgment of the last item
    that carries it; the model is called [N] times, and the callback [N]
    times when supplied. *)
Theorem batch_with_repeated_identifiers (AiState : Type)
    (ai_run : string -> string -> Z -> AiState -> AiOutcome * AiState)
    (feedbackList : list Feedback) (onProgress : bool) (w : World AiState) :
  let N := List.length feedbackList in
  let out := batchAnalyzeFeedback ai_run feedbackList onProgress w in
  (forall k, is_Some (out.1 !! k) <-> k ∈ (id <$> feedbackList)) /\
  (size out.1 <= N)%nat /\
  (~ NoDup (id <$> feedbackList) -> (size out.1 < N)%nat) /\
  (forall l1 feedback l2,
      feedbackList = (l1 ++ feedback :: l2)%list ->
      id feedback ∉ (id <$> l2) ->
      out.1 !! id feedback =
      Some (analyzeFeedback ai_run (content feedback)
              (batchLoop ai_run onProgress N 0 l1 ∅ w).2).1) /\
  exists new,
    trace out.2 = (trace w ++ new)%list /\
    List.length (modelCalls new) = N /\
    List.length (progressCalls new) = if onProgress then N else 0%nat.
Proof.
  intros N out.
  assert (Hkeys : forall k, is_Some (out.1 !! k) <-> k ∈ (id <$> feedbackList)).
  { intros k.
    destruct (batchLoop_lookup ai_run onProgress N feedbackList 0 ∅ w k) as (_ & Hk & _).
    change (batchLoop ai_run onProgress N 0 feedbackList ∅ w) with out in Hk.
    rewrite Hk, lookup_empty. split; [|tauto].
    intros [[x Hx] | H]; [discriminate | exact H]. }
  assert (Hdom : dom out.1 = (list_to_set (id <$> feedbackList) : gset Z)).
  { apply set_eq. intros k. rewrite elem_of_dom, elem_of_list_to_set. apply Hkeys. }
  assert (Hsize : size out.1 = size (list_to_set (id <$> feedbackList) : gset Z)).
  { rewrite <- Hdom. symmetry. apply size_dom. }
  destruct (size_list_to_set_le (id <$> feedbackList)) as [Hle Hlt].
  rewrite length_fmap in Hle, Hlt. fold N in Hle, Hlt.
  split; [exact Hkeys|]. split; [lia|]. split; [intros H; specialize (Hlt H); lia|].
  split.
  - intros l1 fb l2 Hl Hfresh. unfold out, batchAnalyzeFeedback. fold N.
    rewrite Hl, batchLoop_app. cbv zeta. rewrite batchLoop_cons. cbv zeta.
    set (w1 := (batchLoop ai_run onProgress N 0 l1 ∅ w).2).
    match goal with
    | |- (batchLoop _ _ _ ?i l2 ?res ?w2).1 !! _ = _ =>
        destruct (batchLoop_lookup ai_run onProgress N l2 i res w2 (id fb))
          as (Hkeep & _ & _)
    end.
    rewrite Hkeep by assumption. apply lookup_insert_eq.
  - destruct (batchLoop_trace ai_run onProgress N feedbackList 0 ∅ w)
      as (new & Hnew & Hmc & Hpc).
    exists new. split; [exact Hnew|]. split.
    + rewrite Hmc. apply length_fmap.
    + rewrite Hpc. destruct onProgress; [|reflexivity].
      now rewrite length_fmap, length_seq.
Qed.

Lemma batch_with_repeated_identifiers_witness :
  let items := [mkFeedback 4 "Dashboard is slow"; mkFeedback 4 "Great work team!"] in
  (size (batchAnalyzeFeedback (scriptedAi (AiRejects "quota exceeded"))
           items false emptyWorld).1 < 2)%nat.
Proof.
  intros items.
  apply (batch_with_repeated_identifiers unit
           (scriptedAi (AiRejects "quota exceeded")) items false emptyWorld).
  intros H. apply NoDup_cons in H as [H _]. apply H. cbn. apply list_elem_of_here.
Defined.

Lemma analyzeFeedback_frame {AiState : Type}
    (ai_run : string -> string -> Z -> AiState -> AiOutcome * AiState)
    (content : string) (w1 w2 : World AiState) :
  ai w1 = ai w2 ->
  (analyzeFeedback ai_run content w1).1 = (analyzeFeedback ai_run content w2).1 /\
  ai (analyzeFeedback ai_run content w1).2 = ai (analyzeFeedback ai_run content w2).2 /\
  exists new,
    trace (analyzeFeedback ai_run content w1).2 = (trace w1 ++ new)%list /\
    trace (analyzeFeedback ai_run content w2).2 = (trace w2 ++ new)%list /\
    withoutProgress new = new.
Proof.
  intros Hai. rewrite !analyzeFeedback_eq. cbv zeta. rewrite Hai.
  destruct (modelPath _) as [r | e]; cbn [fst snd ai trace].
  - repeat split. eexists. repeat split.
  - repeat split. eexists. rewrite <- !app_assoc. repeat split.
Qed.

Lemma withoutProgress_app (t1 t2 : list Event) :
  withoutProgress (t1 ++ t2) = (withoutProgress t1 ++ withoutProgress t2)%list.
Proof. apply List.filter_app. Qed.

Lemma batchLoop_callback {AiState : Type}
    (ai_run : string -> string -> Z -> AiState -> AiOutcome * AiState)
    (total : nat) (rest : list Feedback) :
  forall (i : nat) (results : gmap Z AnalysisResult) (wt wf : World AiState),
    ai wt = ai wf ->
    let outT := batchLoop ai_run true total i rest results wt in
    let outF := batchLoop ai_run false total i rest results wf in
    outT.1 = outF.1 /\ ai outT.2 = ai outF.2 /\
    exists new,
      trace outT.2 = (trace wt ++ new)%list /\
      trace outF.2 = (trace wf ++ withoutProgress new)%list.
Proof.
  induction rest as [|fb rest IH]; intros i results wt wf Hai.
  - cbn. repeat split; try assumption. exists []. now rewrite !app_nil_r.
  - cbv zeta. rewrite !batchLoop_cons. cbv zeta.
    destruct (analyzeFeedback_frame ai_run (content fb) wt wf Hai)
      as (Hres & Hai' & new1 & Ht & Hf & Hnp).
    rewrite Hres.
    match goal with
    | |- context [batchLoop _ true _ _ _ ?res ?w2t] =>
        match goal with
        | |- context [batchLoop _ false _ _ _ _ ?w2f] =>
            destruct (IH (S i) res w2t w2f Hai') as (H1 & H2 & new2 & Ht2 & Hf2)
        end
    end.
    split; [exact H1|]. split; [exact H2|].
    exists (new1 ++ EvProgress (i + 1) total :: new2)%list.
    rewrite Ht2, Hf2. cbn [trace]. rewrite Ht, Hf.
    rewrite withoutProgress_app, Hnp. rewrite <- !app_assoc. split; reflexivity.
Qed.

(** X8. The progress callback does not influence the batch: with and
    without it the result map and the final state of the model are the
    same, and the traces differ only by the progress reports. *)
Theorem batch_results_ignore_callback (AiState : Type)
    (ai_run : string -> string -> Z -> AiState -> AiOutcome * AiState)
    (feedbackList : list Feedback) (w : World AiState) :
  let withCallback := batchAnalyzeFeedback ai_run feedbackList true w in
  let without := batchAnalyzeFeedback ai_run feedbackList false w in
  withCallback.1 = without.1 /\
  ai withCallback.2 = ai without.2 /\
  exists new,
    trace withCallback.2 = (trace w ++ new)%list /\
    trace without.2 = (trace w ++ withoutProgress new)%list /\
    progressCalls (withoutProgress new) = [].
Proof.
  cbv zeta. unfold batchAnalyzeFeedback.
  destruct (batchLoop_callback ai_run (List.length feedbackList) feedbackList
              0 ∅ w w eq_refl) as (H1 & H2 & new & Ht & Hf).
  split; [exact H1|]. split; [exact H2|]. exists new.
  split; [exact Ht|]. split; [exact Hf|].
  clear. induction new as [|ev new IH]; [reflexivity|].
  destruct ev; cbn; assumption.
Qed.

(** X9. Every Judgment stored in the result map of a batch has one of the
    three sentiments, an integer urgency from 1 to 5, and a confidence
    that is neither zero nor [NaN]. *)
Theorem batch_judgments_are_well_formed (AiState : Type)
    (ai_run : string -> string -> Z -> AiState -> AiOutcome * AiState)
    (feedbackList : list Feedback) (onProgress : bool) (w : World AiState)
    (k : Z) (r : AnalysisResult) :
  (batchAnalyzeFeedback ai_run feedbackList onProgress w).1 !! k = Some r ->
  (sentiment r = "positive" \/ sentiment r = "negative" \/ sentiment r = "neutral")
  /\ (exists z, urgency r = Num.ofZ z /\ 1 <= z <= 5)
  /\ Num.truthy (confidence r) = true.
Proof.
  intros H.
  apply (batchLoop_Forall ai_run wellFormed onProgress
           (List.length feedbackList) feedbackList
           (analyzeFeedback_wellFormed ai_run) 0 ∅ w (map_Forall_empty _) k r H).
Qed.

Lemma batch_judgments_are_well_formed_witness :
  let r := fallbackAnalysis "Great work team!" in
  (sentiment r = "positive" \/ sentiment r = "negative" \/ sentiment r = "neutral")
  /\ (exists z, urgency r = Num.ofZ z /\ 1 <= z <= 5)
  /\ Num.truthy (confidence r) = true.
Proof.
  apply (batch_judgments_are_well_formed unit
           (scriptedAi (AiRejects "quota exceeded"))
           [mkFeedback 7 "Great work team!"] false emptyWorld 7).
  vm_compute. reflexivity.
Defined.

(** ** Kinds of failure on the model path *)

Lemma bind_Throw_inv {A B : Type} (x : Result A) (f : A -> Result B) (e : Exn) :
  x ≫= f = Throw e -> x = Throw e \/ exists a, x = Ok a /\ f a = Throw e.
Proof. destruct x as [a | e0]; cbn; [eauto | intros [= <-]; now left]. Qed.

Lemma JsValue_induction (P : JsValue -> Prop) :
  P JUndefined -> P JNull -> (forall b, P (JBool b)) -> (forall n, P (JNum n)) ->
  (forall s, P (JStr s)) ->
  (forall elems, Forall P elems -> P (JArr elems)) ->
  (forall props, P (JObj props)) ->
  forall v, P v.
Proof.
  intros Hu Hn Hb Hnum Hs Ha Ho. fix IH 1. intros [ | | b | n | s | elems | props].
  - exact Hu.
  - exact Hn.
  - apply Hb.
  - apply Hnum.
  - apply Hs.
  - apply Ha.
    exact ((fix go (l : list JsValue) : Forall P l :=
              match l with
              | [] => @List.Forall_nil _ P
              | x :: r => @List.Forall_cons _ P x r (IH x) (go r)
              end) elems).
  - apply Ho.
Qed.

Lemma toString_array_cons (x : JsValue) (rest : list JsValue) :
  Conv.toString (JArr (x :: rest)) =
  s ← match x with
      | JUndefined | JNull => Ok ""
      | _ => Conv.toString x
      end;
  match rest with
  | [] => Ok s
  | _ :: _ => r ← Conv.toString (JArr rest); Ok (s +:+ "," +:+ r)
  end.
Proof. reflexivity. Qed.

Lemma toString_throws :
  forall (v : JsValue) (e : Exn), Conv.toString v = Throw e -> e = TypeError.
Proof.
  induction v as [ | | b | n | s | elems IH | props] using JsValue_induction;
    intros e; try discriminate.
  - destruct b; discriminate.
  - revert e. induction IH as [|x rest Hx _ IHrest]; intros e; [discriminate|].
    rewrite toString_array_cons. intros H.
    apply bind_Throw_inv in H as [H | (s & _ & H)].
    + destruct x; try discriminate; exact (Hx _ H).
    + destruct rest as [|y rest']; [discriminate|].
      apply bind_Throw_inv in H as [H | (r & _ & H)]; [|discriminate].
      exact (IHrest _ H).
  - cbn [Conv.toString].
    destruct (Conv.getOwn props "toString"); [intros [= <-]; reflexivity | discriminate].
Qed.

Lemma getProp_throws (v : JsValue) (key : string) (e : Exn) :
  getProp v key = Throw e -> e = TypeError.
Proof. destruct v; cbn; intros H; try discriminate; now injection H as <-. Qed.

Lemma callStringMethod_throws (f : string -> string) (v : JsValue) (e : Exn) :
  callStringMethod f v = Throw e -> e = TypeError.
Proof. destruct v; cbn; intros H; try discriminate; now injection H as <-. Qed.

Lemma buildResult_throws (analysis : JsValue) (e : Exn) :
  buildResult analysis = Throw e -> e = TypeError.
Proof.
  unfold buildResult, normalizeSentiment, Parse.parseInt, Parse.parseFloat.
  intros H.
  repeat match goal with
         | H : _ ≫= _ = Throw _ |- _ =>
             apply bind_Throw_inv in H as [H | (? & ? & H)]
         | H : getProp _ _ = Throw _ |- _ => exact (getProp_throws _ _ _ H)
         | H : callStringMethod _ _ = Throw _ |- _ =>
             exact (callStringMethod_throws _ _ _ H)
         | H : Conv.toString _ = Throw _ |- _ => exact (toString_throws _ _ H)
         | H : Ok _ = Throw _ |- _ => discriminate H
         | H : (if ?c then _ else _) = Throw _ |- _ => destruct c
         end.
Qed.

Lemma parse_throws (text : string) (e : Exn) :
  Json.parse text = Throw e -> e = SyntaxError.
Proof.
  unfold Json.parse. destruct (Json.parseValue _ _) as [[v rest]|].
  - destruct (Json.skipWs rest); [discriminate | now intros [= <-]].
  - now intros [= <-].
Qed.

(** X10. The ways the model path of [analyzeFeedback] (the body of its
    [try] block) can fail: with the collaborator's error when the call
    rejects; with a TypeError when the resolved value has no string under
    [response]; with the error "No JSON found in response" when the
    cleaned text holds no brace pair; with a SyntaxError when the matched
    text is not JSON; and, once the text has parsed, with nothing but a
    TypeError. *)
Theorem modelPath_failure_kinds :
  (forall message, modelPath (AiRejects message) = Throw (AiError message)) /\
  (forall response,
      (forall text, getProp response "response" <> Ok (JStr text)) ->
      modelPath (AiResolves response) = Throw TypeError) /\
  (forall text,
      Regex.matchObject (Regex.stripFences (Str.trim text)) = None ->
      modelPath (respond text) = Throw NoJsonFound) /\
  (forall text m,
      Regex.matchObject (Regex.stripFences (Str.trim text)) = Some m ->
      (forall analysis, Json.parse m <> Ok analysis) ->
      modelPath (respond text) = Throw SyntaxError) /\
  (forall text m analysis e,
      Regex.matchObject (Regex.stripFences (Str.trim text)) = Some m ->
      Json.parse m = Ok analysis ->
      modelPath (respond text) = Throw e ->
      e = TypeError).
Proof.
  split; [reflexivity|]. split; [|split; [|split]].
  - intros response H. unfold modelPath. cbn [mbind Result_bind].
    destruct (getProp response "response") as [result | e] eqn:E.
    + cbn [mbind Result_bind]. destruct result; try reflexivity.
      now destruct (H s).
    + cbn [mbind Result_bind]. now rewrite (getProp_throws _ _ _ E).
  - intros text H. rewrite modelPath_respond. unfold extractJson.
    cbn [callStringMethod mbind Result_bind]. now rewrite H.
  - intros text m Hm Hp. rewrite modelPath_respond. unfold extractJson.
    cbn [callStringMethod mbind Result_bind]. rewrite Hm. cbn [mbind Result_bind].
    destruct (Json.parse m) as [a | e] eqn:E; [now destruct (Hp a)|].
    cbn [mbind Result_bind]. now rewrite (parse_throws _ _ E).
  - intros text m analysis e Hm Hp. rewrite modelPath_respond. unfold extractJson.
    cbn [callStringMethod mbind Result_bind]. rewrite Hm. cbn [mbind Result_bind].
    rewrite Hp. cbn [mbind Result_bind]. apply buildResult_throws.
Qed.

Lemma modelPath_failure_kinds_witness :
  modelPath (respond "I cannot classify this feedback.") = Throw NoJsonFound.
Proof.
  apply (proj1 (proj2 (proj2 modelPath_failure_kinds))). reflexivity.
Defined.

(** * Properties of the HTTP worker *)

Section WorkerFacts.

Context {AiState DbState : Type}.
Variable ai_run : string -> string -> Z -> AiState -> AiOutcome * AiState.
Variable db_all : string -> list JsValue -> DbState -> DbOutcome (list JsValue) * DbState.
Variable db_run : string -> list JsValue -> DbState -> DbOutcome JsValue * DbState.

#[local] Existing Instance Handler_ret.
#[local] Existing Instance Handler_bind.

#[local] Abbreviation Env := (Env AiState DbState).
#[local] Abbreviation Handler := (Handler AiState DbState).

Lemma outcome_ret {A : Type} (a : A) (e : Env) Q R :
  Q a e -> outcome (mret a : Handler A) e Q R.
Proof. intros H. exact H. Qed.

Lemma outcome_bind {A B : Type} (c : Handler A) (f : A -> Handler B) (e : Env) Q R :
  outcome c e (fun a e' => outcome (f a) e' Q R) R ->
  outcome (c ≫= f) e Q R.
Proof.
  unfold outcome, mbind, Handler_bind. destruct (c e) as [[a | x] e']; auto.
Qed.

Lemma outcome_js {A : Type} (r : Result A) (e : Env) Q R :
  match r with
  | Ok a => Q a e
  | Throw x => R (ThrownJs x) e
  end ->
  outcome (js r) e Q R.
Proof. destruct r; auto. Qed.

Lemma outcome_weaken {A : Type} (c : Handler A) (e : Env) (Q Q' : A -> Env -> Prop)
    (R R' : Thrown -> Env -> Prop) :
  outcome c e Q R ->
  (forall a e', Q a e' -> Q' a e') -> (forall x e', R x e' -> R' x e') ->
  outcome c e Q' R'.
Proof.
  unfold outcome. destruct (c e) as [[a | x] e']; auto.
Qed.

Lemma grows_refl (P : Effect -> Prop) (e : Env) : grows P e e.
Proof. exists []. split; [now rewrite app_nil_r | constructor]. Qed.

Lemma grows_app (P : Effect -> Prop) (e0 e e' : Env) (new : list Effect) :
  grows P e0 e -> effects e' = (effects e ++ new)%list -> Forall P new ->
  grows P e0 e'.
Proof.
  intros (old & Hold & Hp) He Hn. exists (old ++ new)%list. split.
  - now rewrite He, Hold, app_assoc.
  - now apply Forall_app.
Qed.

Lemma grows_trans (P : Effect -> Prop) (e0 e e' : Env) :
  grows P e0 e -> grows P e e' -> grows P e0 e'.
Proof. intros H (new & He & Hn). eapply grows_app; eassumption. Qed.

Lemma grows_weaken (P P' : Effect -> Prop) (e e' : Env) :
  (forall ef, P ef -> P' ef) -> grows P e e' -> grows P' e e'.
Proof.
  intros HP (new & He & Hn). exists new. split; [exact He|].
  eapply Forall_impl; eassumption.
Qed.

Lemma outcome_dbAll (P : Effect -> Prop) (e0 e : Env) (sql : string)
    (params : list JsValue) Q R :
  grows P e0 e -> P (DbStatement DbAll sql params) ->
  (forall rows e', grows P e0 e' -> Q rows e') ->
  (forall m e', grows P e0 e' -> R (ThrownDb m) e') ->
  outcome (dbAll db_all sql params) e Q R.
Proof.
  intros Hg Hp HQ HR. unfold outcome, dbAll.
  destruct (db_all sql params (env_db e)) as [[m | rows] db'].
  - apply HR. eapply grows_app; [exact Hg | reflexivity | now repeat constructor].
  - apply HQ. eapply grows_app; [exact Hg | reflexivity | now repeat constructor].
Qed.

Lemma outcome_dbRun (P : Effect -> Prop) (e0 e : Env) (sql : string)
    (params : list JsValue) Q R :
  grows P e0 e -> P (DbStatement DbRun sql params) ->
  (forall result e', grows P e0 e' -> Q result e') ->
  (forall m e', grows P e0 e' -> R (ThrownDb m) e') ->
  outcome (dbRun db_run sql params) e Q R.
Proof.
  intros Hg Hp HQ HR. unfold outcome, dbRun.
  destruct (db_run sql params (env_db e)) as [[m | result] db'].
  - apply HR. eapply grows_app; [exact Hg | reflexivity | now repeat constructor].
  - apply HQ. eapply grows_app; [exact Hg | reflexivity | now repeat constructor].
Qed.

Lemma outcome_classifier {A : Type} (P : Effect -> Prop) (e0 e : Env)
    (c : M AiState (Result A)) Q R :
  grows P e0 e -> (forall ev, P (ClassifierEvent ev)) ->
  (forall a e', grows P e0 e' -> (c (mkWorld (env_ai e) [])).1 = Ok a -> Q a e') ->
  (forall x e', grows P e0 e' -> (c (mkWorld (env_ai e) [])).1 = Throw x ->
                R (ThrownJs x) e') ->
  outcome (classifier c) e Q R.
Proof.
  intros Hg Hp HQ HR. unfold outcome, classifier.
  destruct (c (mkWorld (env_ai e) [])) as [[a | x] w]; cbn [fst] in *.
  - apply HQ; [|reflexivity].
    eapply grows_app; [exact Hg | reflexivity |].
    apply Forall_fmap, Forall_forall. intros ev _. apply Hp.
  - apply HR; [|reflexivity].
    eapply grows_app; [exact Hg | reflexivity |].
    apply Forall_fmap, Forall_forall. intros ev _. apply Hp.
Qed.


Lemma countChar_append (c : ascii) (a b : string) :
  countChar c (a +:+ b) = (countChar c a + countChar c b)%nat.
Proof.
  induction a as [|x a IH]; [reflexivity|].
  rewrite append_cons. cbn [countChar]. rewrite IH. lia.
Qed.

Lemma listQuery_balanced (u : URL) :
  countChar "?" (listQuery u).1 = List.length (listQuery u).2.
Proof.
  unfold listQuery.
  destruct (nonEmpty (searchGet u "source")), (nonEmpty (searchGet u "sentiment"));
    reflexivity.
Qed.

Ltac finish_response :=
  apply outcome_ret; split; [split; [reflexivity | auto] | assumption].

Lemma listFeedback_inv (u : URL) (e0 e : Env) :
  grows quiet e0 e ->
  outcome (listFeedback db_all u) e
    (fun r e' => handlerResponse r /\ grows quiet e0 e')
    (fun _ e' => grows quiet e0 e').
Proof.
  intros Hg. unfold listFeedback.
  pose proof (listQuery_balanced u) as Hb.
  destruct (listQuery u) as [query params]. cbn [fst snd] in Hb.
  apply outcome_bind. eapply outcome_dbAll; [exact Hg | | |].
  - split; [|exact I]. cbn [balanced]. now rewrite length_fmap.
  - intros rows e' Hg'. finish_response.
  - auto.
Qed.

Lemma addFeedback_inv (request : Request) (e0 e : Env) :
  grows quiet e0 e ->
  outcome (addFeedback db_run request) e
    (fun r e' => handlerResponse r /\ grows quiet e0 e')
    (fun _ e' => grows quiet e0 e').
Proof.
  intros Hg. unfold addFeedback, requestJson.
  apply outcome_bind, outcome_js.
  destruct (Json.parse _) as [feedback|]; [|exact Hg].
  apply outcome_bind, outcome_js.
  destruct (getProp feedback "source") as [source|]; [|exact Hg].
  apply outcome_bind.
  assert (Hc : outcome (if Js.truthy source then js (getProp feedback "content")
                        else mret JUndefined) e
                 (fun _ e' => e' = e) (fun _ e' => e' = e)).
  { destruct (Js.truthy source); [|reflexivity].
    apply outcome_js. now destruct (getProp feedback "content"). }
  eapply outcome_weaken; [exact Hc | | intros x e' ->; exact Hg].
  intros content e' ->.
  destruct (negb (Js.truthy source) || negb (Js.truthy content)).
  { finish_response. }
  repeat (apply outcome_bind, outcome_js;
          match goal with
          | |- match ?r with _ => _ end => destruct r; [|exact Hg]
          end).
  apply outcome_bind. eapply outcome_dbRun; [exact Hg | | |].
  - split; [reflexivity | exact I].
  - intros result e' Hg'.
    repeat (apply outcome_bind, outcome_js;
            match goal with
            | |- match ?r with _ => _ end => destruct r; [|exact Hg']
            end).
    finish_response.
  - auto.
Qed.

Lemma getStats_inv (e0 e : Env) :
  grows quiet e0 e ->
  outcome (getStats db_all) e
    (fun r e' => handlerResponse r /\ grows quiet e0 e')
    (fun _ e' => grows quiet e0 e').
Proof.
  intros Hg. unfold getStats.
  apply outcome_bind. eapply outcome_dbAll; [exact Hg | split; [reflexivity | exact I] | | auto].
  intros r1 e1 Hg1.
  apply outcome_bind. eapply outcome_dbAll; [exact Hg1 | split; [reflexivity | exact I] | | auto].
  intros r2 e2 Hg2.
  apply outcome_bind. eapply outcome_dbAll; [exact Hg2 | split; [reflexivity | exact I] | | auto].
  intros r3 e3 Hg3.
  apply outcome_bind. eapply outcome_dbAll; [exact Hg3 | split; [reflexivity | exact I] | | auto].
  intros r4 e4 Hg4.
  apply outcome_bind, outcome_js.
  destruct (Js.optProp _ _); [|exact Hg4].
  finish_response.
Qed.

Lemma seedLoop_inv (rows : list (string * string * string * string * Z)) :
  forall e0 e : Env,
    grows quiet e0 e ->
    outcome (seedLoop db_run rows) e
      (fun _ e' => grows quiet e0 e') (fun _ e' => grows quiet e0 e').
Proof.
  induction rows as [|[[[[source content] author] sentiment] urgency] rest IH];
    intros e0 e Hg.
  - exact Hg.
  - cbn [seedLoop]. apply outcome_bind.
    eapply outcome_dbRun; [exact Hg | split; [reflexivity | exact I] | | auto].
    intros ? e' Hg'. now apply IH.
Qed.

Lemma seedData_inv (e0 e : Env) :
  grows quiet e0 e ->
  outcome (seedData db_run) e
    (fun r e' => handlerResponse r /\ grows quiet e0 e')
    (fun _ e' => grows quiet e0 e').
Proof.
  intros Hg. unfold seedData. apply outcome_bind.
  eapply outcome_weaken; [apply (seedLoop_inv mockFeedback e0 e Hg) | | auto].
  intros ? e' Hg'. finish_response.
Qed.

Lemma updateAnalysis_inv (analysis : AnalysisResult) (id : JsValue) (e0 e : Env) Q R :
  grows balanced e0 e ->
  (forall result e', grows balanced e0 e' -> Q result e') ->
  (forall m e', grows balanced e0 e' -> R (ThrownDb m) e') ->
  outcome (updateAnalysis db_run analysis id) e Q R.
Proof.
  intros Hg HQ HR. unfold updateAnalysis.
  eapply outcome_dbRun; [exact Hg | reflexivity | exact HQ | exact HR].
Qed.

Lemma analyzeEndpoint_inv (request : Request) (e0 e : Env) :
  grows balanced e0 e ->
  outcome (analyzeEndpoint ai_run db_all db_run request) e
    (fun r e' => handlerResponse r /\ grows balanced e0 e')
    (fun _ e' => grows balanced e0 e').
Proof.
  intros Hg. unfold analyzeEndpoint, requestJson.
  apply outcome_bind, outcome_js.
  destruct (Json.parse _) as [body|]; [|exact Hg].
  apply outcome_bind, outcome_js.
  destruct (getProp body "content") as [content|]; [|exact Hg].
  apply outcome_bind, outcome_js.
  destruct (getProp body "id") as [id|]; [|exact Hg].
  destruct (negb (Js.truthy content) && negb (Js.truthy id)).
  { finish_response. }
  apply outcome_bind.
  eapply (outcome_weaken _ _ (fun _ e' => grows balanced e0 e')
            _ (fun _ e' => grows balanced e0 e')).
  { destruct (Js.truthy id && negb (Js.truthy content)).
    - apply outcome_bind.
      eapply outcome_dbAll; [exact Hg | reflexivity | | auto].
      intros rows e' Hg'. destruct rows as [|row rest]; [exact Hg'|].
      apply outcome_bind, outcome_js.
      destruct (getProp row "content"); exact Hg'.
    - exact Hg. }
  2: auto.
  intros fetched e1 Hg1. destruct fetched as [content'|]; [|finish_response].
  apply outcome_bind.
  eapply outcome_classifier; [exact Hg1 | intros; exact I | | auto].
  intros analysis e2 Hg2 _.
  apply outcome_bind.
  eapply (outcome_weaken _ _ (fun _ e' => grows balanced e0 e')
            _ (fun _ e' => grows balanced e0 e')).
  { destruct (Js.truthy id); [|exact Hg2].
    apply outcome_bind. eapply updateAnalysis_inv; [exact Hg2 | | auto].
    intros ? e3 Hg3. exact Hg3. }
  2: auto.
  intros ? e3 Hg3. finish_response.
Qed.

Lemma updateLoop_inv (entries : list (JsValue * AnalysisResult)) :
  forall e0 e : Env,
    grows balanced e0 e ->
    outcome (updateLoop db_run entries) e
      (fun _ e' => grows balanced e0 e') (fun _ e' => grows balanced e0 e').
Proof.
  induction entries as [|[id analysis] rest IH]; intros e0 e Hg.
  - exact Hg.
  - cbn [updateLoop]. apply outcome_bind.
    eapply updateAnalysis_inv; [exact Hg | | auto].
    intros ? e' Hg'. now apply IH.
Qed.

Lemma analyzeAllFeedback_inv (e0 e : Env) :
  grows balanced e0 e ->
  outcome (analyzeAllFeedback ai_run db_all db_run) e
    (fun r e' => handlerResponse r /\ grows balanced e0 e')
    (fun _ e' => grows balanced e0 e').
Proof.
  intros Hg. unfold analyzeAllFeedback.
  apply outcome_bind. eapply outcome_dbAll; [exact Hg | reflexivity | | auto].
  intros rows e1 Hg1. destruct rows as [|row rest]; [finish_response|].
  apply outcome_bind, outcome_js.
  destruct (rowsToFeedback _) as [feedbackList|]; [|exact Hg1].
  apply outcome_bind.
  eapply outcome_classifier; [exact Hg1 | intros; exact I | | auto].
  intros entries e2 Hg2 _.
  apply outcome_bind.
  eapply outcome_weaken; [apply (updateLoop_inv entries e0 e2 Hg2) | | auto].
  intros ? e3 Hg3. finish_response.
Qed.

Lemma quiet_balanced (ef : Effect) : quiet ef -> balanced ef.
Proof. now intros [H _]. Qed.

Lemma route_inv (request : Request) (e : Env) :
  outcome (route ai_run db_all db_run request) e
    (fun r e' => (r = notFound \/ handlerResponse r) /\ grows balanced e e')
    (fun _ e' => grows balanced e e').
Proof.
  pose proof (grows_refl quiet e) as Hq.
  pose proof (grows_refl balanced e) as Hb.
  assert (Hw : forall c : Handler Response,
             outcome c e (fun r e' => handlerResponse r /\ grows quiet e e')
               (fun _ e' => grows quiet e e') ->
             outcome c e
               (fun r e' => (r = notFound \/ handlerResponse r) /\ grows balanced e e')
               (fun _ e' => grows balanced e e')).
  { intros c Hc. eapply outcome_weaken; [exact Hc | |].
    - intros r e' [Hr Hg]. split; [now right|].
      eapply grows_weaken; [exact quiet_balanced | exact Hg].
    - intros ? e' Hg. eapply grows_weaken; [exact quiet_balanced | exact Hg]. }
  assert (Hw' : forall c : Handler Response,
             outcome c e (fun r e' => handlerResponse r /\ grows balanced e e')
               (fun _ e' => grows balanced e e') ->
             outcome c e
               (fun r e' => (r = notFound \/ handlerResponse r) /\ grows balanced e e')
               (fun _ e' => grows balanced e e')).
  { intros c Hc. eapply outcome_weaken; [exact Hc | | auto].
    intros r e' [Hr Hg]. split; [now right | exact Hg]. }
  unfold route.
  destruct (_ && _); [apply Hw, listFeedback_inv, Hq|].
  destruct (_ && _); [apply Hw, addFeedback_inv, Hq|].
  destruct (_ && _); [apply Hw, getStats_inv, Hq|].
  destruct (_ && _); [apply Hw, seedData_inv, Hq|].
  destruct (_ && _); [apply Hw', analyzeEndpoint_inv, Hb|].
  destruct (_ && _); [apply Hw', analyzeAllFeedback_inv, Hb|].
  destruct (String.eqb _ _).
  - apply outcome_ret. split; [right; split; [reflexivity | auto] | exact Hb].
  - apply outcome_ret. split; [now left | exact Hb].
Qed.

End WorkerFacts.

Section RouterFacts.

Context {AiState DbState : Type}.
Variable ai_run : string -> string -> Z -> AiState -> AiOutcome * AiState.
Variable db_all : string -> list JsValue -> DbState -> DbOutcome (list JsValue) * DbState.
Variable db_run : string -> list JsValue -> DbState -> DbOutcome JsValue * DbState.

#[local] Existing Instance Handler_ret.
#[local] Existing Instance Handler_bind.



Lemma route_quiet (request : Request) (e : Env AiState DbState) :
  pathname (url request) <> "/api/analyze" ->
  pathname (url request) <> "/api/analyze-all" ->
  outcome (route ai_run db_all db_run request) e
    (fun _ e' => grows quiet e e') (fun _ e' => grows quiet e e').
Proof.
  intros H1 H2.
  pose proof (grows_refl quiet e) as Hq.
  assert (Hw : forall c : Handler AiState DbState Response,
             outcome c e (fun r e' => handlerResponse r /\ grows quiet e e')
               (fun _ e' => grows quiet e e') ->
             outcome c e (fun _ e' => grows quiet e e') (fun _ e' => grows quiet e e')).
  { intros c Hc. eapply outcome_weaken; [exact Hc | | auto]. now intros r e' [_ Hg]. }
  unfold route.
  destruct (_ && _); [apply Hw, listFeedback_inv, Hq|].
  destruct (_ && _); [apply Hw, addFeedback_inv, Hq|].
  destruct (_ && _); [apply Hw, getStats_inv, Hq|].
  destruct (_ && _); [apply Hw, seedData_inv, Hq|].
  destruct (String.eqb_spec (pathname (url request)) "/api/analyze"); [contradiction|].
  cbn [andb].
  destruct (String.eqb_spec (pathname (url request)) "/api/analyze-all"); [contradiction|].
  cbn [andb].
  destruct (String.eqb _ _); exact Hq.
Qed.

End RouterFacts.



(** X12. Every response of [fetch] other than the router's own 404
    carries the three CORS headers; its status is 200, 400, 404 or 500;
    and the status is 500 exactly when the request was routed and the
    handler raised, the body then reporting that exception. *)
Theorem fetch_responses (AiState DbState : Type)
    (ai_run : string -> string -> Z -> AiState -> AiOutcome * AiState)
    (db_all : string -> list JsValue -> DbState -> DbOutcome (list JsValue) * DbState)
    (db_run : string -> list JsValue -> DbState -> DbOutcome JsValue * DbState)
    (request : Request) (e : Env AiState DbState) :
  let r := (fetch ai_run db_all db_run request e).1 in
  (r = notFound \/ forall h, h ∈ corsHeaders -> h ∈ headers r) /\
  (status r = 200 \/ status r = 400 \/ status r = 404 \/ status r = 500) /\
  (status r = 500 <->
   method request <> "OPTIONS" /\
   exists x, (route ai_run db_all db_run request e).1 = Raised x /\
             body r = BodyError x).
Proof.
  cbv zeta. unfold fetch.
  destruct (String.eqb_spec (method request) "OPTIONS") as [Hm | Hm].
  - cbn [fst]. split; [right; auto|]. split; [auto|].
    split; [discriminate | intros [H _]; contradiction].
  - pose proof (route_inv ai_run db_all db_run request e) as Hr.
    unfold outcome in Hr.
    destruct (route ai_run db_all db_run request e) as [[r | x] e']; cbn [fst].
    + destruct Hr as [[-> | [Hh Hs]] _].
      * split; [now left|]. split; [auto|].
        split; [discriminate | intros [_ (x & Hx & _)]; discriminate].
      * split.
        { right. intros h Hin. rewrite Hh. unfold jsonHeaders.
          apply elem_of_app. now left. }
        split; [tauto|].
        split; [intros H5; rewrite H5 in Hs; destruct Hs as [? | [? | ?]]; discriminate
               | intros [_ (x & Hx & _)]; discriminate].
    + split.
      { right. intros h Hin. cbn [headers]. unfold jsonHeaders.
        apply elem_of_app. now left. }
      split; [auto|]. split; [|reflexivity].
      intros _. split; [exact Hm | eauto].
Qed.

(** X13. Whatever the request and whatever the collaborators answer,
    every statement the worker sends to the database binds exactly as
    many parameters as its text has [?] placeholders. *)
Theorem statements_bind_every_placeholder (AiState DbState : Type)
    (ai_run : string -> string -> Z -> AiState -> AiOutcome * AiState)
    (db_all : string -> list JsValue -> DbState -> DbOutcome (list JsValue) * DbState)
    (db_run : string -> list JsValue -> DbState -> DbOutcome JsValue * DbState)
    (request : Request) (e : Env AiState DbState) :
  exists new,
    effects (fetch ai_run db_all db_run request e).2 = (effects e ++ new)%list /\
    forall m sql params,
      DbStatement m sql params ∈ new ->
      countChar "?" sql = List.length params.
Proof.
  assert (Hg : grows balanced e (fetch ai_run db_all db_run request e).2).
  { unfold fetch. destruct (String.eqb _ "OPTIONS"); [apply grows_refl|].
    pose proof (route_inv ai_run db_all db_run request e) as Hr.
    unfold outcome in Hr.
    destruct (route ai_run db_all db_run request e) as [[r | x] e']; cbn [snd];
      [exact (proj2 Hr) | exact Hr]. }
  destruct Hg as (new & He & Hb). exists new. split; [exact He|].
  intros m sql params Hin. rewrite Forall_forall in Hb. exact (Hb _ Hin).
Qed.

(** X21. Only the two analyze routes reach the model: a request for any
    other path leaves no model call and no classifier log among the
    effects. *)
Theorem model_is_called_by_the_analyze_routes_only (AiState DbState : Type)
    (ai_run : string -> string -> Z -> AiState -> AiOutcome * AiState)
    (db_all : string -> list JsValue -> DbState -> DbOutcome (list JsValue) * DbState)
    (db_run : string -> list JsValue -> DbState -> DbOutcome JsValue * DbState)
    (request : Request) (e : Env AiState DbState) :
  pathname (url request) <> "/api/analyze" ->
  pathname (url request) <> "/api/analyze-all" ->
  exists new,
    effects (fetch ai_run db_all db_run request e).2 = (effects e ++ new)%list /\
    forall ev, ClassifierEvent ev ∉ new.
Proof.
  intros H1 H2.
  assert (Hg : grows quiet e (fetch ai_run db_all db_run request e).2).
  { unfold fetch. destruct (String.eqb _ "OPTIONS"); [apply grows_refl|].
    pose proof (route_quiet ai_run db_all db_run request e H1 H2) as Hr.
    unfold outcome in Hr.
    destruct (route ai_run db_all db_run request e) as [[r | x] e']; exact Hr. }
  destruct Hg as (new & He & Hq). exists new. split; [exact He|].
  intros ev Hin. rewrite Forall_forall in Hq. destruct (Hq _ Hin) as [_ []].
Qed.

Lemma model_is_called_by_the_analyze_routes_only_witness :
  exists new,
    effects (fetch (scriptedAi (AiRejects "unused"))
               (fun _ _ st => (DbResolves [], st))
               (fun _ _ st => (DbResolves JNull, st))
               (mkRequest "GET" (mkURL "/api/stats" []) "") (mkEnv tt tt [])).2
    = ([] ++ new)%list /\
    forall ev, ClassifierEvent ev ∉ new.
Proof.
  apply (model_is_called_by_the_analyze_routes_only unit unit); discriminate.
Defined.

Section HandlerFacts.

Context {AiState DbState : Type}.
Variable ai_run : string -> string -> Z -> AiState -> AiOutcome * AiState.
Variable db_all : string -> list JsValue -> DbState -> DbOutcome (list JsValue) * DbState.
Variable db_run : string -> list JsValue -> DbState -> DbOutcome JsValue * DbState.

#[local] Existing Instance Handler_ret.
#[local] Existing Instance Handler_bind.

(** X14. The statement of [listFeedback]: an empty [source] or
    [sentiment] parameter is treated as absent; a present one adds its
    condition and its value, [source] before [sentiment]; the limit is
    bound last, as text, "50" when the parameter is absent or empty and
    "NaN" when [parseInt] finds no number in it.  One statement is sent,
    and when it resolves the rows come back with their count. *)
Theorem listFeedback_query (u : URL) (e : Env AiState DbState) :
  let source := nonEmpty (searchGet u "source") in
  let sentiment := nonEmpty (searchGet u "sentiment") in
  let limit := nonEmpty (searchGet u "limit") in
  let query := (listQuery u).1 in
  let params := (listQuery u).2 in
  query = "SELECT * FROM feedback WHERE 1=1"
          +:+ (match source with Some _ => " AND source = ?" | None => "" end)
          +:+ (match sentiment with Some _ => " AND sentiment = ?" | None => "" end)
          +:+ " ORDER BY created_at DESC LIMIT ?" /\
  params = (option_list source ++ option_list sentiment
            ++ [Conv.numberToString (Parse.parseIntString (default "50" limit))])%list /\
  (limit = None -> last params = Some "50") /\
  (forall t, limit = Some t -> Parse.parseIntString t = NaN ->
             last params = Some "NaN") /\
  exists e',
    (listFeedback db_all u e).2 = e' /\
    effects e' = (effects e ++ [DbStatement DbAll query (JStr <$> params)])%list /\
    forall rows,
      (db_all query (JStr <$> params) (env_db e)).1 = DbResolves rows ->
      (listFeedback db_all u e).1 =
      Done (jsonResponse 200
              (JObj [("feedback", JArr rows);
                     ("count", Js.ofNat (List.length rows))])).
Proof.
  cbv zeta.
  assert (Hq : (listQuery u).1 =
               "SELECT * FROM feedback WHERE 1=1"
               +:+ (match nonEmpty (searchGet u "source") with Some _ => " AND source = ?" | None => "" end)
               +:+ (match nonEmpty (searchGet u "sentiment") with Some _ => " AND sentiment = ?" | None => "" end)
               +:+ " ORDER BY created_at DESC LIMIT ?").
  { unfold listQuery.
    destruct (nonEmpty (searchGet u "source")), (nonEmpty (searchGet u "sentiment"));
      reflexivity. }
  assert (Hp : (listQuery u).2 =
               (option_list (nonEmpty (searchGet u "source"))
                ++ option_list (nonEmpty (searchGet u "sentiment"))
                ++ [Conv.numberToString
                      (Parse.parseIntString
                         (default "50" (nonEmpty (searchGet u "limit"))))])%list).
  { unfold listQuery.
    destruct (nonEmpty (searchGet u "source")), (nonEmpty (searchGet u "sentiment"));
      reflexivity. }
  split; [exact Hq|]. split; [exact Hp|].
  split; [|split].
  - intros Hl. rewrite Hp, Hl, !app_assoc, last_snoc. reflexivity.
  - intros t Hl Ht. rewrite Hp, Hl, !app_assoc, last_snoc. simpl.
    now rewrite Ht.
  - eexists. split; [reflexivity|].
    unfold listFeedback. destruct (listQuery u) as [query params]. cbn [fst snd].
    unfold mbind, Handler_bind, dbAll.
    destruct (db_all query (JStr <$> params) (env_db e)) as [[m | rows] db'];
      cbn [fst snd effects]; (split; [reflexivity|]); intros rows' H;
      [discriminate | now injection H as ->].
Qed.

End HandlerFacts.

Lemma listFeedback_query_witness :
  last (listQuery (mkURL "/api/feedback" [("source", "github"); ("limit", "ten")])).2
  = Some "NaN".
Proof.
  apply (proj1 (proj2 (proj2 (proj2
           (listFeedback_query (fun _ _ st => (DbRejects "unused", st))
              (mkURL "/api/feedback" [("source", "github"); ("limit", "ten")])
              (mkEnv tt tt []))))) "ten"); reflexivity.
Defined.

Section AddFeedbackFacts.

Context {AiState DbState : Type}.
Variable db_run : string -> list JsValue -> DbState -> DbOutcome JsValue * DbState.

#[local] Existing Instance Handler_ret.
#[local] Existing Instance Handler_bind.

(** X15. [addFeedback] on a body that parses to an object: without a
    truthy [source] and [content] it answers 400 and sends nothing to the
    database; otherwise it sends one INSERT whose absent or falsy
    [author], [sentiment] and [themes] are bound as [null] and whose
    absent or falsy [urgency] (0 included) is bound as 3, so the bound
    urgency is always truthy; a rejected INSERT is raised, a resolved one
    is answered with its [last_row_id]. *)
Theorem addFeedback_validation_and_defaults (request : Request)
    (e : Env AiState DbState) (props : list (string * JsValue)) :
  let field key := default JUndefined (Conv.getOwn props key) in
  let params :=
    [field "source"; field "content"; Js.or (field "author") JNull;
     Js.or (field "sentiment") JNull; Js.or (field "urgency") (JNum (Num.ofZ 3));
     Js.or (field "themes") JNull] in
  let out := addFeedback db_run request e in
  Json.parse (requestBody request) = Ok (JObj props) ->
  (Js.truthy (field "source") && Js.truthy (field "content") = false ->
   out = (Done (jsonResponse 400
                  (JObj [("error", JStr "source and content are required")])), e)) /\
  (Js.truthy (field "source") && Js.truthy (field "content") = true ->
   effects out.2 = (effects e ++ [DbStatement DbRun insertFeedbackSql params])%list /\
   Js.truthy (Js.or (field "urgency") (JNum (Num.ofZ 3))) = true /\
   (forall message,
       (db_run insertFeedbackSql params (env_db e)).1 = DbRejects message ->
       out.1 = Raised (ThrownDb message)) /\
   (forall result meta id,
       (db_run insertFeedbackSql params (env_db e)).1 = DbResolves result ->
       getProp result "meta" = Ok meta ->
       getProp meta "last_row_id" = Ok id ->
       out.1 = Done (jsonResponse 200 (JObj [("success", JBool true); ("id", id)])))).
Proof.
  intros field params out Hparse.
  assert (Hf : forall key, getProp (JObj props) key = Ok (field key)) by reflexivity.
  subst out. unfold addFeedback, requestJson. rewrite Hparse.
  unfold mbind, Handler_bind, js, mret, Handler_ret, raise. rewrite !Hf.
  split.
  - intros Hfalse. apply andb_false_iff in Hfalse as [Hs | Hc].
    + rewrite Hs. reflexivity.
    + destruct (Js.truthy (field "source")); [|reflexivity].
      rewrite Hc. reflexivity.
  - intros Htrue. apply andb_true_iff in Htrue as [Hs Hc].
    rewrite Hs, Hc. cbn [negb orb]. fold params. unfold dbRun.
    destruct (db_run insertFeedbackSql params (env_db e)) as [[m | result] db'];
      cbn [fst snd effects].
    + split; [reflexivity|]. split.
      { unfold Js.or. now destruct (Js.truthy (field "urgency")) eqn:E. }
      split; [now intros message [= <-] | discriminate].
    + split.
      { destruct (getProp result "meta") as [meta|]; [|reflexivity].
        destruct (getProp meta "last_row_id"); reflexivity. }
      split.
      { unfold Js.or. now destruct (Js.truthy (field "urgency")) eqn:E. }
      split; [discriminate|].
      intros result' meta id [= <-] Hm Hi. now rewrite Hm, Hi.
Qed.

(** The body is not a JSON text: the handler raises before any statement. *)
Lemma addFeedback_bad_body (request : Request) (e : Env AiState DbState) (x : Exn) :
  Json.parse (requestBody request) = Throw x ->
  addFeedback db_run request e = (Raised (ThrownJs x), e).
Proof. intros H. unfold addFeedback, requestJson. now rewrite H. Qed.

End AddFeedbackFacts.

Lemma addFeedback_validation_and_defaults_witness :
  let request :=
    mkRequest "POST" (mkURL "/api/feedback" [])
      (Str.q "{'source':'github','content':'Worker crashes','urgency':0}") in
  effects (addFeedback (fun _ _ st => (DbRejects "locked", st)) request
             (mkEnv tt tt [])).2
  = [DbStatement DbRun insertFeedbackSql
       [JStr "github"; JStr "Worker crashes"; JNull; JNull; JNum (Num.ofZ 3); JNull]].
Proof.
  intros request.
  apply (proj2 (addFeedback_validation_and_defaults
                  (fun _ _ st => (DbRejects "locked", st)) request (mkEnv tt tt [])
                  [("source", JStr "github"); ("content", JStr "Worker crashes");
                   ("urgency", JNum (Fin 0 0))]
                  ltac:(vm_compute; reflexivity))).
  reflexivity.
Defined.

Section AnalyzeEndpointFacts.

Context {AiState DbState : Type}.
Variable ai_run : string -> string -> Z -> AiState -> AiOutcome * AiState.
Variable db_all : string -> list JsValue -> DbState -> DbOutcome (list JsValue) * DbState.
Variable db_run : string -> list JsValue -> DbState -> DbOutcome JsValue * DbState.

#[local] Existing Instance Handler_ret.
#[local] Existing Instance Handler_bind.
#[local] Existing Instance M_ret.
#[local] Existing Instance M_bind.

Lemma classifier_string (s : string) (e : Env AiState DbState) :
  classifier (analyzeFeedbackDyn ai_run (JStr s)) e =
  let run := analyzeFeedback ai_run s (mkWorld (env_ai e) []) in
  (Done run.1,
   mkEnv (ai run.2) (env_db e)
     (effects e ++ (ClassifierEvent <$> trace run.2))%list).
Proof.
  unfold classifier, analyzeFeedbackDyn, mbind, M_bind, mret, M_ret.
  destruct (analyzeFeedback ai_run s _) as [a w]. reflexivity.
Qed.

Lemma analyzeFeedback_single_call (s : string) (w : World AiState) :
  trace w = [] ->
  modelCalls (trace (analyzeFeedback ai_run s w).2) = [prompt s].
Proof.
  intros Hw. destruct (analyzeFeedback_trace ai_run s w) as (logs & Ht & _ & Hc & _).
  rewrite Ht, Hw. cbn [app modelCalls]. now rewrite Hc.
Qed.

Lemma analyzeFeedbackDyn_non_text (content : JsValue) (text : string)
    (w : World AiState) :
  (forall s, content <> JStr s) ->
  Conv.toString content = Ok text ->
  analyzeFeedbackDyn ai_run content w =
  let o := ai_run modelName (prompt text) 150 (ai w) in
  let t := (trace w ++ [EvAiRun modelName (prompt text) 150])%list in
  match modelPath o.1 with
  | Ok analysis => (Ok analysis, mkWorld o.2 t)
  | Throw error =>
      (Throw TypeError,
       mkWorld o.2 (t ++ [EvConsoleError "AI analysis error:" error])%list)
  end.
Proof.
  intros Hns Hts. unfold analyzeFeedbackDyn.
  destruct content; try (now destruct (Hns s)); rewrite Hts;
    unfold mbind, M_bind, aiRun, emit, mret, M_ret;
    destruct (ai_run modelName (prompt text) 150 (ai w)) as [o ai'];
    cbn [fst snd]; destruct (modelPath o); reflexivity.
Qed.

(** X16. [analyzeEndpoint] on a body without truthy [content]: without a
    truthy [id] either it answers 400 and touches nothing; with a truthy
    [id] whose row is not found it answers 404 after the one SELECT,
    without calling the model. *)
Theorem analyzeEndpoint_rejections (request : Request) (e : Env AiState DbState)
    (props : list (string * JsValue)) :
  let content := default JUndefined (Conv.getOwn props "content") in
  let id := default JUndefined (Conv.getOwn props "id") in
  let out := analyzeEndpoint ai_run db_all db_run request e in
  Json.parse (requestBody request) = Ok (JObj props) ->
  Js.truthy content = false ->
  (Js.truthy id = false ->
   out = (Done (jsonResponse 400
                  (JObj [("error", JStr "content or id is required")])), e)) /\
  (Js.truthy id = true ->
   (db_all selectContentSql [id] (env_db e)).1 = DbResolves [] ->
   out.1 = Done (jsonResponse 404 (JObj [("error", JStr "Feedback not found")])) /\
   effects out.2 = (effects e ++ [DbStatement DbAll selectContentSql [id]])%list).
Proof.
  intros content id out Hparse Hc.
  assert (Hf : forall key, getProp (JObj props) key
                           = Ok (default JUndefined (Conv.getOwn props key)))
    by reflexivity.
  subst out. unfold analyzeEndpoint, requestJson. rewrite Hparse.
  unfold mbind, Handler_bind, js, mret, Handler_ret, raise. rewrite !Hf.
  fold content id. rewrite Hc. cbn [negb andb]. split.
  - intros Hi. rewrite Hi. reflexivity.
  - intros Hi Hdb. rewrite Hi. cbn [negb andb]. unfold dbAll.
    destruct (db_all selectContentSql [id] (env_db e)) as [o db']. cbn [fst] in Hdb.
    subst o. cbn. split; reflexivity.
Qed.

(** X17. [analyzeEndpoint] on a body with a non-empty text [content]:
    the model is called exactly once, on the prompt of that text; the
    Judgment is well formed; the UPDATE is sent exactly when [id] is
    truthy, after the model call, with the Judgment's sentiment and
    urgency; and the answer is the Judgment unless that UPDATE is
    rejected. *)
Theorem analyzeEndpoint_on_text (request : Request) (e : Env AiState DbState)
    (props : list (string * JsValue)) (text : string) :
  let id := default JUndefined (Conv.getOwn props "id") in
  let run := analyzeFeedback ai_run text (mkWorld (env_ai e) []) in
  let update :=
    DbStatement DbRun updateAnalysisSql
      [JStr (sentiment run.1); JNum (urgency run.1); id] in
  let out := analyzeEndpoint ai_run db_all db_run request e in
  Json.parse (requestBody request) = Ok (JObj props) ->
  Conv.getOwn props "content" = Some (JStr text) ->
  text <> "" ->
  effects out.2 =
    (effects e ++ (ClassifierEvent <$> trace run.2)
     ++ (if Js.truthy id then [update] else []))%list /\
  modelCalls (trace run.2) = [prompt text] /\
  wellFormed run.1 /\
  (out.1 = Done (jsonResponse 200
                   (JObj [("success", JBool true);
                          ("analysis", analysisValue run.1)]))
   \/ (Js.truthy id = true /\ exists message, out.1 = Raised (ThrownDb message))).
Proof.
  intros id run update out Hparse Hcontent Htext.
  assert (Hf : forall key, getProp (JObj props) key
                           = Ok (default JUndefined (Conv.getOwn props key)))
    by reflexivity.
  assert (Htruthy : Js.truthy (JStr text) = true).
  { cbn. destruct (String.eqb_spec text ""); [contradiction | reflexivity]. }
  split; [|split; [|split]].
  2: { apply analyzeFeedback_single_call. reflexivity. }
  2: { apply analyzeFeedback_wellFormed. }
  all: subst out; unfold analyzeEndpoint, requestJson; rewrite Hparse;
    unfold mbind, Handler_bind, js, mret, Handler_ret, raise; rewrite !Hf;
    rewrite Hcontent;
    change (default JUndefined (Some (JStr text))) with (JStr text);
    fold id; rewrite Htruthy;
    cbn [negb andb]; rewrite andb_false_r;
    rewrite classifier_string; cbv zeta;
    fold run; unfold updateAnalysis, dbRun;
    destruct (Js.truthy id); cbn [env_db env_ai effects fst snd].
  - destruct (db_run _ _ _) as [[m | result] db']; cbn [snd effects];
      now rewrite <- app_assoc.
  - now rewrite app_nil_r.
  - destruct (db_run _ _ _) as [[m | result] db']; cbn [fst]; eauto.
  - now left.
Qed.

(** X18. [analyzeEndpoint] on a truthy [content] that is not text (a
    number, [true], an array, an object): when the model path fails there
    is no fallback Judgment, since the fallback heuristic itself raises a
    TypeError; the failure is logged, nothing is written to the database
    and [fetch] answers 500. *)
Theorem analyzeEndpoint_cannot_fall_back_on_non_text (request : Request)
    (e : Env AiState DbState) (props : list (string * JsValue))
    (content : JsValue) (text : string) (error : Exn) :
  let out := analyzeEndpoint ai_run db_all db_run request e in
  Json.parse (requestBody request) = Ok (JObj props) ->
  Conv.getOwn props "content" = Some content ->
  Js.truthy content = true ->
  (forall s, content <> JStr s) ->
  Conv.toString content = Ok text ->
  modelPath (ai_run modelName (prompt text) 150 (env_ai e)).1 = Throw error ->
  out.1 = Raised (ThrownJs TypeError) /\
  effects out.2 =
    (effects e ++ [ClassifierEvent (EvAiRun modelName (prompt text) 150);
                   ClassifierEvent (EvConsoleError "AI analysis error:" error)])%list /\
  (method request = "POST" -> pathname (url request) = "/api/analyze" ->
   (fetch ai_run db_all db_run request e).1 =
   {| status := 500; headers := jsonHeaders;
      body := BodyError (ThrownJs TypeError) |}).
Proof.
  intros out Hparse Hcontent Htruthy Hns Hts Hmp.
  assert (Hf : forall key, getProp (JObj props) key
                           = Ok (default JUndefined (Conv.getOwn props key)))
    by reflexivity.
  assert (Hout : analyzeEndpoint ai_run db_all db_run request e =
                 (Raised (ThrownJs TypeError),
                  mkEnv (ai_run modelName (prompt text) 150 (env_ai e)).2
                    (env_db e)
                    (effects e ++
                       [ClassifierEvent (EvAiRun modelName (prompt text) 150);
                        ClassifierEvent
                          (EvConsoleError "AI analysis error:" error)])%list)).
  { unfold analyzeEndpoint, requestJson. rewrite Hparse.
    unfold mbind, Handler_bind, js, mret, Handler_ret, raise. rewrite !Hf.
    rewrite Hcontent.
    change (default JUndefined (Some content)) with content.
    rewrite Htruthy. cbn [negb andb].
    rewrite andb_false_r.
    unfold classifier.
    rewrite (analyzeFeedbackDyn_non_text content text _ Hns Hts). cbv zeta.
    cbn [ai trace]. rewrite Hmp. reflexivity. }
  subst out. rewrite Hout. cbn [fst snd effects].
  split; [reflexivity|]. split; [reflexivity|].
  intros Hm Hp. unfold fetch, route. rewrite Hm, Hp.
  repeat match goal with
         | |- context [String.eqb ?a ?b] =>
             let v := eval vm_compute in (String.eqb a b) in
             change (String.eqb a b) with v
         end.
  cbn [andb]. rewrite Hout. reflexivity.
Qed.

End AnalyzeEndpointFacts.

Section AnalyzeAllFacts.

Context {AiState DbState : Type}.
Variable ai_run : string -> string -> Z -> AiState -> AiOutcome * AiState.
Variable db_all : string -> list JsValue -> DbState -> DbOutcome (list JsValue) * DbState.
Variable db_run : string -> list JsValue -> DbState -> DbOutcome JsValue * DbState.

#[local] Existing Instance Handler_ret.
#[local] Existing Instance Handler_bind.
#[local] Existing Instance M_ret.
#[local] Existing Instance M_bind.

Lemma bind_Done {A B : Type} (c : Handler AiState DbState A)
    (f : A -> Handler AiState DbState B) (e e' : Env AiState DbState) (a : A) :
  c e = (Done a, e') -> (c ≫= f) e = f a e'.
Proof. intros H. unfold mbind, Handler_bind. now rewrite H. Qed.

Lemma bind_Raised {A B : Type} (c : Handler AiState DbState A)
    (f : A -> Handler AiState DbState B) (e e' : Env AiState DbState) (x : Thrown) :
  c e = (Raised x, e') -> (c ≫= f) e = (Raised x, e').
Proof. intros H. unfold mbind, Handler_bind. now rewrite H. Qed.

Lemma dbAll_resolves (sql : string) (params : list JsValue)
    (e : Env AiState DbState) (rows : list JsValue) :
  (db_all sql params (env_db e)).1 = DbResolves rows ->
  dbAll db_all sql params e =
  (Done rows,
   mkEnv (env_ai e) (db_all sql params (env_db e)).2
     (effects e ++ [DbStatement DbAll sql params])%list).
Proof.
  intros H. unfold dbAll. destruct (db_all sql params (env_db e)) as [o db'].
  cbn [fst snd] in *. now subst o.
Qed.

Lemma classifier_Ok {A : Type} (c : M AiState (Result A)) (e : Env AiState DbState)
    (a : A) (w : World AiState) :
  c (mkWorld (env_ai e) []) = (Ok a, w) ->
  classifier c e =
  (Done a, mkEnv (ai w) (env_db e) (effects e ++ (ClassifierEvent <$> trace w))%list).
Proof. intros H. unfold classifier. now rewrite H. Qed.

Lemma mapSet_length {A : Type} (key : JsValue) (a : A) (m : list (JsValue * A)) :
  (List.length (Js.mapSet key a m) <= S (List.length m))%nat.
Proof.
  induction m as [|[k x] m IH]; cbn [Js.mapSet List.length]; [lia|].
  destruct (Js.sameValueZero k key); cbn [List.length]; lia.
Qed.

Lemma mapSet_Forall {A : Type} (P : JsValue * A -> Prop) (key : JsValue) (a : A)
    (m : list (JsValue * A)) :
  (forall k, P (k, a)) -> Forall P m -> Forall P (Js.mapSet key a m).
Proof.
  intros Ha. induction 1 as [|[k x] m Hx Hm IH]; cbn [Js.mapSet].
  - repeat constructor. apply Ha.
  - destruct (Js.sameValueZero k key); constructor; auto.
Qed.

Lemma batchLoopDyn_text (texts : list (JsValue * string)) :
  forall (results : list (JsValue * AnalysisResult)) (w : World AiState),
    Forall (fun en => wellFormed en.2) results ->
    exists entries w' new,
      batchLoopDyn ai_run ((fun p => (p.1, JStr p.2)) <$> texts) results w
      = (Ok entries, w') /\
      Forall (fun en => wellFormed en.2) entries /\
      (List.length entries <= List.length results + List.length texts)%nat /\
      trace w' = (trace w ++ new)%list /\
      modelCalls new = (fun p => prompt p.2) <$> texts.
Proof.
  induction texts as [|[id text] texts IH]; intros results w Hres.
  - exists results, w, []. cbn. rewrite app_nil_r. repeat split; [assumption | lia].
  - cbn [fmap list_fmap batchLoopDyn fst snd].
    unfold mbind at 1, M_bind at 1. unfold analyzeFeedbackDyn.
    unfold mbind at 1, M_bind at 1.
    destruct (analyzeFeedback_trace ai_run text w) as (logs & Ht & _ & Hc & _).
    pose proof (analyzeFeedback_wellFormed ai_run text w) as Hwf.
    destruct (analyzeFeedback ai_run text w) as [a w1]. cbn [fst snd] in *.
    unfold mret at 1, M_ret at 1.
    destruct (IH (Js.mapSet id a results) w1) as (entries & w' & new & Hrun & Hf & Hl & Htr & Hmc).
    { apply mapSet_Forall; [intros k; exact Hwf | exact Hres]. }
    exists entries, w', (EvAiRun modelName (prompt text) 150 :: logs ++ new)%list.
    split; [exact Hrun|]. split; [exact Hf|]. split.
    { pose proof (mapSet_length id a results). cbn [List.length]. lia. }
    split.
    { rewrite Htr, Ht. now rewrite <- app_assoc. }
    cbn [modelCalls]. now rewrite modelCalls_app, Hc, Hmc.
Qed.

Lemma updateLoop_effects (entries : list (JsValue * AnalysisResult)) :
  forall e : Env AiState DbState,
    exists k,
      (k <= List.length entries)%nat /\
      effects (updateLoop db_run entries e).2
      = (effects e ++ (updateStatement <$> take k entries))%list /\
      ((updateLoop db_run entries e).1 = Done tt -> k = List.length entries) /\
      (forall x, (updateLoop db_run entries e).1 = Raised x ->
                 exists message, x = ThrownDb message).
Proof.
  induction entries as [|[id a] rest IH]; intros e.
  - exists 0%nat. cbn. rewrite app_nil_r. repeat split; try discriminate. lia.
  - cbn [updateLoop]. unfold mbind, Handler_bind, updateAnalysis, dbRun.
    destruct (db_run updateAnalysisSql _ (env_db e)) as [[m | result] db'].
    + exists 1%nat. cbn. repeat split; try lia; try discriminate.
      intros x [= <-]. eauto.
    + match goal with
      | |- context [updateLoop db_run rest ?e1] =>
          destruct (IH e1) as (k & Hk & He & Hd & Hr)
      end.
      exists (S k). cbn [List.length take fmap list_fmap]. split; [lia|].
      split.
      { rewrite He. cbn [effects]. rewrite <- app_assoc. reflexivity. }
      split; [intros H; specialize (Hd H); lia | exact Hr].
Qed.

(** X19. [analyzeAllFeedback]: with no unanalysed row it answers a count
    of 0 after the one SELECT.  With rows whose contents are text, the
    model is called once per row in row order, every Judgment is well
    formed, the UPDATEs follow all model calls, one per entry of
    the result map in its order (never more than there are rows), and the
    run either answers the size of that map or stops at the first
    rejected UPDATE, raising that rejection. *)
Theorem analyzeAllFeedback_on_text_rows (e : Env AiState DbState)
    (rows : list JsValue) (texts : list (JsValue * string)) :
  let out := analyzeAllFeedback ai_run db_all db_run e in
  let select := DbStatement DbAll selectUnanalyzedSql [] in
  let items := (fun p => (p.1, JStr p.2)) <$> texts in
  let run := batchAnalyzeFeedbackDyn ai_run items (mkWorld (env_ai e) []) in
  (db_all selectUnanalyzedSql [] (env_db e)).1 = DbResolves rows ->
  (rows = [] ->
   out.1 = Done (jsonResponse 200
                   (JObj [("success", JBool true);
                          ("message", JStr "No feedback to analyze");
                          ("count", Js.ofNat 0)])) /\
   effects out.2 = (effects e ++ [select])%list) /\
  (rows <> [] -> rowsToFeedback rows = Ok items ->
   exists entries k,
     run.1 = Ok entries /\
     Forall (fun en => wellFormed en.2) entries /\
     (List.length entries <= List.length rows)%nat /\
     modelCalls (trace run.2) = (fun p => prompt p.2) <$> texts /\
     (k <= List.length entries)%nat /\
     effects out.2 =
       (effects e ++ [select] ++ (ClassifierEvent <$> trace run.2)
        ++ (updateStatement <$> take k entries))%list /\
     (forall response, out.1 = Done response ->
        k = List.length entries /\
        response =
        jsonResponse 200
          (JObj [("success", JBool true);
                 ("count", Js.ofNat (List.length entries));
                 ("message",
                  JStr ("Analyzed " +:+
                        Conv.numberToString
                          (Num.ofZ (Z.of_nat (List.length entries)))
                        +:+ " feedback entries"))])) /\
     (forall x, out.1 = Raised x -> exists message, x = ThrownDb message)).
Proof.
  intros out select items run Hdb.
  assert (Hlen : forall its, rowsToFeedback rows = Ok its ->
                             List.length its = List.length rows).
  { clear. induction rows as [|r rest IH]; intros its H.
    - now injection H as <-.
    - cbn [rowsToFeedback] in H.
      destruct (getProp r "id"); [|discriminate].
      destruct (getProp r "content"); [|discriminate].
      cbn [mbind Result_bind] in H.
      destruct (rowsToFeedback rest) as [more|]; [|discriminate].
      injection H as <-. cbn [List.length]. f_equal. now apply IH. }
  subst out. unfold analyzeAllFeedback.
  rewrite (bind_Done _ _ _ _ _ (dbAll_resolves _ _ _ _ Hdb)). split.
  - intros ->. split; reflexivity.
  - intros Hne Hitems. destruct rows as [|row rest]; [contradiction|].
    rewrite Hitems.
    rewrite (bind_Done (js (Ok items)) _ _ _ items eq_refl).
    destruct (batchLoopDyn_text texts [] (mkWorld (env_ai e) []))
      as (entries & w' & new & Hrun & Hwf & Hl & Htr & Hmc); [constructor|].
    fold items in Hrun.
    assert (Hrun' : run = (Ok entries, w')) by exact Hrun.
    match goal with
    | |- context [(classifier _ ≫= _) ?e1] =>
        rewrite (bind_Done _ _ e1 _ _ (classifier_Ok _ e1 _ _ Hrun'))
    end.
    cbn [env_ai env_db effects].
    match goal with
    | |- context [(updateLoop db_run entries ≫= _) ?e1] =>
        destruct (updateLoop_effects entries e1) as (k & Hk & He & Hd & Hr);
        set (e2 := e1) in *
    end.
    exists entries, k. rewrite Hrun'. cbn [fst snd].
    split; [reflexivity|]. split; [exact Hwf|]. split.
    { rewrite <- (Hlen _ Hitems). subst items. rewrite length_fmap.
      cbn [List.length] in Hl. lia. }
    split.
    { rewrite Htr. cbn [trace app]. exact Hmc. }
    split; [exact Hk|].
    destruct (updateLoop db_run entries e2) as [[[] | x] e3] eqn:Eu;
      cbn [fst snd] in *.
    + rewrite (bind_Done _ _ _ _ _ Eu). unfold mret, Handler_ret.
      cbn [fst snd]. split.
      { rewrite He. subst e2. cbn [effects]. now rewrite <- !app_assoc. }
      split; [|discriminate].
      intros response [= <-]. split; [now apply Hd | reflexivity].
    + rewrite (bind_Raised _ _ _ _ _ Eu). cbn [fst snd]. split.
      { rewrite He. subst e2. cbn [effects]. now rewrite <- !app_assoc. }
      split; [discriminate|].
      intros y [= <-]. now apply Hr.
Qed.

End AnalyzeAllFacts.

Section GetStatsFacts.

Context {AiState DbState : Type}.
Variable db_all : string -> list JsValue -> DbState -> DbOutcome (list JsValue) * DbState.

#[local] Existing Instance Handler_ret.
#[local] Existing Instance Handler_bind.

Lemma optProp_never_raises (v : JsValue) (key : string) :
  exists r, Js.optProp v key = Ok r.
Proof. destruct v; cbn; eauto. Qed.

(** X20. [getStats] sends its four SELECTs in the order of the source,
    none with a parameter, and stops at the first one that is rejected,
    raising that rejection and nothing else.  When all four resolve, the
    answer is 200 and its [total] is truthy or the number 0 and its
    [urgency] is truthy, also when a SELECT returned no row. *)
Theorem getStats_outcome (e : Env AiState DbState) :
  let statements :=
    [DbStatement DbAll statsBySourceSql []; DbStatement DbAll statsBySentimentSql [];
     DbStatement DbAll statsUrgencySql []; DbStatement DbAll statsTotalSql []] in
  outcome (getStats db_all) e
    (fun response e' =>
       effects e' = (effects e ++ statements)%list /\
       exists bySource bySentiment total urgency,
         response =
         jsonResponse 200
           (JObj [("total", total); ("by_source", JArr bySource);
                  ("by_sentiment", JArr bySentiment); ("urgency", urgency)]) /\
         (Js.truthy total = true \/ total = JNum (Num.ofZ 0)) /\
         Js.truthy urgency = true)
    (fun x e' =>
       (exists message, x = ThrownDb message) /\
       exists k, (1 <= k <= 4)%nat /\
                 effects e' = (effects e ++ take k statements)%list).
Proof.
  intros statements. unfold outcome, getStats.
  unfold mbind, Handler_bind, dbAll, js, mret, Handler_ret, raise.
  destruct (db_all statsBySourceSql [] (env_db e)) as [[m1 | r1] d1]; cbn [env_db effects env_ai].
  { split; [eauto|]. exists 1%nat. split; [lia | reflexivity]. }
  destruct (db_all statsBySentimentSql [] d1) as [[m2 | r2] d2]; cbn [env_db effects env_ai].
  { split; [eauto|]. exists 2%nat. split; [lia|]. now rewrite <- !app_assoc. }
  destruct (db_all statsUrgencySql [] d2) as [[m3 | r3] d3]; cbn [env_db effects env_ai].
  { split; [eauto|]. exists 3%nat. split; [lia|]. now rewrite <- !app_assoc. }
  destruct (db_all statsTotalSql [] d3) as [[m4 | r4] d4]; cbn [env_db effects env_ai].
  { split; [eauto|]. exists 4%nat. split; [lia|]. now rewrite <- !app_assoc. }
  destruct (optProp_never_raises (Js.first r4) "total") as [t ->].
  cbn [effects]. split; [now rewrite <- !app_assoc|].
  eexists _, _, _, _. split; [reflexivity|]. split.
  - unfold Js.or. destruct (Js.truthy t) eqn:E; auto.
  - unfold Js.or. now destruct (Js.truthy (Js.first r3)) eqn:E.
Qed.

End GetStatsFacts.

Lemma analyzeEndpoint_rejections_witness :
  let request := mkRequest "POST" (mkURL "/api/analyze" []) (Str.q "{'id':0}") in
  analyzeEndpoint (scriptedAi (AiRejects "unused"))
    (fun _ _ st => (DbResolves [], st)) (fun _ _ st => (DbResolves JNull, st))
    request (mkEnv tt tt [])
  = (Done (jsonResponse 400 (JObj [("error", JStr "content or id is required")])),
     mkEnv tt tt []).
Proof.
  intros request.
  apply (proj1 (analyzeEndpoint_rejections (scriptedAi (AiRejects "unused"))
                  (fun _ _ st => (DbResolves [], st))
                  (fun _ _ st => (DbResolves JNull, st))
                  request (mkEnv tt tt []) [("id", JNum (Fin 0 0))]
                  ltac:(vm_compute; reflexivity) ltac:(reflexivity))).
  reflexivity.
Defined.

Lemma analyzeEndpoint_on_text_witness :
  let request :=
    mkRequest "POST" (mkURL "/api/analyze" [])
      (Str.q "{'id':7,'content':'Production is down'}") in
  effects (analyzeEndpoint (scriptedAi (AiRejects "quota exceeded"))
             (fun _ _ st => (DbResolves [], st))
             (fun _ _ st => (DbResolves JNull, st))
             request (mkEnv tt tt [])).2
  = [ClassifierEvent (EvAiRun modelName (prompt "Production is down") 150);
     ClassifierEvent (EvConsoleError "AI analysis error:" (AiError "quota exceeded"));
     DbStatement DbRun updateAnalysisSql
       [JStr "neutral"; JNum (Num.ofZ 5); JNum (Num.ofZ 7)]].
Proof.
  intros request.
  apply (proj1 (analyzeEndpoint_on_text (scriptedAi (AiRejects "quota exceeded"))
                  (fun _ _ st => (DbResolves [], st))
                  (fun _ _ st => (DbResolves JNull, st))
                  request (mkEnv tt tt [])
                  [("id", JNum (Fin 7 0)); ("content", JStr "Production is down")]
                  "Production is down"
                  ltac:(vm_compute; reflexivity) ltac:(reflexivity)
                  ltac:(discriminate))).
Defined.

Lemma analyzeEndpoint_cannot_fall_back_on_non_text_witness :
  let request :=
    mkRequest "POST" (mkURL "/api/analyze" []) (Str.q "{'content':42}") in
  (fetch (scriptedAi (AiRejects "quota exceeded"))
     (fun _ _ st => (DbResolves [], st)) (fun _ _ st => (DbResolves JNull, st))
     request (mkEnv tt tt [])).1
  = {| status := 500; headers := jsonHeaders;
       body := BodyError (ThrownJs TypeError) |}.
Proof.
  intros request.
  apply (proj2 (proj2 (analyzeEndpoint_cannot_fall_back_on_non_text
                  (scriptedAi (AiRejects "quota exceeded"))
                  (fun _ _ st => (DbResolves [], st))
                  (fun _ _ st => (DbResolves JNull, st))
                  request (mkEnv tt tt []) [("content", JNum (Fin 42 0))]
                  (JNum (Fin 42 0)) "42" (AiError "quota exceeded")
                  ltac:(vm_compute; reflexivity) ltac:(reflexivity)
                  ltac:(reflexivity) ltac:(discriminate)
                  ltac:(reflexivity) ltac:(reflexivity)))); reflexivity.
Defined.

Lemma analyzeAllFeedback_on_text_rows_witness :
  let rows := [JObj [("id", JNum (Fin 3 0)); ("content", JStr "Great work team!")]] in
  effects (analyzeAllFeedback (scriptedAi (AiRejects "quota exceeded"))
             (fun _ _ st => (DbResolves rows, st))
             (fun _ _ st => (DbResolves JNull, st)) (mkEnv tt tt [])).2
  <> [].
Proof.
  intros rows.
  destruct (proj2 (analyzeAllFeedback_on_text_rows
                     (scriptedAi (AiRejects "quota exceeded"))
                     (fun _ _ st => (DbResolves rows, st))
                     (fun _ _ st => (DbResolves JNull, st)) (mkEnv tt tt [])
                     rows [(JNum (Fin 3 0), "Great work team!")] eq_refl)
                  ltac:(discriminate) eq_refl)
    as (entries & k & _ & _ & _ & _ & _ & He & _).
  rewrite He. discriminate.
Defined.
